(** * kafka_benchmark.py: metric parsers, test runner, suite and report tables

    A shallow embedding of [src/python-example/kafka_benchmark.py].

    Text is [string]: a sequence of 8-bit characters, read as the Unicode code
    points U+0000..U+00FF.  Python dictionaries are association lists in
    insertion order.  Exceptions are values of an error monad.  A Python
    [float] is represented by the exact number its literal denotes (a reduced
    fraction), or an infinity, or NaN; binary64 rounding is not modelled. *)

From Stdlib Require Import Bool Arith ZArith QArith Qround List String Ascii Lia.
From Stdlib Require Import DecimalString.
Import ListNotations.

Local Open Scope list_scope.
Local Open Scope string_scope.
Local Open Scope nat_scope.

(* ================================================================== *)
(** ** Exceptions *)

Inductive exn : Type :=
| ValueError (text : string)
| IndexError
| KeyError (key : string)
| TypeError.

Inductive result (A : Type) : Type :=
| Ok (a : A)
| Raise (e : exn).

Arguments Ok {A} a.
Arguments Raise {A} e.

Definition bind {A B : Type} (m : result A) (k : A -> result B) : result B :=
match m with
| Ok a => k a
| Raise e => Raise e
end.

Notation "x <- m ;; k" := (bind m (fun x => k))
  (at level 61, m at next level, right associativity).

(* ================================================================== *)
(** ** Python built-ins used by the script *)

Module Py.

(** [str.isspace] on one character, for code points below 256. *)
Definition isspace (c : ascii) : bool :=
let n := nat_of_ascii c in
((9 <=? n) && (n <=? 13)) || ((28 <=? n) && (n <=? 32)) || (n =? 133) || (n =? 160).

(** Decimal digits (category Nd) below code point 256 are ['0'..'9']. *)
Definition isdigit (c : ascii) : bool :=
let n := nat_of_ascii c in (48 <=? n) && (n <=? 57).

Fixpoint lstrip (s : string) : string :=
match s with
| EmptyString => EmptyString
| String c s' => if isspace c then lstrip s' else s
end.

Fixpoint rstrip (s : string) : string :=
match s with
| EmptyString => EmptyString
| String c s' =>
    match rstrip s' with
    | EmptyString => if isspace c then EmptyString else String c EmptyString
    | r => String c r
    end
end.

(** [s.strip()] *)
Definition strip (s : string) : string := rstrip (lstrip s).

(** [s.split(sep)] for a one-character separator: never an empty list. *)
Fixpoint split (sep : ascii) (s : string) : list string :=
match s with
| EmptyString => [EmptyString]
| String c s' =>
    if Ascii.eqb c sep then EmptyString :: split sep s'
    else match split sep s' with
         | h :: t => String c h :: t
         | [] => [String c EmptyString]
         end
end.

(** [s.startswith(p)] *)
Fixpoint startswith (p s : string) : bool :=
match p, s with
| EmptyString, _ => true
| String a p', String b s' => Ascii.eqb a b && startswith p' s'
| String _ _, EmptyString => false
end.

(** Truth value of a string: non-empty. *)
Definition truthy (s : string) : bool :=
match s with
| EmptyString => false
| String _ _ => true
end.

(** [xs[i]] on a list, raising [IndexError] out of range (non-negative [i]). *)
Definition index {A : Type} (xs : list A) (i : nat) : result A :=
match nth_error xs i with
| Some x => Ok x
| None => Raise IndexError
end.

End Py.

(* ================================================================== *)
(** ** Floats and [float(str)] *)

Inductive pyfloat : Type :=
| Fin (q : Q)
| Inf (negative : bool)
| NaN.

Module PyFloat.

Definition digit_val (c : ascii) : Z := Z.of_nat (nat_of_ascii c - 48).

Fixpoint digits_to_Z (acc : Z) (s : string) : Z :=
match s with
| EmptyString => acc
| String c s' => digits_to_Z (acc * 10 + digit_val c)%Z s'
end.

(** Longest prefix of digits, and the rest. *)
Fixpoint span_digits (s : string) : string * string :=
match s with
| EmptyString => (EmptyString, EmptyString)
| String c s' =>
    if Py.isdigit c
    then let (d, r) := span_digits s' in (String c d, r)
    else (EmptyString, s)
end.

(** An underscore is accepted only between two digits. *)
Fixpoint underscores_ok (prev : ascii) (s : string) : bool :=
match s with
| EmptyString => negb (Ascii.eqb prev "_")
| String c s' =>
    (if Ascii.eqb c "_" then Py.isdigit prev
     else if Ascii.eqb prev "_" then Py.isdigit c else true)
    && underscores_ok c s'
end.

Fixpoint remove_underscores (s : string) : string :=
match s with
| EmptyString => EmptyString
| String c s' =>
    if Ascii.eqb c "_" then remove_underscores s' else String c (remove_underscores s')
end.

Definition lower (c : ascii) : ascii :=
let n := nat_of_ascii c in
if (65 <=? n) && (n <=? 90) then ascii_of_nat (n + 32) else c.

Fixpoint lowercase (s : string) : string :=
match s with
| EmptyString => EmptyString
| String c s' => String (lower c) (lowercase s')
end.

(** The number [m * 10^e], as a reduced fraction. *)
Definition scale10 (m e : Z) : Q :=
Qred (if (0 <=? e)%Z then Qmake (m * 10 ^ e) 1 else Qmake m (Z.to_pos (10 ^ (- e)))).

Definition take_sign (s : string) : bool * string :=
match s with
| String "-" s' => (true, s')
| String "+" s' => (false, s')
| _ => (false, s)
end.

(** Optional exponent at the end of a literal: [None] when malformed. *)
Definition parse_exponent (s : string) : option Z :=
match s with
| EmptyString => Some 0%Z
| String c s' =>
    if Ascii.eqb (lower c) "e" then
      let (neg, s'') := take_sign s' in
      match span_digits s'' with
      | (String d ds, EmptyString) =>
          let e := digits_to_Z 0 (String d ds) in Some (if neg then (- e)%Z else e)
      | _ => None
      end
    else None
end.

(** [digits [. digits] [exponent]] or [. digits [exponent]] *)
Definition parse_number (neg : bool) (s : string) : option pyfloat :=
let (ip, r1) := span_digits s in
let (fp, r2) :=
  match r1 with
  | String "." r => span_digits r
  | _ => (EmptyString, r1)
  end in
match ip, fp with
| EmptyString, EmptyString => None
| _, _ =>
    match parse_exponent r2 with
    | Some e =>
        let m := digits_to_Z 0 (ip ++ fp) in
        Some (Fin (scale10 (if neg then (- m)%Z else m) (e - Z.of_nat (String.length fp))))
    | None => None
    end
end.

(** [float(s)] for a string [s]; [ValueError] when [s] is not a float literal. *)
Definition float (s : string) : result pyfloat :=
if underscores_ok "000" s then
  let (neg, body) := take_sign (Py.strip (remove_underscores s)) in
  let low := lowercase body in
  if String.eqb low "inf" || String.eqb low "infinity" then Ok (Inf neg)
  else if String.eqb low "nan" then Ok NaN
  else match parse_number neg body with
       | Some f => Ok f
       | None => Raise (ValueError s)
       end
else Raise (ValueError s).

End PyFloat.

(* ================================================================== *)
(** ** Values and dictionaries *)

Inductive pyval : Type :=
| VStr (s : string)
| VInt (z : Z)
| VFloat (f : pyfloat).

Definition dict : Type := list (string * pyval).

Module Dict.

Fixpoint get (k : string) (d : dict) : option pyval :=
match d with
| [] => None
| (k', v) :: d' => if String.eqb k k' then Some v else get k d'
end.

Definition mem (k : string) (d : dict) : bool :=
match get k d with
| Some _ => true
| None => false
end.

(** [d[k] = v]: overwrite in place, or append a new key. *)
Fixpoint set (k : string) (v : pyval) (d : dict) : dict :=
match d with
| [] => [(k, v)]
| (k', v') :: d' => if String.eqb k k' then (k, v) :: d' else (k', v') :: set k v d'
end.

(** [d.update(u)] *)
Definition update (d u : dict) : dict :=
fold_left (fun acc kv => set (fst kv) (snd kv) acc) u d.

Definition keys (d : dict) : list string := map fst d.

End Dict.

(* ================================================================== *)
(** ** Regular expressions: the fragment used by the producer pattern *)

Module Re.

(** The pattern is a concatenation of literal text, [cls+] and [(cls+)]. *)
Inductive atom : Type :=
| Chars (lit : string)
| Many1 (cls : ascii -> bool)
| Capture1 (cls : ascii -> bool).

Definition regex : Type := list atom.

Fixpoint strip_prefix (p s : string) : option string :=
match p, s with
| EmptyString, _ => Some s
| String a p', String b s' => if Ascii.eqb a b then strip_prefix p' s' else None
| String _ _, EmptyString => None
end.

Section Greedy.
Context {A : Type}.
Variable cls : ascii -> bool.
(** Continuation: the text taken by the repetition, and what is left. *)
Variable k : string -> string -> option A.

(** [cls*], greedy: take one more character first, give it back when the
    rest of the pattern fails. *)
Fixpoint star (taken s : string) : option A :=
match s with
| EmptyString => k taken s
| String c s' =>
    if cls c then
      match star (taken ++ String c EmptyString) s' with
      | Some r => Some r
      | None => k taken s
      end
    else k taken s
end.

Definition plus (s : string) : option A :=
match s with
| EmptyString => None
| String c s' => if cls c then star (String c EmptyString) s' else None
end.

End Greedy.

(** Match the atoms at the start of [s]; the result is the captured groups
    (in order) and the text after the match. *)
Fixpoint match_here (r : regex) (groups : list string) (s : string)
  : option (list string * string) :=
match r with
| [] => Some (rev groups, s)
| Chars lit :: r' =>
    match strip_prefix lit s with
    | Some s' => match_here r' groups s'
    | None => None
    end
| Many1 cls :: r' => plus cls (fun _ rest => match_here r' groups rest) s
| Capture1 cls :: r' => plus cls (fun taken rest => match_here r' (taken :: groups) rest) s
end.

(** [re.search]: the leftmost position where the pattern matches. *)
Fixpoint search (r : regex) (s : string) : option (list string) :=
match match_here r [] s with
| Some (groups, _) => Some groups
| None =>
    match s with
    | EmptyString => None
    | String _ s' => search r s'
    end
end.

(** [match.group(i)] for [i >= 1] *)
Definition group (m : list string) (i : nat) : result string :=
match i with
| O => Raise IndexError
| S j => Py.index m j
end.

(** What it means for a text to match: [Matches r m groups]. *)
Inductive Matches : regex -> string -> list string -> Prop :=
| M_nil : Matches [] EmptyString []
| M_chars lit r m gs :
    Matches r m gs -> Matches (Chars lit :: r) (lit ++ m) gs
| M_many cls r w m gs :
    w <> EmptyString -> (forall c, In c (list_ascii_of_string w) -> cls c = true) ->
    Matches r m gs -> Matches (Many1 cls :: r) (w ++ m) gs
| M_capture cls r w m gs :
    w <> EmptyString -> (forall c, In c (list_ascii_of_string w) -> cls c = true) ->
    Matches r m gs -> Matches (Capture1 cls :: r) (w ++ m) (w :: gs).

End Re.

(* ================================================================== *)
(** ** KafkaBenchmark: the two parsers *)

Definition digit_or_dot (c : ascii) : bool := Py.isdigit c || Ascii.eqb c ".".

(** [(\d+)\s+records sent,\s+([\d.]+)\s+records/sec\s+\(([\d.]+)\s+MB/sec\),\s+([\d.]+)\s+ms avg latency,\s+([\d.]+)\s+ms max latency] *)
Definition pattern : Re.regex :=
[ Re.Capture1 Py.isdigit; Re.Many1 Py.isspace; Re.Chars "records sent,";
  Re.Many1 Py.isspace; Re.Capture1 digit_or_dot; Re.Many1 Py.isspace;
  Re.Chars "records/sec"; Re.Many1 Py.isspace; Re.Chars "(";
  Re.Capture1 digit_or_dot; Re.Many1 Py.isspace; Re.Chars "MB/sec),";
  Re.Many1 Py.isspace; Re.Capture1 digit_or_dot; Re.Many1 Py.isspace;
  Re.Chars "ms avg latency,"; Re.Many1 Py.isspace; Re.Capture1 digit_or_dot;
  Re.Many1 Py.isspace; Re.Chars "ms max latency" ].

Definition _parse_producer_output (output : string) : result dict :=
let metrics : dict := [] in
match Re.search pattern output with
| Some m =>
    g1 <- Re.group m 1 ;; f1 <- PyFloat.float g1 ;;
    let metrics := Dict.set "records_sent" (VFloat f1) metrics in
    g2 <- Re.group m 2 ;; f2 <- PyFloat.float g2 ;;
    let metrics := Dict.set "records_per_sec" (VFloat f2) metrics in
    g3 <- Re.group m 3 ;; f3 <- PyFloat.float g3 ;;
    let metrics := Dict.set "throughput_mb_sec" (VFloat f3) metrics in
    g4 <- Re.group m 4 ;; f4 <- PyFloat.float g4 ;;
    let metrics := Dict.set "avg_latency_ms" (VFloat f4) metrics in
    g5 <- Re.group m 5 ;; f5 <- PyFloat.float g5 ;;
    let metrics := Dict.set "max_latency_ms" (VFloat f5) metrics in
    Ok metrics
| None => Ok metrics
end.


(** One statement [metrics[key] = float(parts[i])] after the other; the
    dictionary keeps what was assigned before a statement raised. *)
Fixpoint assign_floats (steps : list (string * nat)) (parts : list string)
  (metrics : dict) : dict * result unit :=
match steps with
| [] => (metrics, Ok tt)
| (key, i) :: steps' =>
    match (p <- Py.index parts i ;; PyFloat.float p) with
    | Ok f => assign_floats steps' parts (Dict.set key (VFloat f) metrics)
    | Raise e => (metrics, Raise e)
    end
end.

(** The body of the loop for the line that passes the test: lines 231-242. *)
Definition consumer_row (line : string) (metrics : dict) : result dict :=
let parts := map Py.strip (Py.split "," line) in
if 6 <=? List.length parts then
  let (metrics, r) :=
    assign_floats
      ([("data_consumed_mb", 2); ("throughput_mb_sec", 3);
        ("messages_consumed", 4); ("records_per_sec", 5)]
       ++ (if 10 <=? List.length parts
           then [("rebalance_time_ms", 6); ("fetch_time_ms", 7)] else []))
      parts metrics in
  match r with
  | Ok _ => Ok metrics
  | Raise (ValueError _) => Ok metrics
  | Raise IndexError => Ok metrics
  | Raise e => Raise e
  end
else Ok metrics.

(** The test of line 230. *)
Definition is_candidate (line : string) : bool :=
Py.truthy (Py.strip line) && negb (Py.startswith "start.time" line).

(** [for line in reversed(lines): if ...: ...; break] *)
Fixpoint consumer_scan (lines : list string) (metrics : dict) : result dict :=
match lines with
| [] => Ok metrics
| line :: lines' =>
    if is_candidate line then consumer_row line metrics
    else consumer_scan lines' metrics
end.

Definition newline : ascii := "010"%char.

Definition _parse_consumer_output (output : string) : result dict :=
let metrics : dict := [] in
let lines := Py.split newline (Py.strip output) in
consumer_scan (rev lines) metrics.

(* ================================================================== *)
(** ** KafkaBenchmark: running one test, running the suite *)

(** What [subprocess.run(cmd, capture_output=True, text=True, timeout=300)]
    does: it returns a completed process, or raises [TimeoutExpired], or
    raises something else (its message is kept). *)
Inductive proc_outcome : Type :=
| Completed (returncode : Z) (stdout stderr : string)
| TimeoutExpired
| OtherException (message : string).

(** One invocation as the script observes it: the process, the measured
    [time.time() - start_time], and [datetime.now().isoformat()]. *)
Record invocation : Type := {
  outcome : proc_outcome;
  elapsed_time : pyfloat;
  timestamp : string
}.

(** The environment answers an argument list with an invocation. *)
Definition environment : Type := list string -> invocation.

Record KafkaBenchmark : Type := {
  bootstrap_servers : string;
  kafka_bin_path : string;
  results : list dict
}.

Definition append_result (self : KafkaBenchmark) (r : dict) : KafkaBenchmark :=
{| bootstrap_servers := bootstrap_servers self;
   kafka_bin_path := kafka_bin_path self;
   results := results self ++ [r] |}.

(** [str(n)] for an integer *)
Definition str_of_int (z : Z) : string := NilZero.string_of_int (Z.to_int z).

(** [str(e)] for the exceptions of the model; the text of a [ValueError] of
    [float] quotes the offending string. *)
Definition str_of_exn (e : exn) : string :=
match e with
| ValueError text => "could not convert string to float: '" ++ text ++ "'"
| IndexError => "list index out of range"
| KeyError key => "'" ++ key ++ "'"
| TypeError => "unsupported operand type"
end.

(** [str(Path(kafka_bin_path) / command)], or the bare command; pathlib's
    normalisation of the directory part is not modelled. *)
Definition _get_command_path (self : KafkaBenchmark) (command : string) : string :=
if Py.truthy (kafka_bin_path self) then kafka_bin_path self ++ "/" ++ command
else command.

(** Keyword arguments of [run_producer_test]; [None] means left out. *)
Record producer_config : Type := {
  p_topic : string;
  p_num_records : option Z;
  p_record_size : option Z;
  p_acks : option string;
  p_test_name : option string
}.

(** Keyword arguments of [run_consumer_test]. *)
Record consumer_config : Type := {
  c_topic : string;
  c_messages : option Z;
  c_test_name : option string
}.

Definition default {A : Type} (o : option A) (d : A) : A :=
match o with
| Some a => a
| None => d
end.

(** [test_name or fallback] *)
Definition name_or (test_name : option string) (fallback : string) : string :=
match test_name with
| Some n => if Py.truthy n then n else fallback
| None => fallback
end.

(** Returns the object after the call and the dictionary the call returns. *)
Definition run_producer_test (env : environment) (self : KafkaBenchmark)
  (cfg : producer_config) : KafkaBenchmark * dict :=
let topic := p_topic cfg in
let num_records := default (p_num_records cfg) 1000000%Z in
let record_size := default (p_record_size cfg) 1024%Z in
let acks := default (p_acks cfg) "1" in
let test_name := name_or (p_test_name cfg) (topic ++ "-producer") in
let cmd :=
  [ _get_command_path self "kafka-producer-perf-test.sh";
    "--topic"; topic;
    "--num-records"; str_of_int num_records;
    "--record-size"; str_of_int record_size;
    "--throughput"; "-1";
    "--producer-props";
    "bootstrap.servers=" ++ bootstrap_servers self;
    "acks=" ++ acks ] in
let inv := env cmd in
match outcome inv with
| Completed returncode stdout stderr =>
    if (returncode =? 0)%Z then
      match _parse_producer_output stdout with
      | Ok metrics =>
          let metrics :=
            Dict.update metrics
              [ ("test_name", VStr test_name);
                ("test_type", VStr "producer");
                ("topic", VStr topic);
                ("num_records", VInt num_records);
                ("record_size", VInt record_size);
                ("acks", VStr acks);
                ("status", VStr "success");
                ("elapsed_time", VFloat (elapsed_time inv));
                ("timestamp", VStr (timestamp inv)) ] in
          (append_result self metrics, metrics)
      | Raise e =>
          (self, [ ("test_name", VStr test_name); ("test_type", VStr "producer");
                   ("status", VStr "error"); ("error", VStr (str_of_exn e)) ])
      end
    else
      let error_result :=
        [ ("test_name", VStr test_name);
          ("test_type", VStr "producer");
          ("topic", VStr topic);
          ("status", VStr "failed");
          ("error", VStr stderr);
          ("timestamp", VStr (timestamp inv)) ] in
      (append_result self error_result, error_result)
| TimeoutExpired =>
    (self, [ ("test_name", VStr test_name); ("test_type", VStr "producer");
             ("status", VStr "timeout") ])
| OtherException message =>
    (self, [ ("test_name", VStr test_name); ("test_type", VStr "producer");
             ("status", VStr "error"); ("error", VStr message) ])
end.

(** [self.bootstrap_servers.split(',')[0]] *)
Definition first_server (servers : string) : string :=
match Py.split "," servers with
| h :: _ => h
| [] => EmptyString
end.

Definition run_consumer_test (env : environment) (self : KafkaBenchmark)
  (cfg : consumer_config) : KafkaBenchmark * dict :=
let topic := c_topic cfg in
let messages := default (c_messages cfg) 1000000%Z in
let test_name := name_or (c_test_name cfg) (topic ++ "-consumer") in
let bootstrap_server := first_server (bootstrap_servers self) in
let cmd :=
  [ _get_command_path self "kafka-consumer-perf-test.sh";
    "--bootstrap-server"; bootstrap_server;
    "--topic"; topic;
    "--messages"; str_of_int messages;
    "--show-detailed-stats" ] in
let inv := env cmd in
match outcome inv with
| Completed returncode stdout stderr =>
    if (returncode =? 0)%Z then
      match _parse_consumer_output stdout with
      | Ok metrics =>
          let metrics :=
            Dict.update metrics
              [ ("test_name", VStr test_name);
                ("test_type", VStr "consumer");
                ("topic", VStr topic);
                ("messages", VInt messages);
                ("status", VStr "success");
                ("elapsed_time", VFloat (elapsed_time inv));
                ("timestamp", VStr (timestamp inv)) ] in
          (append_result self metrics, metrics)
      | Raise e =>
          (self, [ ("test_name", VStr test_name); ("test_type", VStr "consumer");
                   ("status", VStr "error"); ("error", VStr (str_of_exn e)) ])
      end
    else
      let error_result :=
        [ ("test_name", VStr test_name);
          ("test_type", VStr "consumer");
          ("topic", VStr topic);
          ("status", VStr "failed");
          ("error", VStr stderr);
          ("timestamp", VStr (timestamp inv)) ] in
      (append_result self error_result, error_result)
| TimeoutExpired =>
    (self, [ ("test_name", VStr test_name); ("test_type", VStr "consumer");
             ("status", VStr "timeout") ])
| OtherException message =>
    (self, [ ("test_name", VStr test_name); ("test_type", VStr "consumer");
             ("status", VStr "error"); ("error", VStr message) ])
end.

(** The environment of a whole run: the answer to the [n]-th call of
    [subprocess.run], counted from 0. *)
Definition world : Type := nat -> environment.

(** [for config in configs: run the test on config; time.sleep(2)],
    threading the object and the number of calls made so far. *)
Fixpoint run_each {C : Type}
  (run : environment -> KafkaBenchmark -> C -> KafkaBenchmark * dict)
  (w : world) (configs : list C) (st : KafkaBenchmark * nat) : KafkaBenchmark * nat :=
match configs with
| [] => st
| config :: configs' =>
    let (self, n) := st in
    run_each run w configs' (fst (run (w n) self config), S n)
end.

(** [consumer_configs] defaults to [None]; an empty list is as good as none. *)
Definition run_test_suite (w : world) (self : KafkaBenchmark)
  (producer_configs : list producer_config)
  (consumer_configs : option (list consumer_config)) : KafkaBenchmark :=
let st := run_each run_producer_test w producer_configs (self, 0) in
let st := run_each run_consumer_test w (default consumer_configs []) st in
fst st.

(* ================================================================== *)
(** ** Numeric columns: the pandas reductions the report uses

    Exact arithmetic on the numbers the floats denote.  The reductions skip
    NaN, as pandas does by default. *)

Module Num.

Definition is_nan (x : pyfloat) : bool :=
match x with
| NaN => true
| _ => false
end.

Definition add (a b : pyfloat) : pyfloat :=
match a, b with
| NaN, _ => NaN
| _, NaN => NaN
| Inf x, Inf y => if Bool.eqb x y then Inf x else NaN
| Inf x, Fin _ => Inf x
| Fin _, Inf y => Inf y
| Fin p, Fin q => Fin (Qred (p + q))
end.

(** Division by a positive count. *)
Definition div_count (a : pyfloat) (n : nat) : pyfloat :=
match a with
| Fin p => Fin (Qred (p / inject_Z (Z.of_nat n)))
| other => other
end.

(** [a <= b] on numbers that are not NaN. *)
Definition le (a b : pyfloat) : bool :=
match a, b with
| Inf true, _ => true
| _, Inf false => true
| Fin p, Fin q => Qle_bool p q
| _, _ => false
end.

Definition total (xs : list pyfloat) : pyfloat := fold_left add xs (Fin 0).

(** [Series.sum()] *)
Definition sum (xs : list pyfloat) : pyfloat :=
total (filter (fun x => negb (is_nan x)) xs).

(** [Series.mean()]: NaN when nothing is left to average. *)
Definition mean (xs : list pyfloat) : pyfloat :=
match filter (fun x => negb (is_nan x)) xs with
| [] => NaN
| ys => div_count (total ys) (List.length ys)
end.

(** Position and value of the first greatest element that is not NaN. *)
Fixpoint argmax_from (i : nat) (best : option (nat * pyfloat)) (xs : list pyfloat)
  : option (nat * pyfloat) :=
match xs with
| [] => best
| x :: xs' =>
    let best' :=
      if is_nan x then best
      else match best with
           | None => Some (i, x)
           | Some (_, b) => if le x b then best else Some (i, x)
           end in
    argmax_from (S i) best' xs'
end.

(** [Series.max()] *)
Definition max (xs : list pyfloat) : pyfloat :=
match argmax_from 0 None xs with
| Some (_, b) => b
| None => NaN
end.

(** [Series.idxmax()], as a position; [None] when every entry is NaN. *)
Definition idxmax (xs : list pyfloat) : option nat :=
match argmax_from 0 None xs with
| Some (i, _) => Some i
| None => None
end.

(** Nearest integer, ties to the even one. *)
Definition round_half_even (q : Q) : Z :=
let f := Qfloor q in
match Qcompare (q - inject_Z f) (1 # 2) with
| Lt => f
| Gt => (f + 1)%Z
| Eq => if Z.even f then f else (f + 1)%Z
end.

(** [.round(2)] *)
Definition round2 (x : pyfloat) : pyfloat :=
match x with
| Fin q => Fin (Qred (Qmake (round_half_even (q * 100)) 100))
| other => other
end.

End Num.

(* ================================================================== *)
(** ** ReportGenerator

    A data frame is its column names and its rows; a row keeps the
    dictionary it was built from, and a key the row lacks is a NaN cell.
    Columns that are averaged hold numbers; a string in such a column makes
    the reduction raise [TypeError]. *)

Record frame : Type := {
  columns : list string;
  rows : list dict
}.

Definition empty_frame : frame := {| columns := []; rows := [] |}.

Definition add_column (cols : list string) (k : string) : list string :=
if existsb (String.eqb k) cols then cols else (cols ++ [k])%list.

(** [pd.DataFrame(list of dicts)]: the columns are the keys, in the order met. *)
Definition DataFrame (records : list dict) : frame :=
{| columns := fold_left (fun cols r => fold_left add_column (Dict.keys r) cols) records [];
   rows := records |}.

(** [df.empty] *)
Definition frame_empty (f : frame) : bool :=
match columns f, rows f with
| [], _ => true
| _, [] => true
| _, _ => false
end.

Definition has_column (f : frame) (c : string) : bool :=
existsb (String.eqb c) (columns f).

(** [df[c]]: [KeyError] when there is no such column. *)
Definition column (f : frame) (c : string) : result (list (option pyval)) :=
if has_column f c then Ok (map (Dict.get c) (rows f)) else Raise (KeyError c).

Definition numeric (cell : option pyval) : result pyfloat :=
match cell with
| None => Ok NaN
| Some (VFloat x) => Ok x
| Some (VInt z) => Ok (Fin (inject_Z z))
| Some (VStr _) => Raise TypeError
end.

Fixpoint map_result {A B : Type} (f : A -> result B) (xs : list A) : result (list B) :=
match xs with
| [] => Ok []
| x :: xs' => y <- f x ;; ys <- map_result f xs' ;; Ok (y :: ys)
end.

Definition numeric_column (f : frame) (c : string) : result (list pyfloat) :=
cells <- column f c ;; map_result numeric cells.

(** The cell holds the string [v]. *)
Definition cell_is (c v : string) (r : dict) : bool :=
match Dict.get c r with
| Some (VStr s) => String.eqb s v
| _ => false
end.

(** [df[df[c] == v]] *)
Definition select (f : frame) (c v : string) : frame :=
{| columns := columns f; rows := filter (cell_is c v) (rows f) |}.

Record ReportGenerator : Type := {
  rg_results : list dict;
  df : frame;
  producer_df : frame;
  consumer_df : frame
}.

(** [ReportGenerator.__init__] *)
Definition ReportGenerator_init (results : list dict) : result ReportGenerator :=
let successful_results := filter (cell_is "status" "success") results in
let df :=
  match successful_results with
  | [] => empty_frame
  | _ => DataFrame successful_results
  end in
if negb (frame_empty df) then
  _ <- column df "test_type" ;;
  Ok {| rg_results := results; df := df;
        producer_df := select df "test_type" "producer";
        consumer_df := select df "test_type" "consumer" |}
else
  Ok {| rg_results := results; df := df;
        producer_df := empty_frame; consumer_df := empty_frame |}.

(** The column reads of [_create_charts], in order; the figure itself is
    the plotting library's. *)
Fixpoint read_columns (f : frame) (numeric_cols : bool) (cs : list string) : result unit :=
match cs with
| [] => Ok tt
| c :: cs' =>
    _ <- (if numeric_cols then _ <- numeric_column f c ;; Ok tt
          else _ <- column f c ;; Ok tt) ;;
    read_columns f numeric_cols cs'
end.

Definition _create_charts (self : ReportGenerator) : result unit :=
let has_producer := negb (frame_empty (producer_df self)) in
let has_consumer := negb (frame_empty (consumer_df self)) in
if has_producer && has_consumer then
  _ <- read_columns (producer_df self) false ["test_name"] ;;
  _ <- read_columns (producer_df self) true ["throughput_mb_sec"] ;;
  _ <- read_columns (producer_df self) false ["topic"] ;;
  _ <- (if has_column (producer_df self) "avg_latency_ms"
        then read_columns (producer_df self) true ["avg_latency_ms"] else Ok tt) ;;
  _ <- read_columns (consumer_df self) false ["test_name"] ;;
  _ <- read_columns (consumer_df self) true ["throughput_mb_sec"] ;;
  _ <- read_columns (consumer_df self) false ["topic"] ;;
  _ <- read_columns (consumer_df self) true ["records_per_sec"] ;;
  read_columns (producer_df self) true ["records_per_sec"]
else
  let df_to_use := if has_producer then producer_df self else consumer_df self in
  _ <- read_columns df_to_use false ["test_name"] ;;
  _ <- read_columns df_to_use true ["throughput_mb_sec"] ;;
  _ <- read_columns df_to_use false ["topic"] ;;
  _ <- read_columns df_to_use true ["records_per_sec"] ;;
  if has_producer && has_column df_to_use "avg_latency_ms"
  then read_columns df_to_use true ["avg_latency_ms"; "max_latency_ms"]
  else Ok tt.

Definition topic_order : list string :=
["p1-rf1"; "p1-rf3"; "p3-rf3"; "p12-rf3"; "p30-rf3"].

(** One row of a summary table. *)
Record topic_row : Type := {
  row_topic : string;
  row_throughput_mb_sec : pyfloat;
  row_records_per_sec : pyfloat;
  row_avg_latency_ms : option pyfloat
}.

Fixpoint insert_sorted (t : string) (ts : list string) : list string :=
match ts with
| [] => [t]
| u :: ts' =>
    if String.eqb t u then ts
    else if String.leb t u then t :: ts
    else u :: insert_sorted t ts'
end.

(** The group labels of [groupby('topic')]: the distinct topics, sorted;
    rows without a topic belong to no group. *)
Definition group_labels (cells : list (option pyval)) : list string :=
fold_left
  (fun acc cell =>
     match cell with
     | Some (VStr t) => insert_sorted t acc
     | _ => acc
     end)
  cells [].

(** Mean of column [c] over the rows of group [t]. *)
Definition group_mean (f : frame) (c t : string) : result pyfloat :=
xs <- map_result numeric (map (Dict.get c) (filter (cell_is "topic" t) (rows f))) ;;
Ok (Num.mean xs).

(** [groupby('topic').agg({'throughput_mb_sec': 'mean', 'records_per_sec': 'mean'}).round(2)],
    with the latency column added when asked for. *)
Definition topic_stats (f : frame) (with_latency : bool) : result (list topic_row) :=
topics <- column f "topic" ;;
_ <- column f "throughput_mb_sec" ;;
_ <- column f "records_per_sec" ;;
map_result
  (fun t =>
     tp <- group_mean f "throughput_mb_sec" t ;;
     rps <- group_mean f "records_per_sec" t ;;
     lat <- (if with_latency
             then l <- group_mean f "avg_latency_ms" t ;; Ok (Some (Num.round2 l))
             else Ok None) ;;
     Ok {| row_topic := t;
           row_throughput_mb_sec := Num.round2 tp;
           row_records_per_sec := Num.round2 rps;
           row_avg_latency_ms := lat |})
  (group_labels topics).

Definition in_index (stats : list topic_row) (t : string) : bool :=
existsb (fun r => String.eqb (row_topic r) t) stats.

(** [stats.reindex(labels)]: the rows in the order of [labels]; a label the
    index lacks gives a row of NaN. *)
Definition reindex (stats : list topic_row) (labels : list string) : list topic_row :=
map
  (fun t =>
     match find (fun r => String.eqb (row_topic r) t) stats with
     | Some r => r
     | None =>
         {| row_topic := t; row_throughput_mb_sec := NaN; row_records_per_sec := NaN;
            row_avg_latency_ms :=
              match stats with
              | r :: _ => match row_avg_latency_ms r with Some _ => Some NaN | None => None end
              | [] => None
              end |}
     end)
  labels.

(** The rows of one summary table: lines 654-661 and 694-698. *)
Definition summary_table (f : frame) (with_latency : bool) : result (list topic_row) :=
stats <- topic_stats f with_latency ;;
Ok (reindex stats (filter (in_index stats) topic_order)).

(** What the summary shows: the four callouts, the tables, the insights. *)
Record report : Type := {
  total_records : pyfloat;
  avg_throughput : pyfloat;
  max_throughput : pyfloat;
  best_test : option pyval;
  producer_table : option (list topic_row);
  consumer_table : option (list topic_row);
  insights : list string
}.

(** Lines 637-640 and 642-645, for the frame and the counting column. *)
Definition overall (f : frame) (count_col : string)
  : result (pyfloat * pyfloat * pyfloat * option pyval) :=
total <- (if has_column f count_col
          then xs <- numeric_column f count_col ;; Ok (Num.sum xs)
          else Ok (Fin 0)) ;;
tp <- numeric_column f "throughput_mb_sec" ;;
match Num.idxmax tp with
| None => Raise (KeyError "nan")
| Some i =>
    names <- column f "test_name" ;;
    name <- Py.index names i ;;
    Ok (total, Num.mean tp, Num.max tp, name)
end.

Definition _generate_summary_html (self : ReportGenerator) : result report :=
let has_producer := negb (frame_empty (producer_df self)) in
let has_consumer := negb (frame_empty (consumer_df self)) in
stats <- (if has_producer then overall (producer_df self) "records_sent"
          else overall (consumer_df self) "messages_consumed") ;;
let '(total, avg, mx, best) := stats in
ptable <- (if has_producer
           then t <- summary_table (producer_df self)
                       (has_column (producer_df self) "avg_latency_ms") ;; Ok (Some t)
           else Ok None) ;;
ctable <- (if has_consumer
           then t <- summary_table (consumer_df self) false ;; Ok (Some t)
           else Ok None) ;;
Ok {| total_records := total;
      avg_throughput := avg;
      max_throughput := mx;
      best_test := best;
      producer_table := ptable;
      consumer_table := ctable;
      insights :=
        ((if has_producer
          then ["<li><strong>Replication Impact:</strong> Compare p1-rf1 vs p1-rf3 to see replication overhead</li>";
                "<li><strong>Partition Scaling:</strong> Higher partition counts improve throughput</li>"]
          else []) ++
         (if has_consumer
          then ["<li><strong>Consumer Performance:</strong> Consumers typically achieve higher throughput</li>"]
          else []) ++
         (if has_producer && has_consumer
          then ["<li><strong>End-to-End:</strong> Compare producer and consumer for the same topic</li>"]
          else []))%list |}.

(** [None] when no test succeeded; otherwise the report that is written. *)
Definition generate_html_report (self : ReportGenerator) : result (option report) :=
if frame_empty (df self) then Ok None
else
  _ <- _create_charts self ;;
  summary <- _generate_summary_html self ;;
  Ok (Some summary).

(** [buildReport]: make the generator from the outcomes, then the report. *)
Definition build_report (results : list dict) : result (option report) :=
self <- ReportGenerator_init results ;;
generate_html_report self.

(* ================================================================== *)
(** ** Notions used in the statements *)

(** Every character of [w] is in the class. *)
Definition all_in (cls : ascii -> bool) (w : string) : Prop :=
forall c, In c (list_ascii_of_string w) -> cls c = true.

(** The text is over, or goes on with a character outside the class. *)
Definition stops (cls : ascii -> bool) (s : string) : Prop :=
match s with
| EmptyString => True
| String c _ => cls c = false
end.

(** What follows a repetition cannot start inside its class. *)
Definition first_outside (cls : ascii -> bool) (r : Re.regex) : Prop :=
match r with
| Re.Chars (String c _) :: _ => cls c = false
| Re.Many1 cls' :: _ => forall c, cls' c = true -> cls c = false
| Re.Capture1 cls' :: _ => forall c, cls' c = true -> cls c = false
| _ => False
end.

(** A pattern in which no repetition can give characters back. *)
Fixpoint deterministic (r : Re.regex) : Prop :=
match r with
| [] => True
| Re.Chars _ :: r' => deterministic r'
| Re.Many1 cls :: r' => first_outside cls r' /\ deterministic r'
| Re.Capture1 cls :: r' => first_outside cls r' /\ deterministic r'
end.

(** [text] has no piece that matches the producer pattern. *)
Definition no_match (text : string) : Prop :=
forall before m after gs, text = before ++ m ++ after -> ~ Re.Matches pattern m gs.

(** The five keys of a producer metric set. *)
Definition producer_keys : list string :=
["records_sent"; "records_per_sec"; "throughput_mb_sec"; "avg_latency_ms"; "max_latency_ms"].

(** Dropping the first [n] characters. *)
Fixpoint sdrop (n : nat) (s : string) : string :=
match n, s with
| O, _ => s
| S n', String _ s' => sdrop n' s'
| S _, EmptyString => EmptyString
end.

(** The claim of C2 read for every matching piece of the text. *)
Definition reads_every_matching_line : Prop :=
forall pre m post g1 g2 g3 g4 g5 v1 v2 v3 v4 v5,
  Re.Matches pattern m [g1; g2; g3; g4; g5] ->
  PyFloat.float g1 = Ok v1 -> PyFloat.float g2 = Ok v2 -> PyFloat.float g3 = Ok v3 ->
  PyFloat.float g4 = Ok v4 -> PyFloat.float g5 = Ok v5 ->
  _parse_producer_output (pre ++ m ++ post) =
    Ok [ ("records_sent", VFloat v1); ("records_per_sec", VFloat v2);
         ("throughput_mb_sec", VFloat v3); ("avg_latency_ms", VFloat v4);
         ("max_latency_ms", VFloat v5) ].

Definition progress_line : string :=
"5000 records sent, 999.5 records/sec (0.98 MB/sec), 12.5 ms avg latency, 300.0 ms max latency".

Definition summary_line : string :=
"1000000 records sent, 199960.01 records/sec (195.27 MB/sec), 2.41 ms avg latency, 445.00 ms max latency".

(** A line with nothing but white space. *)
Definition blank (line : string) : Prop := Py.strip line = "".

(** A line that starts with [start.time]. *)
Definition header (line : string) : Prop := Py.startswith "start.time" line = true.

(** The lines the loop runs over, in the order of the text. *)
Definition output_lines (output : string) : list string :=
Py.split newline (Py.strip output).

(** [row] is the last line that is neither blank nor a header. *)
Definition last_data_row (output : string) (before : list string) (row : string)
  (after : list string) : Prop :=
output_lines output = (before ++ row :: after)%list /\
~ blank row /\ ~ header row /\
Forall (fun line => blank line \/ header line) after.

(** The fields of a row: split at commas, each stripped. *)
Definition fields (row : string) : list string := map Py.strip (Py.split "," row).

(** Field number [i], counted from 1. *)
Definition field (row : string) (i : nat) : string := nth (i - 1) (fields row) "".

Definition header_line : string :=
"start.time,end.time,data.consumed.in.MB,MB.sec,data.consumed.in.nMsg,nMsg.sec".

Definition data_line : string := "09:00:00,09:00:10,500.0,50.0,100000,10000.0".

(** The key and the field number (from 1) of each consumer metric. *)
Definition consumer_fields : list (string * nat) :=
[ ("data_consumed_mb", 3); ("throughput_mb_sec", 4); ("messages_consumed", 5);
  ("records_per_sec", 6); ("rebalance_time_ms", 7); ("fetch_time_ms", 8) ].

Definition interval_line : string := "09:00:00,09:00:05,250.0,50.0,50000,10000.0,1,2,3,4".

Definition final_line : string := "09:00:00,09:00:10,500.5,50.05,100000,10000.0,3000,7000,71.5,14285.7".

Definition good_line : string := "09:00:00,09:00:05,250.0,50.0,50000,10000.0".

Definition drifted_line : string := "09:00:00,09:00:10,500.0,n/a,100000,10000.0".

Definition short_line : string := "09:00:00,09:00:10,500.0".

Definition exits_zero_with (stdout : string) : environment :=
fun _ => {| outcome := Completed 0 stdout ""; elapsed_time := Fin 3; timestamp := "2024-01-01T09:00:00" |}.

Definition fresh : KafkaBenchmark :=
{| bootstrap_servers := "localhost:29092,localhost:39092"; kafka_bin_path := ""; results := [] |}.

Definition producer_on (topic : string) : producer_config :=
{| p_topic := topic; p_num_records := None; p_record_size := None;
   p_acks := None; p_test_name := None |}.

Definition consumer_on (topic : string) : consumer_config :=
{| c_topic := topic; c_messages := None; c_test_name := None |}.

(** A run in which every call of the external tool times out. *)
Definition always_times_out : world :=
fun _ _ => {| outcome := TimeoutExpired; elapsed_time := Fin 300; timestamp := "" |}.

(** The outcomes with status [success], and the producers and consumers
    among them. *)
Definition successes (results : list dict) : list dict :=
filter (cell_is "status" "success") results.

Definition producers (results : list dict) : list dict :=
filter (cell_is "test_type" "producer") (successes results).

Definition consumers (results : list dict) : list dict :=
filter (cell_is "test_type" "consumer") (successes results).

(** Some outcome of the list has this topic. *)
Definition has_topic (t : string) (outcomes : list dict) : bool :=
existsb (cell_is "topic" t) outcomes.

(** The outcomes of the list with this topic. *)
Definition of_topic (t : string) (outcomes : list dict) : list dict :=
filter (cell_is "topic" t) outcomes.

(** The arithmetic mean of a list of numbers. *)
Definition average (qs : list Q) : Q :=
(fold_right Qplus 0 qs / inject_Z (Z.of_nat (List.length qs)))%Q.

(** The cells of a column that hold exactly these finite numbers. *)
Definition holds (k : string) (outcomes : list dict) (qs : list Q) : Prop :=
map (Dict.get k) outcomes = map (fun q => Some (VFloat (Fin q))) qs.

(** A run of the suite in which every call exits with code 0; the standard
    output of the [n]-th call is [outputs n]. *)
Definition all_exit_zero (outputs : nat -> string) : world :=
fun n => exits_zero_with (outputs n).

Definition producer_line (throughput : string) : string :=
"1000 records sent, 100.0 records/sec (" ++ throughput
  ++ " MB/sec), 2.5 ms avg latency, 40.0 ms max latency".

(** Five successful producer runs: twice [p1-rf1] (1.001 and 1.002 MB/sec),
    then [orders], [p30-rf3] and [p3-rf3] (7.5 MB/sec each). *)
Definition sample_results : list dict :=
results
  (run_test_suite
     (all_exit_zero (fun n => producer_line (match n with
                                              | 0 => "1.001"
                                              | 1 => "1.002"
                                              | _ => "7.5"
                                              end)))
     fresh
     [producer_on "p1-rf1"; producer_on "p1-rf1"; producer_on "orders";
      producer_on "p30-rf3"; producer_on "p3-rf3"]
     None).

Definition no_report : report :=
{| total_records := NaN; avg_throughput := NaN; max_throughput := NaN; best_test := None;
   producer_table := None; consumer_table := None; insights := [] |}.

Definition report_of (r : result (option report)) : report :=
match r with
| Ok (Some rep) => rep
| _ => no_report
end.

Definition sample_report : report :=
Eval vm_compute in report_of (build_report sample_results).

(** The claim of C4 for the producer table: a topic outside the list has
    its row all the same. *)
Definition unlisted_topics_appear : Prop :=
forall results rep table t,
  build_report results = Ok (Some rep) -> producer_table rep = Some table ->
  has_topic t (producers results) = true -> In t (map row_topic table).

(** The claim of C8: every topic of the successful producers has a row,
    and the row shows the arithmetic mean. *)
Definition every_topic_shows_its_mean : Prop :=
forall results rep table t qs,
  build_report results = Ok (Some rep) -> producer_table rep = Some table ->
  qs <> [] -> holds "throughput_mb_sec" (of_topic t (producers results)) qs ->
  exists row q, In row table /\ row_topic row = t /\
                row_throughput_mb_sec row = Fin q /\ (q == average qs)%Q.

(** Two successful producer runs on topic [orders], 7.5 and 8.5 MB/sec. *)
Definition orders_results : list dict :=
results
  (run_test_suite
     (all_exit_zero (fun n => producer_line (match n with 0 => "7.5" | _ => "8.5" end)))
     fresh [producer_on "orders"; producer_on "orders"] None).

Definition orders_report : report :=
Eval vm_compute in report_of (build_report orders_results).

(** The outcome has a float under the key. *)
Definition float_at (k : string) (e : dict) : Prop :=
exists x, Dict.get k e = Some (VFloat x).

Definition float_or_absent (k : string) (e : dict) : Prop :=
Dict.get k e = None \/ float_at k e.

(** A successful outcome that carries what the report reads: its test type,
    its topic, its rate, and numbers wherever it has a metric (with the
    maximum latency whenever it has the average latency). *)
Definition complete_outcome (e : dict) : Prop :=
(cell_is "test_type" "producer" e = true \/ cell_is "test_type" "consumer" e = true) /\
Dict.mem "topic" e = true /\
float_at "records_per_sec" e /\
float_or_absent "records_sent" e /\
float_or_absent "messages_consumed" e /\
(Dict.get "avg_latency_ms" e = None \/
 (float_at "avg_latency_ms" e /\ float_at "max_latency_ms" e)).

(** The cell can be read as a number. *)
Definition numeric_ok (k : string) (e : dict) : Prop :=
exists x, numeric (Dict.get k e) = Ok x.

(** The claim of C7 for one successful outcome, whatever it carries. *)
Definition one_success_always_reports : Prop :=
forall results e,
  successes results = [e] ->
  exists rep,
    build_report results = Ok (Some rep) /\
    (forall v, Dict.get "throughput_mb_sec" e = Some (VFloat v) -> max_throughput rep = v) /\
    (forall name, Dict.get "test_name" e = Some name -> best_test rep = Some name).

(** One producer run that exits with code 0 and prints no summary line. *)
Definition silent_results : list dict :=
results
  (run_test_suite (all_exit_zero (fun _ => "Error while fetching metadata")) fresh
     [producer_on "p1-rf1"] None).

(** One failed producer run, then one successful consumer run. *)
Definition mixed_results : list dict :=
results
  (run_test_suite
     (fun n => match n with
               | 0 => fun _ => {| outcome := Completed 1 "" "Connection refused";
                                  elapsed_time := Fin 1; timestamp := "2024-01-01T09:00:00" |}
               | _ => exits_zero_with
                        (header_line ++ String newline "" ++ data_line)
               end)
     fresh [producer_on "p1-rf1"] (Some [consumer_on "p1-rf1"])).

Definition mixed_success : dict :=
Eval vm_compute in match successes mixed_results with
                   | e :: _ => e
                   | [] => []
                   end.

(** The outcomes the suite accumulates: the ones with status [success] or [failed]. *)
Definition recorded (r : dict) : bool :=
cell_is "status" "success" r || cell_is "status" "failed" r.

(** The dictionaries the calls return, in the order of the calls. *)
Fixpoint returned_by {C : Type}
  (run : environment -> KafkaBenchmark -> C -> KafkaBenchmark * dict)
  (w : world) (configs : list C) (st : KafkaBenchmark * nat) : list dict :=
match configs with
| [] => []
| config :: configs' =>
    let (self, n) := st in
    snd (run (w n) self config)
    :: returned_by run w configs' (fst (run (w n) self config), S n)
end.

Definition appends_when_recorded {C : Type}
  (run : environment -> KafkaBenchmark -> C -> KafkaBenchmark * dict) : Prop :=
forall env self c,
  results (fst (run env self c))
  = (results self ++ (if recorded (snd (run env self c)) then [snd (run env self c)] else []))%list.

(** The outcomes of a run of the suite, one for each configuration. *)
Definition suite_outcomes (w : world) (self : KafkaBenchmark)
  (producer_configs : list producer_config)
  (consumer_configs : option (list consumer_config)) : list dict :=
(returned_by run_producer_test w producer_configs (self, 0)
 ++ returned_by run_consumer_test w (default consumer_configs [])
      (run_each run_producer_test w producer_configs (self, 0)))%list.

(* ------------------------------------------------------------------ *)
(** More notions *)

(** The four values of the status of an outcome. *)
Definition statuses : list string := ["success"; "failed"; "timeout"; "error"].

(** The outcome has a test name that is not empty, the given test type and
    one of the four statuses. *)
Definition labelled (name kind : string) (r : dict) : Prop :=
Dict.get "test_name" r = Some (VStr name) /\ name <> "" /\
Dict.get "test_type" r = Some (VStr kind) /\
exists s, In s statuses /\ Dict.get "status" r = Some (VStr s).

(** The keys of the consumer metrics, in the order they are assigned. *)
Definition consumer_keys : list string :=
["data_consumed_mb"; "throughput_mb_sec"; "messages_consumed"; "records_per_sec";
 "rebalance_time_ms"; "fetch_time_ms"].

(** Every value of the dictionary is a float. *)
Definition only_floats (d : dict) : Prop :=
Forall (fun kv => exists x, snd kv = VFloat x) d.

(** The classes of the capturing groups of a pattern, in order. *)
Fixpoint capture_classes (r : Re.regex) : list (ascii -> bool) :=
match r with
| [] => []
| Re.Capture1 cls :: r' => cls :: capture_classes r'
| _ :: r' => capture_classes r'
end.

(** The generator [ReportGenerator(results)] builds when some outcome is a
    success: the frame of the successes and the two frames cut from it. *)
Definition generator (results : list dict) : ReportGenerator :=
{| rg_results := results;
   df := DataFrame (successes results);
   producer_df := select (DataFrame (successes results)) "test_type" "producer";
   consumer_df := select (DataFrame (successes results)) "test_type" "consumer" |}.

(** The outcomes the four callouts are computed from: the successful
    producers when there is one, the successful consumers otherwise. *)
Definition callout_group (results : list dict) : list dict :=
match producers results with
| [] => consumers results
| ps => ps
end.

(** The key of the count that is summed for the first callout. *)
Definition callout_count (results : list dict) : string :=
match producers results with
| [] => "messages_consumed"
| _ => "records_sent"
end.

(** The cells under [k] read as numbers; an absent cell reads as NaN. *)
Definition readings (k : string) (outcomes : list dict) : result (list pyfloat) :=
map_result numeric (map (Dict.get k) outcomes).

(** Every key of a row is a column of the frame. *)
Definition covers (f : frame) : Prop :=
forall r k, In r (rows f) -> Dict.mem k r = true -> has_column f k = true.

Definition mixed_report : report :=
Eval vm_compute in report_of (build_report mixed_results).

(** [best] is the position and the value of the first greatest number of
    [xs], NaN left aside; it is [None] when [xs] holds NaN only. *)
Definition first_greatest (xs : list pyfloat) (best : option (nat * pyfloat)) : Prop :=
match best with
| None => forall x, In x xs -> Num.is_nan x = true
| Some (i, b) =>
    nth_error xs i = Some b /\ Num.is_nan b = false /\
    forall j x, nth_error xs j = Some x -> Num.is_nan x = false ->
      Num.le x b = true /\ (j < i -> Num.le b x = false)
end.

(** The outcomes that have a value under [k]. *)
Definition carrying (k : string) (outcomes : list dict) : list dict :=
filter (Dict.mem k) outcomes.

(** [shown] is the mean of the values the group carries under [k], rounded
    to two decimals; NaN when no outcome of the group carries one. *)
Definition shows_mean (k : string) (shown : pyfloat) (group : list dict) : Prop :=
forall qs, holds k (carrying k group) qs ->
  match qs with
  | [] => shown = NaN
  | _ => exists q, (q == average qs)%Q /\ shown = Num.round2 (Fin q)
  end.

(* ------------------------------------------------------------------ *)
(** [main]

    The parsed command line, the two lists of configurations, the run of
    the suite and the report over its results.  The two files [main] writes
    (the JSON of the results and the HTML of the report) and what it prints
    are left out. *)

Record Namespace : Type := {
  args_bootstrap_servers : string;
  args_kafka_bin : string;
  args_output_dir : string;
  args_num_records : Z;
  args_record_size : Z;
  args_skip_consumer : bool
}.

Definition main_producer_configs (args : Namespace) : list producer_config :=
[ {| p_topic := "p1-rf1"; p_num_records := Some (args_num_records args);
     p_record_size := Some (args_record_size args); p_acks := Some "1";
     p_test_name := Some "1P-RF1 Producer" |};
  {| p_topic := "p1-rf3"; p_num_records := Some (args_num_records args);
     p_record_size := Some (args_record_size args); p_acks := Some "all";
     p_test_name := Some "1P-RF3 Producer" |};
  {| p_topic := "p3-rf3"; p_num_records := Some (args_num_records args);
     p_record_size := Some (args_record_size args); p_acks := Some "all";
     p_test_name := Some "3P-RF3 Producer" |};
  {| p_topic := "p12-rf3"; p_num_records := Some (args_num_records args);
     p_record_size := Some (args_record_size args); p_acks := Some "all";
     p_test_name := Some "12P-RF3 Producer" |};
  {| p_topic := "p30-rf3"; p_num_records := Some (args_num_records args);
     p_record_size := Some (args_record_size args); p_acks := Some "all";
     p_test_name := Some "30P-RF3 Producer" |} ].

Definition main_consumer_configs (args : Namespace) : option (list consumer_config) :=
if args_skip_consumer args then None
else Some
  [ {| c_topic := "p1-rf1"; c_messages := Some (args_num_records args);
       c_test_name := Some "1P-RF1 Consumer" |};
    {| c_topic := "p1-rf3"; c_messages := Some (args_num_records args);
       c_test_name := Some "1P-RF3 Consumer" |};
    {| c_topic := "p3-rf3"; c_messages := Some (args_num_records args);
       c_test_name := Some "3P-RF3 Consumer" |};
    {| c_topic := "p12-rf3"; c_messages := Some (args_num_records args);
       c_test_name := Some "12P-RF3 Consumer" |};
    {| c_topic := "p30-rf3"; c_messages := Some (args_num_records args);
       c_test_name := Some "30P-RF3 Consumer" |} ].

(** The results that are saved, and what generating the report gives. *)
Definition main (w : world) (args : Namespace) : list dict * result (option report) :=
let benchmark :=
  {| bootstrap_servers := args_bootstrap_servers args;
     kafka_bin_path := args_kafka_bin args;
     results := [] |} in
let benchmark :=
  run_test_suite w benchmark (main_producer_configs args) (main_consumer_configs args) in
(results benchmark, build_report (results benchmark)).

(** The command line without arguments, and the one with [--skip-consumer]. *)
Definition default_args : Namespace :=
{| args_bootstrap_servers := "localhost:29092,localhost:39092,localhost:49092";
   args_kafka_bin := "";
   args_output_dir := ".";
   args_num_records := 1000000;
   args_record_size := 1024;
   args_skip_consumer := false |}.

(** A run in which every tool exits with code 0: the five producer runs
    print a summary line, the consumer runs a header and a data row. *)
Definition healthy_world : world :=
all_exit_zero (fun n => if n <? 5 then producer_line "7.5"
                        else header_line ++ String newline "" ++ data_line).

Definition healthy_report : report :=
Eval vm_compute in report_of (snd (main healthy_world default_args)).

(** The outcome has this topic. *)
Definition topic_is (t : string) (e : dict) : Prop :=
Dict.get "topic" e = Some (VStr t).

(** A successful outcome the report can be built from: it has its test
    type, its topic and its test name, a throughput that is a number, a
    rate, and floats wherever it has a count or a latency (with the maximum
    latency whenever it has the average one). *)
Definition reportable (e : dict) : Prop :=
(cell_is "test_type" "producer" e = true \/ cell_is "test_type" "consumer" e = true) /\
(exists t, topic_is t e) /\
Dict.mem "test_name" e = true /\
(exists v, Dict.get "throughput_mb_sec" e = Some (VFloat v) /\ v <> NaN) /\
float_at "records_per_sec" e /\
float_or_absent "records_sent" e /\
float_or_absent "messages_consumed" e /\
float_or_absent "avg_latency_ms" e /\
float_or_absent "max_latency_ms" e /\
(Dict.mem "avg_latency_ms" e = true -> Dict.mem "max_latency_ms" e = true).

(** The producer table of the sample report and its first row. *)
Definition sample_table : list topic_row :=
Eval vm_compute in match producer_table sample_report with
                   | Some table => table
                   | None => []
                   end.

Definition sample_row : topic_row :=
Eval vm_compute in
  nth 0 sample_table
    {| row_topic := ""; row_throughput_mb_sec := NaN; row_records_per_sec := NaN;
       row_avg_latency_ms := None |}.

(** The outcome has a throughput that is a number, and a rate. *)
Definition measured (e : dict) : Prop :=
(exists v, Dict.get "throughput_mb_sec" e = Some (VFloat v) /\ v <> NaN) /\
Dict.mem "records_per_sec" e = true.

(** The numeric columns the report reads. *)
Definition report_metrics : list string :=
["throughput_mb_sec"; "records_per_sec"; "records_sent"; "messages_consumed";
 "avg_latency_ms"; "max_latency_ms"].

Definition healthy_results : list dict :=
Eval vm_compute in fst (main healthy_world default_args).

(* ================================================================== *)
(** ** Strings *)

Lemma sapp_nil_r (s : string) : s ++ "" = s.
Proof. induction s as [|c s IH]; simpl; [reflexivity | now rewrite IH]. Qed.

Lemma sapp_assoc (a b c : string) : (a ++ b) ++ c = a ++ (b ++ c).
Proof. induction a as [|x a IH]; simpl; [reflexivity | now rewrite IH]. Qed.

Lemma slength_app (a b : string) : String.length (a ++ b) = String.length a + String.length b.
Proof. induction a as [|x a IH]; simpl; [reflexivity | now rewrite IH]. Qed.

Lemma sapp_inv_head (a b c : string) : a ++ b = a ++ c -> b = c.
Proof. induction a as [|x a IH]; simpl; intros H; [assumption | injection H; auto]. Qed.

Lemma all_in_nil cls : all_in cls "".
Proof. intros c []. Qed.

Lemma all_in_cons cls c w : all_in cls (String c w) <-> cls c = true /\ all_in cls w.
Proof.
unfold all_in; simpl; split.
- intros H; split; [apply H; now left | intros d Hd; apply H; now right].
- intros [Hc Hw] d [<- | Hd]; auto.
Qed.

Lemma all_in_app cls a b : all_in cls a -> all_in cls b -> all_in cls (a ++ b).
Proof.
induction a as [|x a IH]; simpl; intros Ha Hb; [assumption|].
apply all_in_cons in Ha as [Hx Ha]. apply all_in_cons; auto.
Qed.

Lemma strip_prefix_app lit s : Re.strip_prefix lit (lit ++ s) = Some s.
Proof.
induction lit as [|c lit IH]; simpl; [now destruct s|].
now rewrite Ascii.eqb_refl.
Qed.

Lemma strip_prefix_sound lit s s' : Re.strip_prefix lit s = Some s' -> s = lit ++ s'.
Proof.
revert s; induction lit as [|c lit IH]; intros s; simpl.
- destruct s; intros H; now inversion H.
- destruct s as [|d s]; [discriminate|].
  destruct (Ascii.eqb_spec c d) as [->|]; [|discriminate].
  intros H; apply IH in H; now subst.
Qed.

(* ================================================================== *)
(** ** The matcher against the meaning of the pattern *)

Section Greedy_facts.
Context {A : Type}.
Variable cls : ascii -> bool.
Variable k : string -> string -> option A.

(** The longest run is tried first: when the rest of the pattern accepts
    after it, that is the answer. *)
Lemma star_longest w : all_in cls w -> forall taken rest r,
  stops cls rest -> k (taken ++ w) rest = Some r ->
  Re.star cls k taken (w ++ rest) = Some r.
Proof.
induction w as [|c w IH]; intros Hw taken rest r Hstop Hk.
- rewrite sapp_nil_r in Hk. simpl.
  destruct rest as [|d rest]; simpl; [assumption|].
  simpl in Hstop. now rewrite Hstop.
- apply all_in_cons in Hw as [Hc Hw]. simpl. rewrite Hc.
  rewrite (IH Hw (taken ++ String c "") rest r Hstop); [reflexivity|].
  now rewrite sapp_assoc.
Qed.

Lemma plus_longest w : w <> "" -> all_in cls w -> forall rest r,
  stops cls rest -> k w rest = Some r -> Re.plus cls k (w ++ rest) = Some r.
Proof.
destruct w as [|c w]; [congruence|]. intros _ Hw rest r Hstop Hk.
apply all_in_cons in Hw as [Hc Hw]. simpl. rewrite Hc.
now apply star_longest.
Qed.

(** Whatever the repetition answers comes from some run of the class. *)
Lemma star_sound s : forall taken r, Re.star cls k taken s = Some r ->
  exists w rest, s = w ++ rest /\ all_in cls w /\ k (taken ++ w) rest = Some r.
Proof.
induction s as [|c s IH]; intros taken r H; simpl in H.
- exists "", "". split; [reflexivity|]. split; [apply all_in_nil | now rewrite sapp_nil_r].
- destruct (cls c) eqn:Hc.
  + destruct (Re.star cls k (taken ++ String c "") s) as [r'|] eqn:Hs.
    * inversion H; subst r'. apply IH in Hs as (w & rest & -> & Hw & Hk).
      exists (String c w), rest. repeat split.
      -- apply all_in_cons; auto.
      -- now rewrite sapp_assoc in Hk.
    * exists "", (String c s). split; [reflexivity|].
      split; [apply all_in_nil | now rewrite sapp_nil_r].
  + exists "", (String c s). split; [reflexivity|].
      split; [apply all_in_nil | now rewrite sapp_nil_r].
Qed.

Lemma plus_sound s r : Re.plus cls k s = Some r ->
  exists w rest, s = w ++ rest /\ w <> "" /\ all_in cls w /\ k w rest = Some r.
Proof.
destruct s as [|c s]; simpl; [discriminate|].
destruct (cls c) eqn:Hc; [|discriminate].
intros H. apply star_sound in H as (w & rest & -> & Hw & Hk).
exists (String c w), rest. repeat split; [discriminate | apply all_in_cons; auto | assumption].
Qed.

End Greedy_facts.

Lemma matches_first cls r m gs post :
  first_outside cls r -> Re.Matches r m gs -> stops cls (m ++ post).
Proof.
intros Hf Hm. destruct Hm as [|lit r m gs Hm|cls' r w m gs Hne Hw Hm|cls' r w m gs Hne Hw Hm];
  simpl in Hf.
- contradiction.
- destruct lit as [|c lit]; [contradiction|]. exact Hf.
- destruct w as [|c w]; [congruence|]. simpl. apply Hf, Hw. now left.
- destruct w as [|c w]; [congruence|]. simpl. apply Hf, Hw. now left.
Qed.

(** A deterministic pattern: the matcher finds the match the meaning gives. *)
Lemma match_here_complete r m gs : Re.Matches r m gs -> deterministic r ->
  forall g0 post, Re.match_here r g0 (m ++ post) = Some ((rev g0 ++ gs)%list, post).
Proof.
induction 1 as [|lit r m gs Hm IH|cls r w m gs Hne Hw Hm IH|cls r w m gs Hne Hw Hm IH];
  intros Hdet g0 post; simpl in *.
- now rewrite app_nil_r.
- rewrite sapp_assoc, strip_prefix_app. now apply IH.
- destruct Hdet as [Hf Hdet]. rewrite sapp_assoc.
  apply plus_longest; auto. eapply matches_first; eauto.
- destruct Hdet as [Hf Hdet]. rewrite sapp_assoc.
  apply plus_longest; auto; [eapply matches_first; eauto|].
  rewrite (IH Hdet). simpl. now rewrite <- app_assoc.
Qed.

(** Whatever the matcher finds is a match. *)
Lemma match_here_sound r : forall g0 s gs rest,
  Re.match_here r g0 s = Some (gs, rest) ->
  exists m gs', s = m ++ rest /\ Re.Matches r m gs' /\ gs = (rev g0 ++ gs')%list.
Proof.
induction r as [|a r IH]; intros g0 s gs rest H; simpl in H.
- inversion H; subst. exists "", []. rewrite app_nil_r. repeat split. constructor.
- destruct a as [lit|cls|cls].
  + destruct (Re.strip_prefix lit s) as [s'|] eqn:Hp; [|discriminate].
    apply strip_prefix_sound in Hp; subst s.
    apply IH in H as (m & gs' & -> & Hm & ->).
    exists (lit ++ m), gs'. rewrite sapp_assoc. repeat split. now constructor.
  + apply plus_sound in H as (w & rest' & -> & Hne & Hw & Hk).
    apply IH in Hk as (m & gs' & -> & Hm & ->).
    exists (w ++ m), gs'. rewrite sapp_assoc. repeat split. now constructor.
  + apply plus_sound in H as (w & rest' & -> & Hne & Hw & Hk).
    apply IH in Hk as (m & gs' & -> & Hm & ->).
    exists (w ++ m), (w :: gs'). rewrite sapp_assoc. repeat split; [now constructor|].
    simpl. now rewrite <- app_assoc.
Qed.

(** The scan answers with the first place where the matcher succeeds. *)
Lemma search_first r pre : forall t gs rest,
  (forall p q, pre = p ++ q -> q <> "" -> Re.match_here r [] (q ++ t) = None) ->
  Re.match_here r [] t = Some (gs, rest) ->
  Re.search r (pre ++ t) = Some gs.
Proof.
induction pre as [|c pre IH]; intros t gs rest Hnone Hhere.
- simpl. destruct t; simpl; now rewrite Hhere.
- assert (H0 : Re.match_here r [] (String c pre ++ t) = None)
    by (apply (Hnone ""); [reflexivity | discriminate]).
  simpl in *. rewrite H0. apply (IH t gs rest); [|assumption].
  intros p q -> Hq. apply (Hnone (String c p)); [reflexivity | assumption].
Qed.

Lemma search_none r s :
  (forall p q, s = p ++ q -> Re.match_here r [] q = None) -> Re.search r s = None.
Proof.
induction s as [|c s IH]; intros H.
- simpl. now rewrite (H "" ""). 
- simpl. rewrite (H "" (String c s) eq_refl). apply IH.
  intros p q ->. apply (H (String c p)). reflexivity.
Qed.

Lemma search_some r s gs : Re.search r s = Some gs ->
  exists p q rest, s = p ++ q /\ Re.match_here r [] q = Some (gs, rest).
Proof.
induction s as [|c s IH]; simpl.
- destruct (Re.match_here r [] "") as [[g t]|] eqn:H; [|discriminate].
  intros E; inversion E; subst. now exists "", "", t.
- destruct (Re.match_here r [] (String c s)) as [[g t]|] eqn:H.
  + intros E; inversion E; subst. now exists "", (String c s), t.
  + intros E. apply IH in E as (p & q & rest & -> & Hq).
    now exists (String c p), q, rest.
Qed.

(** The character classes of the producer pattern do not overlap where one
    follows the other. *)
Lemma space_not_digit c : Py.isspace c = true -> Py.isdigit c = false.
Proof. destruct c as [[] [] [] [] [] [] [] []]; vm_compute; congruence. Qed.

Lemma space_not_digit_or_dot c : Py.isspace c = true -> digit_or_dot c = false.
Proof. destruct c as [[] [] [] [] [] [] [] []]; vm_compute; congruence. Qed.

Lemma digit_or_dot_not_space c : digit_or_dot c = true -> Py.isspace c = false.
Proof. destruct c as [[] [] [] [] [] [] [] []]; vm_compute; congruence. Qed.

Lemma pattern_deterministic : deterministic pattern.
Proof.
unfold pattern; simpl.
repeat match goal with
| |- _ /\ _ => split
| |- True => exact I
| |- forall c, Py.isspace c = true -> Py.isdigit c = false => exact space_not_digit
| |- forall c, Py.isspace c = true -> digit_or_dot c = false => exact space_not_digit_or_dot
| |- forall c, digit_or_dot c = true -> Py.isspace c = false => exact digit_or_dot_not_space
| |- _ = false => reflexivity
end.
Qed.

Lemma search_none_inv r s : Re.search r s = None ->
  forall p q, s = p ++ q -> Re.match_here r [] q = None.
Proof.
induction s as [|c s IH]; simpl; intros H p q E.
- destruct p; [|discriminate]. simpl in E; subst q.
  destruct (Re.match_here r [] "") as [[g t]|]; [discriminate | reflexivity].
- destruct (Re.match_here r [] (String c s)) as [[g t]|] eqn:Hh; [discriminate|].
  destruct p as [|d p]; simpl in E.
  + now subst q.
  + injection E as _ E. now apply (IH H p).
Qed.

(** A match that takes the whole text, found by running the matcher. *)
Lemma matches_by_running m gs :
  Re.match_here pattern [] m = Some (gs, "") -> Re.Matches pattern m gs.
Proof.
intros H. apply match_here_sound in H as (m' & gs' & E & Hm & ->).
rewrite sapp_nil_r in E. now subst m'.
Qed.

Lemma no_match_search text : no_match text -> Re.search pattern text = None.
Proof.
intros Hno. apply search_none. intros p q ->.
destruct (Re.match_here pattern [] q) as [[gs rest]|] eqn:H; [|reflexivity].
apply match_here_sound in H as (m & gs' & -> & Hm & _).
exfalso. now apply (Hno p m rest gs').
Qed.

Lemma search_no_match text : Re.search pattern text = None -> no_match text.
Proof.
intros H before m after gs -> Hm.
pose proof (search_none_inv _ _ H before (m ++ after) eq_refl) as Hn.
rewrite (match_here_complete _ _ _ Hm pattern_deterministic) in Hn. discriminate.
Qed.

Lemma sdrop_app p r : sdrop (String.length p) (p ++ r) = r.
Proof. induction p as [|c p IH]; simpl; [now destruct r | assumption]. Qed.

(** No match starts inside [pre], checked by running the matcher there. *)
Lemma earliest_by_running pre rest :
  forallb (fun k => match Re.match_here pattern [] (sdrop k (pre ++ rest)) with
                    | None => true
                    | Some _ => false
                    end) (seq 0 (String.length pre)) = true ->
  forall p m q gs, pre ++ rest = p ++ m ++ q -> Re.Matches pattern m gs ->
  String.length pre <= String.length p.
Proof.
intros Hall p m q gs E Hm.
destruct (le_lt_dec (String.length pre) (String.length p)) as [|Hlt]; [assumption|].
exfalso. rewrite forallb_forall in Hall.
specialize (Hall (String.length p)).
rewrite E, sdrop_app, (match_here_complete _ _ _ Hm pattern_deterministic) in Hall.
assert (In (String.length p) (seq 0 (String.length pre))) as Hin by (apply in_seq; lia).
specialize (Hall Hin). discriminate.
Qed.

(* ================================================================== *)
(** ** The producer parser *)

(** When it returns, the producer parser returns nothing or all five. *)
Lemma parse_producer_all_or_nothing output d :
  _parse_producer_output output = Ok d -> d = [] \/ Dict.keys d = producer_keys.
Proof.
unfold _parse_producer_output.
destruct (Re.search pattern output) as [m|]; [|intros H; inversion H; now left].
repeat match goal with
| |- context [bind ?x _] => destruct x; simpl; [|intros H; discriminate H]
end.
intros H; inversion H. now right.
Qed.




(** C10, at the failing input: the second group is a lone dot, which the
    pattern accepts and [float] does not; the parser raises. *)
Theorem parse_producer_raises_on_lone_dot :
  _parse_producer_output
    "1 records sent, . records/sec (1 MB/sec), 1 ms avg latency, 1 ms max latency"
  = Raise (ValueError ".").
Proof. vm_compute. reflexivity. Qed.

(* ================================================================== *)
(** ** The consumer parser *)

Lemma truthy_iff s : Py.truthy s = true <-> s <> "".
Proof. destruct s; simpl; split; congruence. Qed.

Lemma is_candidate_iff line : is_candidate line = true <-> ~ blank line /\ ~ header line.
Proof.
unfold is_candidate, blank, header. rewrite andb_true_iff, truthy_iff, negb_true_iff.
split; intros [H1 H2]; split; auto.
- now rewrite H2.
- now destruct (Py.startswith "start.time" line).
Qed.

Lemma not_candidate_iff line : is_candidate line = false <-> blank line \/ header line.
Proof.
unfold is_candidate, blank, header. rewrite andb_false_iff, negb_false_iff.
split; (intros [H|H]; [left | now right]).
- destruct (Py.strip line); [reflexivity | discriminate].
- now rewrite H.
Qed.

Lemma consumer_scan_skip skipped rest d :
  Forall (fun line => is_candidate line = false) skipped ->
  consumer_scan (skipped ++ rest)%list d = consumer_scan rest d.
Proof.
induction 1 as [|l ls Hl _ IH]; simpl; [reflexivity | now rewrite Hl].
Qed.

(** The loop processes the last data row and nothing else. *)
Lemma parse_consumer_selects output before row after :
  last_data_row output before row after ->
  _parse_consumer_output output = consumer_row row [].
Proof.
intros (Hlines & Hb & Hh & Hafter).
unfold _parse_consumer_output. fold (output_lines output). rewrite Hlines.
rewrite rev_app_distr. simpl. rewrite <- app_assoc. simpl.
rewrite consumer_scan_skip.
- simpl. replace (is_candidate row) with true; [reflexivity|].
  symmetry. now apply is_candidate_iff.
- apply Forall_rev. eapply Forall_impl; [|exact Hafter].
  intros l. apply not_candidate_iff.
Qed.

Lemma index_nth {A : Type} (xs : list A) (i : nat) (d : A) :
  i < List.length xs -> Py.index xs i = Ok (nth i xs d).
Proof.
intros H. unfold Py.index. now rewrite (nth_error_nth' xs d H).
Qed.

Lemma index_out_of_range {A : Type} (xs : list A) (i : nat) :
  List.length xs <= i -> Py.index xs i = Raise IndexError.
Proof.
intros H. unfold Py.index. apply nth_error_None in H. now rewrite H.
Qed.

(** [float] raises nothing but [ValueError]. *)
Lemma float_raises s e : PyFloat.float s = Raise e -> e = ValueError s.
Proof.
unfold PyFloat.float.
destruct (PyFloat.underscores_ok "000" s); [|intros H; now inversion H].
destruct (PyFloat.take_sign (Py.strip (PyFloat.remove_underscores s))) as [neg body].
destruct (_ || _); [discriminate|].
destruct (String.eqb _ "nan"); [discriminate|].
destruct (PyFloat.parse_number neg body); [discriminate | intros H; now inversion H].
Qed.

(** The assignments of the [try] block end normally or with one of the two
    exceptions the block catches. *)
Lemma assign_floats_outcome steps parts : forall d,
  match snd (assign_floats steps parts d) with
  | Ok _ => True
  | Raise (ValueError _) => True
  | Raise IndexError => True
  | Raise _ => False
  end.
Proof.
induction steps as [|[key i] steps IH]; intros d; simpl; [exact I|].
unfold Py.index. destruct (nth_error parts i) as [p|]; simpl; [|exact I].
destruct (PyFloat.float p) as [f|e] eqn:Hf; [apply IH|].
simpl. now rewrite (float_raises _ _ Hf).
Qed.

Lemma consumer_row_total row d : exists d', consumer_row row d = Ok d'.
Proof.
unfold consumer_row.
destruct (6 <=? _); [|now exists d].
match goal with |- context [assign_floats ?s ?p ?m] =>
  pose proof (assign_floats_outcome s p m) as H; destruct (assign_floats s p m) as [d' r]
end.
simpl in H. destruct r as [u|[t| | |]]; try contradiction; now exists d'.
Qed.

Lemma consumer_scan_total lines : forall d, exists d', consumer_scan lines d = Ok d'.
Proof.
induction lines as [|l ls IH]; intros d; simpl; [now exists d|].
destruct (is_candidate l); [apply consumer_row_total | apply IH].
Qed.

Lemma dict_get_set_other k k' v d : k <> k' -> Dict.get k (Dict.set k' v d) = Dict.get k d.
Proof.
intros Hne. induction d as [|[k0 v0] d IH]; simpl.
- destruct (String.eqb_spec k k'); [contradiction | reflexivity].
- destruct (String.eqb_spec k' k0) as [->|Hk0]; simpl.
  + destruct (String.eqb_spec k k0); [contradiction | reflexivity].
  + destruct (String.eqb_spec k k0); [reflexivity | assumption].
Qed.

Lemma dict_get_set_same k v d : Dict.get k (Dict.set k v d) = Some v.
Proof.
induction d as [|[k0 v0] d IH]; simpl.
- now rewrite String.eqb_refl.
- destruct (String.eqb_spec k k0) as [->|Hk0]; simpl.
  + now rewrite String.eqb_refl.
  + destruct (String.eqb_spec k k0); [contradiction | assumption].
Qed.

Lemma cell_is_iff c v r : cell_is c v r = true <-> Dict.get c r = Some (VStr v).
Proof.
unfold cell_is. destruct (Dict.get c r) as [[s|z|f]|]; split; try discriminate.
- intros H. apply String.eqb_eq in H. now subst.
- intros H. inversion H. apply String.eqb_refl.
Qed.

(** A key whose every statement fails to convert stays as it was. *)
Lemma assign_floats_failed_key steps parts key : forall d,
  (forall j, In (key, j) steps ->
     forall v, (p <- Py.index parts j ;; PyFloat.float p) <> Ok v) ->
  Dict.get key (fst (assign_floats steps parts d)) = Dict.get key d.
Proof.
induction steps as [|[k j] steps IH]; intros d Hfail; [reflexivity|].
simpl. destruct (p <- Py.index parts j ;; PyFloat.float p) as [f|e] eqn:Hstep; [|reflexivity].
rewrite IH; [|intros j' Hj'; apply Hfail; now right].
apply dict_get_set_other. intros ->. apply (Hfail j (or_introl eq_refl) f Hstep).
Qed.

Lemma consumer_row_failed_key row key i e d :
  In (key, i) consumer_fields ->
  PyFloat.float (field row i) = Raise e ->
  consumer_row row [] = Ok d -> Dict.get key d = None.
Proof.
intros Hin Hf. unfold consumer_row. fold (fields row).
assert (Hfail : forall v, (p <- Py.index (fields row) (i - 1) ;; PyFloat.float p) <> Ok v).
{ intros v. unfold Py.index.
  destruct (nth_error (fields row) (i - 1)) as [p|] eqn:Hn; simpl; [|discriminate].
  unfold field in Hf. rewrite (nth_error_nth _ _ _ Hn) in Hf. now rewrite Hf. }
destruct (6 <=? List.length (fields row)); [|intros H; now inversion H].
match goal with |- context [assign_floats ?s ?p ?m] =>
  pose proof (assign_floats_failed_key s p key m) as Hkey;
  pose proof (assign_floats_outcome s p m) as Hout;
  destruct (assign_floats s p m) as [d' r]
end.
cbn [fst snd] in Hkey, Hout.
assert (Hd' : Dict.get key d' = None).
{ apply Hkey. intros j Hj.
  assert (j = i - 1) as ->; [|exact Hfail].
  destruct (10 <=? List.length (fields row)); simpl in Hin, Hj;
    repeat (destruct Hin as [Hin|Hin]; [inversion Hin; subst; clear Hin|]);
    try contradiction;
    repeat (destruct Hj as [Hj|Hj]; [inversion Hj; subst; clear Hj|]);
    try contradiction; try reflexivity; try discriminate. }
destruct r as [u|[t| | |]]; try contradiction; intros H; inversion H; now subst.
Qed.

(** One statement of the [try] block whose field is there and converts. *)
Lemma assign_floats_step key i steps parts d v :
  i < List.length parts -> PyFloat.float (nth i parts "") = Ok v ->
  assign_floats ((key, i) :: steps) parts d =
  assign_floats steps parts (Dict.set key (VFloat v) d).
Proof.
intros Hi Hv. simpl. rewrite (index_nth parts i "" Hi). simpl. now rewrite Hv.
Qed.

Lemma assign_floats_untouched steps parts key d :
  ~ In key (map fst steps) ->
  Dict.get key (fst (assign_floats steps parts d)) = Dict.get key d.
Proof.
intros H. apply assign_floats_failed_key. intros j Hj. exfalso. apply H.
apply (in_map fst) in Hj. exact Hj.
Qed.

(** What the [try] block leaves in the dictionary, however it ends. *)
Lemma try_block_result steps parts d0 d :
  (let (metrics, r) := assign_floats steps parts d0 in
   match r with
   | Ok _ => Ok metrics
   | Raise (ValueError _) => Ok metrics
   | Raise IndexError => Ok metrics
   | Raise e => Raise e
   end) = Ok d -> d = fst (assign_floats steps parts d0).
Proof.
destruct (assign_floats steps parts d0) as [m r]. simpl.
destruct r as [u|[t| | |]]; intros H; inversion H; reflexivity.
Qed.

(** A field that converts, as all the fields before it do, is in the result. *)
Lemma consumer_row_kept_key row key i v d :
  In (key, i) consumer_fields ->
  6 <= List.length (fields row) ->
  (i <= 6 \/ 10 <= List.length (fields row)) ->
  (forall key' j, In (key', j) consumer_fields -> j < i ->
     exists w, PyFloat.float (field row j) = Ok w) ->
  PyFloat.float (field row i) = Ok v ->
  consumer_row row [] = Ok d -> Dict.get key d = Some (VFloat v).
Proof.
intros Hin Hlen Hwide Hbefore Hv. unfold consumer_row. fold (fields row).
apply Nat.leb_le in Hlen as Hlen'. rewrite Hlen'.
assert (H3 : 3 < i -> exists w, PyFloat.float (nth 2 (fields row) "") = Ok w)
  by (apply (Hbefore "data_consumed_mb" 3); simpl; auto).
assert (H4 : 4 < i -> exists w, PyFloat.float (nth 3 (fields row) "") = Ok w)
  by (apply (Hbefore "throughput_mb_sec" 4); simpl; auto).
assert (H5 : 5 < i -> exists w, PyFloat.float (nth 4 (fields row) "") = Ok w)
  by (apply (Hbefore "messages_consumed" 5); simpl; auto).
assert (H6 : 6 < i -> exists w, PyFloat.float (nth 5 (fields row) "") = Ok w)
  by (apply (Hbefore "records_per_sec" 6); simpl; auto 10).
assert (H7 : 7 < i -> exists w, PyFloat.float (nth 6 (fields row) "") = Ok w)
  by (apply (Hbefore "rebalance_time_ms" 7); simpl; auto 10).
unfold field in Hv.
intros Hd. apply try_block_result in Hd. subst d.
simpl in Hin.
destruct (10 <=? List.length (fields row)) eqn:Hten;
  [apply Nat.leb_le in Hten | apply Nat.leb_gt in Hten];
  repeat (destruct Hin as [Hin|Hin]; [inversion Hin; subst; clear Hin|]);
  try contradiction; try lia; simpl Nat.sub in Hv; simpl app;
  repeat match goal with
  | H : ?a < ?b -> exists w, _ |- _ =>
      first [ assert (a < b) as Hlt by lia; destruct (H Hlt) as [? ?]; clear H Hlt
            | clear H ]
  end.
all: repeat (erewrite assign_floats_step by (eassumption || lia)).
all: rewrite assign_floats_untouched by (simpl; intuition discriminate).
all: repeat (rewrite dict_get_set_other by discriminate).
all: try apply dict_get_set_same.
Qed.

(** C3: the parser reads the last line that is neither blank nor a header.
    When that row has at least 6 fields and fields 3 to 6 are float literals,
    the result is the four metrics from fields 3, 4, 5, 6 and nothing else if
    the row has fewer than 10 fields, and those four plus the rebalance and
    fetch times from fields 7 and 8 if it has 10 or more (and these two
    convert).  The header line followed by the data row of the example gives
    500.0, 50.0, 100000, 10000.0 and no rebalance or fetch time. *)
Theorem parse_consumer_last_data_row :
  (forall output before row after,
     last_data_row output before row after ->
     6 <= List.length (fields row) ->
     forall v3 v4 v5 v6,
     PyFloat.float (field row 3) = Ok v3 -> PyFloat.float (field row 4) = Ok v4 ->
     PyFloat.float (field row 5) = Ok v5 -> PyFloat.float (field row 6) = Ok v6 ->
     (List.length (fields row) < 10 ->
      _parse_consumer_output output =
        Ok [ ("data_consumed_mb", VFloat v3); ("throughput_mb_sec", VFloat v4);
             ("messages_consumed", VFloat v5); ("records_per_sec", VFloat v6) ]) /\
     (10 <= List.length (fields row) ->
      forall v7 v8,
      PyFloat.float (field row 7) = Ok v7 -> PyFloat.float (field row 8) = Ok v8 ->
      _parse_consumer_output output =
        Ok [ ("data_consumed_mb", VFloat v3); ("throughput_mb_sec", VFloat v4);
             ("messages_consumed", VFloat v5); ("records_per_sec", VFloat v6);
             ("rebalance_time_ms", VFloat v7); ("fetch_time_ms", VFloat v8) ]))
  /\
  _parse_consumer_output (header_line ++ String newline "" ++ data_line) =
    Ok [ ("data_consumed_mb", VFloat (Fin 500)); ("throughput_mb_sec", VFloat (Fin 50));
         ("messages_consumed", VFloat (Fin 100000)); ("records_per_sec", VFloat (Fin 10000)) ].
Proof.
split; [|vm_compute; reflexivity].
intros output before row after Hrow Hlen v3 v4 v5 v6 H3 H4 H5 H6.
rewrite (parse_consumer_selects _ _ _ _ Hrow).
unfold consumer_row. fold (fields row). unfold field in *. simpl Nat.sub in *.
apply Nat.leb_le in Hlen as Hlen'. rewrite Hlen'.
split.
- intros Hlt. apply Nat.leb_gt in Hlt as Hlt'. rewrite Hlt'. simpl app.
  rewrite (assign_floats_step _ _ _ _ _ v3) by (assumption || lia).
  rewrite (assign_floats_step _ _ _ _ _ v4) by (assumption || lia).
  rewrite (assign_floats_step _ _ _ _ _ v5) by (assumption || lia).
  rewrite (assign_floats_step _ _ _ _ _ v6) by (assumption || lia).
  reflexivity.
- intros Hge v7 v8 H7 H8. apply Nat.leb_le in Hge as Hge'. rewrite Hge'. simpl app.
  rewrite (assign_floats_step _ _ _ _ _ v3) by (assumption || lia).
  rewrite (assign_floats_step _ _ _ _ _ v4) by (assumption || lia).
  rewrite (assign_floats_step _ _ _ _ _ v5) by (assumption || lia).
  rewrite (assign_floats_step _ _ _ _ _ v6) by (assumption || lia).
  rewrite (assign_floats_step _ _ _ _ _ v7) by (assumption || lia).
  rewrite (assign_floats_step _ _ _ _ _ v8) by (assumption || lia).
  reflexivity.
Qed.

Lemma parse_consumer_last_data_row_witness :
  _parse_consumer_output
    (header_line ++ String newline "" ++ interval_line ++ String newline "" ++ final_line
       ++ String newline "" ++ header_line ++ String newline "") =
  Ok [ ("data_consumed_mb", VFloat (Fin (Qmake 1001 2)));
       ("throughput_mb_sec", VFloat (Fin (Qmake 1001 20)));
       ("messages_consumed", VFloat (Fin 100000)); ("records_per_sec", VFloat (Fin 10000));
       ("rebalance_time_ms", VFloat (Fin 3000)); ("fetch_time_ms", VFloat (Fin 7000)) ]
  /\
  _parse_consumer_output (data_line ++ String newline "" ++ String newline "") =
  Ok [ ("data_consumed_mb", VFloat (Fin 500)); ("throughput_mb_sec", VFloat (Fin 50));
       ("messages_consumed", VFloat (Fin 100000)); ("records_per_sec", VFloat (Fin 10000)) ].
Proof.
assert (Hrow : last_data_row
    (header_line ++ String newline "" ++ interval_line ++ String newline "" ++ final_line
       ++ String newline "" ++ header_line ++ String newline "")
    [header_line; interval_line] final_line [header_line]).
{ split; [vm_compute; reflexivity|].
  split; [vm_compute; discriminate|].
  split; [vm_compute; discriminate|].
  constructor; [right; vm_compute; reflexivity | constructor]. }
assert (Hrow' : last_data_row (data_line ++ String newline "" ++ String newline "")
                  [] data_line []).
{ split; [vm_compute; reflexivity|].
  split; [vm_compute; discriminate|].
  split; [vm_compute; discriminate | constructor]. }
split.
- refine (proj2 (proj1 parse_consumer_last_data_row _ _ _ _ Hrow _ _ _ _ _ _ _ _ _) _ _ _ _ _).
  + vm_compute. lia.
  + reflexivity.
  + reflexivity.
  + reflexivity.
  + reflexivity.
  + vm_compute. lia.
  + reflexivity.
  + reflexivity.
- refine (proj1 (proj1 parse_consumer_last_data_row _ _ _ _ Hrow' _ _ _ _ _ _ _ _ _) _).
  + vm_compute. lia.
  + reflexivity.
  + reflexivity.
  + reflexivity.
  + reflexivity.
  + vm_compute. lia.
Defined.

(** C6: the consumer parser returns on every text.  When the last data row
    has fewer than 6 fields the result is empty (so for the three fields of
    [a,b,c]).  A field of that row that is not a float literal leaves its
    metric out of the result, and the parser still returns; a field that
    converts, as all the fields before it do, keeps its metric.  The result
    is the same whatever the lines before the last data row are. *)
Theorem parse_consumer_never_raises :
  (forall output, exists d, _parse_consumer_output output = Ok d) /\
  (forall output before row after,
     last_data_row output before row after ->
     (List.length (fields row) < 6 -> _parse_consumer_output output = Ok []) /\
     (forall key i e, In (key, i) consumer_fields ->
        PyFloat.float (field row i) = Raise e ->
        exists d, _parse_consumer_output output = Ok d /\ Dict.get key d = None) /\
     (forall key i v, In (key, i) consumer_fields ->
        6 <= List.length (fields row) ->
        (i <= 6 \/ 10 <= List.length (fields row)) ->
        (forall key' j, In (key', j) consumer_fields -> j < i ->
           exists w, PyFloat.float (field row j) = Ok w) ->
        PyFloat.float (field row i) = Ok v ->
        exists d, _parse_consumer_output output = Ok d /\
                  Dict.get key d = Some (VFloat v)) /\
     (forall output' before',
        last_data_row output' before' row after ->
        _parse_consumer_output output' = _parse_consumer_output output)) /\
  _parse_consumer_output "a,b,c" = Ok [].
Proof.
split; [|split; [|vm_compute; reflexivity]].
- intros output. apply consumer_scan_total.
- intros output before row after Hrow.
  rewrite (parse_consumer_selects _ _ _ _ Hrow). repeat split.
  + intros Hlt. unfold consumer_row. fold (fields row).
    apply Nat.leb_gt in Hlt. now rewrite Hlt.
  + intros key i e Hin Hf.
    destruct (consumer_row_total row []) as [d Hd]. exists d. split; [assumption|].
    eapply consumer_row_failed_key; eauto.
  + intros key i v Hin Hlen Hwide Hbefore Hv.
    destruct (consumer_row_total row []) as [d Hd]. exists d. split; [assumption|].
    eapply consumer_row_kept_key; eauto.
  + intros output' before' Hrow'. apply (parse_consumer_selects _ _ _ _ Hrow').
Qed.

Lemma parse_consumer_never_raises_witness :
  _parse_consumer_output (good_line ++ String newline "" ++ short_line) = Ok [] /\
  (exists d,
     _parse_consumer_output (good_line ++ String newline "" ++ drifted_line) = Ok d /\
     Dict.get "throughput_mb_sec" d = None) /\
  (exists d,
     _parse_consumer_output (good_line ++ String newline "" ++ drifted_line) = Ok d /\
     Dict.get "data_consumed_mb" d = Some (VFloat (Fin 500))) /\
  _parse_consumer_output (header_line ++ String newline "" ++ drifted_line)
  = _parse_consumer_output (good_line ++ String newline "" ++ drifted_line).
Proof.
assert (Hshort : last_data_row (good_line ++ String newline "" ++ short_line)
                   [good_line] short_line []).
{ split; [vm_compute; reflexivity|].
  split; [vm_compute; discriminate|].
  split; [vm_compute; discriminate | constructor]. }
assert (Hrow : last_data_row (good_line ++ String newline "" ++ drifted_line)
                 [good_line] drifted_line []).
{ split; [vm_compute; reflexivity|].
  split; [vm_compute; discriminate|].
  split; [vm_compute; discriminate | constructor]. }
assert (Hrow' : last_data_row (header_line ++ String newline "" ++ drifted_line)
                  [header_line] drifted_line []).
{ split; [vm_compute; reflexivity|].
  split; [vm_compute; discriminate|].
  split; [vm_compute; discriminate | constructor]. }
pose proof (proj1 (proj2 parse_consumer_never_raises) _ _ _ _ Hshort) as Tshort.
pose proof (proj1 (proj2 parse_consumer_never_raises) _ _ _ _ Hrow) as T.
split; [|split; [|split]].
- apply (proj1 Tshort). vm_compute. lia.
- refine (proj1 (proj2 T) "throughput_mb_sec" 4 (ValueError "n/a") _ _).
  + simpl. auto.
  + vm_compute. reflexivity.
- refine (proj1 (proj2 (proj2 T)) "data_consumed_mb" 3 (Fin 500) _ _ _ _ _).
  + simpl. auto.
  + vm_compute. lia.
  + left. lia.
  + intros key' j Hin Hj. simpl in Hin.
    repeat (destruct Hin as [Hin|Hin]; [inversion Hin; subst; lia|]). contradiction.
  + vm_compute. reflexivity.
- apply (proj2 (proj2 (proj2 T)) _ [header_line] Hrow').
Defined.

(* ================================================================== *)
(** ** Running tests *)

Lemma dict_get_update_other k d u :
  ~ In k (Dict.keys u) -> Dict.get k (Dict.update d u) = Dict.get k d.
Proof.
unfold Dict.update. revert d. induction u as [|[k0 v0] u IH]; intros d Hk; simpl; [reflexivity|].
simpl in Hk. rewrite IH by tauto. apply dict_get_set_other. intros ->. tauto.
Qed.



Lemma run_each_unchanged {C : Type}
  (run : environment -> KafkaBenchmark -> C -> KafkaBenchmark * dict) (w : world) :
  (forall n self c, fst (run (w n) self c) = self) ->
  forall configs self n, fst (run_each run w configs (self, n)) = self.
Proof.
intros Hrun. induction configs as [|c cs IH]; intros self n; simpl; [reflexivity|].
rewrite Hrun. apply IH.
Qed.

Lemma run_each_surjective {C : Type}
  (run : environment -> KafkaBenchmark -> C -> KafkaBenchmark * dict) (w : world)
  configs st :
  run_each run w configs st =
  (fst (run_each run w configs st), snd (run_each run w configs st)).
Proof. now destruct (run_each run w configs st). Qed.

Lemma producer_appends_when_recorded : appends_when_recorded run_producer_test.
Proof.
intros env self cfg. unfold run_producer_test.
destruct (outcome (env _)) as [rc out err| |msg]; cbn [fst snd].
- destruct (rc =? 0)%Z.
  + destruct (_parse_producer_output out) as [metrics|e]; cbn [fst snd].
    * assert (Hrec : forall r, Dict.get "status" r = Some (VStr "success") -> recorded r = true).
      { intros r Hr. unfold recorded. apply orb_true_iff. left. now apply cell_is_iff. }
      rewrite Hrec; [reflexivity|].
      unfold Dict.update. cbn [fold_left fst snd].
      rewrite !dict_get_set_other by discriminate. apply dict_get_set_same.
    * simpl. now rewrite app_nil_r.
  + reflexivity.
- simpl. now rewrite app_nil_r.
- simpl. now rewrite app_nil_r.
Qed.

Lemma consumer_appends_when_recorded : appends_when_recorded run_consumer_test.
Proof.
intros env self cfg. unfold run_consumer_test.
destruct (outcome (env _)) as [rc out err| |msg]; cbn [fst snd].
- destruct (rc =? 0)%Z.
  + destruct (_parse_consumer_output out) as [metrics|e]; cbn [fst snd].
    * assert (Hrec : forall r, Dict.get "status" r = Some (VStr "success") -> recorded r = true).
      { intros r Hr. unfold recorded. apply orb_true_iff. left. now apply cell_is_iff. }
      rewrite Hrec; [reflexivity|].
      unfold Dict.update. cbn [fold_left fst snd].
      rewrite !dict_get_set_other by discriminate. apply dict_get_set_same.
    * simpl. now rewrite app_nil_r.
  + reflexivity.
- simpl. now rewrite app_nil_r.
- simpl. now rewrite app_nil_r.
Qed.

Lemma run_each_results {C : Type}
  (run : environment -> KafkaBenchmark -> C -> KafkaBenchmark * dict) (w : world) :
  appends_when_recorded run ->
  forall configs self n,
    results (fst (run_each run w configs (self, n)))
    = (results self ++ filter recorded (returned_by run w configs (self, n)))%list /\
    snd (run_each run w configs (self, n)) = n + List.length configs /\
    List.length (returned_by run w configs (self, n)) = List.length configs.
Proof.
intros Hrun. induction configs as [|c cs IH]; intros self n.
- simpl. rewrite app_nil_r. repeat split; lia.
- cbn [run_each returned_by].
  destruct (IH (fst (run (w n) self c)) (S n)) as (H1 & H2 & H3).
  rewrite H1, H2, Hrun. cbn [filter List.length].
  destruct (recorded (snd (run (w n) self c))); rewrite <- app_assoc; simpl;
    repeat split; lia || reflexivity || (now rewrite H3).
Qed.

(** Every configuration has its outcome, producers first; the suite
    accumulates the outcomes with status [success] or [failed], in order. *)
Lemma suite_accumulates_recorded w self pcs ccs :
  List.length (suite_outcomes w self pcs ccs)
  = List.length pcs + List.length (default ccs []) /\
  results (run_test_suite w self pcs ccs)
  = (results self ++ filter recorded (suite_outcomes w self pcs ccs))%list.
Proof.
unfold suite_outcomes, run_test_suite.
destruct (run_each_results run_producer_test w producer_appends_when_recorded pcs self 0)
  as (P1 & P2 & P3).
destruct (run_each run_producer_test w pcs (self, 0)) as [self1 n1] eqn:E1.
cbn [fst snd] in P1, P2.
destruct (run_each_results run_consumer_test w consumer_appends_when_recorded
            (default ccs []) self1 n1) as (C1 & C2 & C3).
split.
- rewrite length_app, P3, C3. reflexivity.
- rewrite C1, P1, filter_app, app_assoc. reflexivity.
Qed.

(** C1, at the failing inputs: when the calls time out, the suite returns
    with the result list it started with, whatever the number of producer
    and consumer configurations; one producer configuration on an empty list
    leaves 0 outcomes, not 1. *)
Theorem timed_out_tests_are_not_recorded :
  (forall self producer_configs consumer_configs,
     results (run_test_suite always_times_out self producer_configs consumer_configs)
     = results self) /\
  List.length (results (run_test_suite always_times_out fresh [producer_on "p1-rf1"] None)) = 0.
Proof.
split; [|reflexivity].
intros self pcs ccs. unfold run_test_suite.
rewrite (run_each_surjective run_producer_test).
rewrite !run_each_unchanged; auto.
Qed.

(* ================================================================== *)
(** ** The report *)

Lemma bind_ok {A B : Type} (m : result A) (k : A -> result B) b :
  bind m k = Ok b -> exists a, m = Ok a /\ k a = Ok b.
Proof. destruct m as [a|e]; simpl; [now exists a | discriminate]. Qed.

Lemma Ok_inj {A : Type} (a b : A) : Ok a = Ok b -> a = b.
Proof. intros H. now injection H. Qed.

Ltac bind_inv H :=
  repeat match type of H with
  | bind _ _ = Ok _ =>
      let a := fresh "a" in
      let E := fresh "E" in
      apply bind_ok in H; destruct H as (a & E & H); cbv beta in H
  end.

Lemma bool_ext (a b : bool) : (a = true <-> b = true) -> a = b.
Proof.
destruct a, b; intros [H1 H2]; try reflexivity.
- symmetry. now apply H1.
- now apply H2.
Qed.

Lemma map_result_ok {A B : Type} (g : A -> result B) xs : forall ys,
  map_result g xs = Ok ys -> Forall2 (fun x y => g x = Ok y) xs ys.
Proof.
induction xs as [|x xs IH]; intros ys H; simpl in H.
- inversion H. constructor.
- bind_inv H. inversion H; subst. constructor; auto.
Qed.

Lemma insert_sorted_in t u ts : In t (insert_sorted u ts) <-> t = u \/ In t ts.
Proof.
induction ts as [|x ts IH]; simpl.
- intuition.
- destruct (String.eqb_spec u x) as [->|Hne]; simpl; [intuition|].
  destruct (String.leb u x); simpl; [intuition|]. rewrite IH. intuition.
Qed.

Lemma group_labels_in cells t :
  In t (group_labels cells) <-> In (Some (VStr t)) cells.
Proof.
unfold group_labels.
assert (G : forall acc,
  In t (fold_left (fun acc cell => match cell with
                                   | Some (VStr u) => insert_sorted u acc
                                   | _ => acc
                                   end) cells acc)
  <-> In t acc \/ In (Some (VStr t)) cells).
{ induction cells as [|cell cells IH]; intros acc; simpl; [intuition|].
  rewrite IH. destruct cell as [[u|z|f]|]; try rewrite insert_sorted_in.
  + split.
    * intros [[->|H]|H]; auto.
    * intros [H|[H|H]]; auto. inversion H. auto.
  + split; [intros [H|H]; auto | intros [H|[H|H]]; auto; discriminate].
  + split; [intros [H|H]; auto | intros [H|[H|H]]; auto; discriminate].
  + split; [intros [H|H]; auto | intros [H|[H|H]]; auto; discriminate]. }
rewrite G. simpl. intuition.
Qed.

Lemma has_topic_iff t outcomes :
  has_topic t outcomes = true <-> In (Some (VStr t)) (map (Dict.get "topic") outcomes).
Proof.
unfold has_topic. rewrite existsb_exists, in_map_iff.
split; intros (r & H1 & H2).
- exists r. split; [now apply cell_is_iff | assumption].
- exists r. split; [assumption | now apply cell_is_iff].
Qed.

(** What a row of the grouped statistics holds. *)
Lemma topic_stats_rows f b stats : topic_stats f b = Ok stats ->
  Forall2
    (fun t r => row_topic r = t /\
                exists tp, group_mean f "throughput_mb_sec" t = Ok tp /\
                           row_throughput_mb_sec r = Num.round2 tp)
    (group_labels (map (Dict.get "topic") (rows f))) stats.
Proof.
unfold topic_stats, column. intros H.
destruct (has_column f "topic"); simpl bind in H; [|discriminate H].
destruct (has_column f "throughput_mb_sec"); simpl bind in H; [|discriminate H].
destruct (has_column f "records_per_sec"); simpl bind in H; [|discriminate H].
apply map_result_ok in H.
eapply Forall2_impl; [|exact H].
intros t r Hr. cbv beta in Hr. bind_inv Hr. inversion Hr; subst.
cbn [row_topic row_throughput_mb_sec]. eauto.
Qed.

Lemma in_index_iff stats t : in_index stats t = true <-> In t (map row_topic stats).
Proof.
unfold in_index. rewrite existsb_exists, in_map_iff.
split; intros (r & H1 & H2); exists r.
- apply String.eqb_eq in H2. auto.
- split; [assumption|]. subst. apply String.eqb_refl.
Qed.

Lemma reindex_topics stats labels : map row_topic (reindex stats labels) = labels.
Proof.
unfold reindex. rewrite map_map. rewrite <- (map_id labels) at 2.
apply map_ext. intros t.
destruct (find (fun r => String.eqb (row_topic r) t) stats) as [r|] eqn:Hf; [|reflexivity].
apply find_some in Hf as [_ Hf]. now apply String.eqb_eq in Hf.
Qed.

Lemma Forall2_labels {A B : Type} (P : A -> B -> Prop) (key : B -> A) xs ys :
  Forall2 (fun x y => key y = x /\ P x y) xs ys -> map key ys = xs.
Proof. induction 1 as [|x y xs ys [Hk _] _ IH]; simpl; congruence. Qed.

Lemma Forall2_in_right {A B : Type} (P : A -> B -> Prop) xs ys y :
  Forall2 P xs ys -> In y ys -> exists x, In x xs /\ P x y.
Proof.
induction 1 as [|x0 y0 xs ys Hp _ IH]; intros Hin; [destruct Hin|].
destruct Hin as [->|Hin]; [exists x0; simpl; auto|].
destruct (IH Hin) as (x & Hx & Hpx). exists x; simpl; auto.
Qed.

(** The topics of a summary table: the listed topics that occur, in the
    order of the list. *)
Lemma summary_table_topics f b table : summary_table f b = Ok table ->
  map row_topic table = filter (fun t => has_topic t (rows f)) topic_order.
Proof.
unfold summary_table. intros H. bind_inv H. apply Ok_inj in H. subst table.
rewrite reindex_topics. apply filter_ext. intros t. apply bool_ext.
apply topic_stats_rows in E. apply Forall2_labels in E.
rewrite in_index_iff, E, group_labels_in. symmetry. apply has_topic_iff.
Qed.

(** Every row of a summary table shows the rounded mean of its group. *)
Lemma summary_table_row f b table row : summary_table f b = Ok table ->
  In row table ->
  exists tp, group_mean f "throughput_mb_sec" (row_topic row) = Ok tp /\
             row_throughput_mb_sec row = Num.round2 tp.
Proof.
unfold summary_table. intros H Hin. bind_inv H. apply Ok_inj in H. subst table.
unfold reindex in Hin. apply in_map_iff in Hin as (t & <- & Ht).
apply filter_In in Ht as [_ Ht]. unfold in_index in Ht.
destruct (find (fun r => String.eqb (row_topic r) t) a) as [r|] eqn:Hf.
- apply find_some in Hf as [Hr _].
  apply topic_stats_rows in E.
  destruct (Forall2_in_right _ _ _ _ E Hr) as (t' & _ & <- & Htp). exact Htp.
- exfalso. apply existsb_exists in Ht as (r & Hr & Hrt).
  apply (find_none _ _ Hf) in Hr. congruence.
Qed.

Lemma rows_select f c v : rows (select f c v) = filter (cell_is c v) (rows f).
Proof. reflexivity. Qed.

Lemma frame_empty_select f c v :
  frame_empty f = false -> filter (cell_is c v) (rows f) <> [] ->
  frame_empty (select f c v) = false.
Proof.
unfold frame_empty, select; simpl. destruct (columns f); [discriminate|].
intros _ H. destruct (filter (cell_is c v) (rows f)); congruence.
Qed.

(** A report that is returned holds the summary tables of the successful
    producers and of the successful consumers. *)
Lemma build_report_tables results rep : build_report results = Ok (Some rep) ->
  exists cols,
  (forall table, producer_table rep = Some table ->
     exists b, summary_table {| columns := cols; rows := producers results |} b = Ok table) /\
  (forall table, consumer_table rep = Some table ->
     exists b, summary_table {| columns := cols; rows := consumers results |} b = Ok table) /\
  (producers results <> [] -> producer_table rep <> None) /\
  (consumers results <> [] -> consumer_table rep <> None).
Proof.
unfold build_report, ReportGenerator_init, producers, consumers.
fold (successes results).
destruct (successes results) as [|r0 rs] eqn:Hs.
- simpl. intros H. inversion H.
- set (frame0 := DataFrame (r0 :: rs)).
  destruct (frame_empty frame0) eqn:Hempty; simpl negb; cbv iota.
  + simpl bind. unfold generate_html_report. simpl df. rewrite Hempty.
    intros H. discriminate H.
  + intros H. apply bind_ok in H as (self & Hinit & H).
    apply bind_ok in Hinit as (cells & _ & Hinit). apply Ok_inj in Hinit. subst self.
    unfold generate_html_report in H. simpl df in H. rewrite Hempty in H.
    apply bind_ok in H as (u & _ & H). apply bind_ok in H as (summary & Hsum & H).
    apply Ok_inj in H. injection H as ->.
    unfold _generate_summary_html in Hsum. simpl producer_df in Hsum.
    simpl consumer_df in Hsum.
    apply bind_ok in Hsum as (stats & _ & Hsum). destruct stats as [[[total avg] mx] best].
    apply bind_ok in Hsum as (ptable & Hp & Hsum).
    apply bind_ok in Hsum as (ctable & Hc & Hsum).
    apply Ok_inj in Hsum. subst rep. cbn [producer_table consumer_table].
    exists (columns frame0).
    assert (Hne : forall v, filter (cell_is "test_type" v) (r0 :: rs) <> [] ->
                  frame_empty (select frame0 "test_type" v) = false)
      by (intros v Hv; now apply frame_empty_select).
    repeat split.
    * intros table Ht. subst ptable.
      destruct (frame_empty (select frame0 "test_type" "producer")); simpl negb in Hp;
        cbv iota in Hp; [discriminate Hp|].
      apply bind_ok in Hp as (t & Hp & Ht). apply Ok_inj in Ht. injection Ht as ->.
      eexists. exact Hp.
    * intros table Ht. subst ctable.
      destruct (frame_empty (select frame0 "test_type" "consumer")); simpl negb in Hc;
        cbv iota in Hc; [discriminate Hc|].
      apply bind_ok in Hc as (t & Hc & Ht). apply Ok_inj in Ht. injection Ht as ->.
      eexists. exact Hc.
    * intros Hrows. rewrite (Hne _ Hrows) in Hp. simpl negb in Hp. cbv iota in Hp.
      apply bind_ok in Hp as (t & _ & Ht). apply Ok_inj in Ht. congruence.
    * intros Hrows. rewrite (Hne _ Hrows) in Hc. simpl negb in Hc. cbv iota in Hc.
      apply bind_ok in Hc as (t & _ & Ht). apply Ok_inj in Ht. congruence.
Qed.

(** C4, counterexample: the successful producer run on topic [orders] has
    no row in the producer table. *)
Lemma unlisted_topic_counterexample : ~ unlisted_topics_appear.
Proof.
intros H.
assert (Hin : In "orders" (map row_topic
                 [ {| row_topic := "p1-rf1"; row_throughput_mb_sec := Fin 1;
                      row_records_per_sec := Fin 100;
                      row_avg_latency_ms := Some (Fin (Qmake 5 2)) |};
                   {| row_topic := "p3-rf3"; row_throughput_mb_sec := Fin (Qmake 15 2);
                      row_records_per_sec := Fin 100;
                      row_avg_latency_ms := Some (Fin (Qmake 5 2)) |};
                   {| row_topic := "p30-rf3"; row_throughput_mb_sec := Fin (Qmake 15 2);
                      row_records_per_sec := Fin 100;
                      row_avg_latency_ms := Some (Fin (Qmake 5 2)) |} ])).
{ apply (H sample_results sample_report); vm_compute; reflexivity. }
simpl in Hin. intuition discriminate.
Qed.

(** C4 (amended): in a report that is returned, the topics of the producer
    table are the topics of the fixed list that occur among the successful
    producers, in the order of the list, and likewise for the consumer
    table; a topic outside the list has no row. *)
Theorem summary_tables_follow_topic_order results rep :
  build_report results = Ok (Some rep) ->
  (forall table, producer_table rep = Some table ->
     map row_topic table = filter (fun t => has_topic t (producers results)) topic_order) /\
  (forall table, consumer_table rep = Some table ->
     map row_topic table = filter (fun t => has_topic t (consumers results)) topic_order).
Proof.
intros H. apply build_report_tables in H as (cols & Hp & Hc & _ & _).
split; intros table Ht.
- destruct (Hp table Ht) as [b Hb]. apply (summary_table_topics _ _ _ Hb).
- destruct (Hc table Ht) as [b Hb]. apply (summary_table_topics _ _ _ Hb).
Qed.

Lemma summary_tables_follow_topic_order_witness :
  (forall table, producer_table sample_report = Some table ->
     map row_topic table =
     filter (fun t => has_topic t (producers sample_results)) topic_order) /\
  (forall table, consumer_table sample_report = Some table ->
     map row_topic table =
     filter (fun t => has_topic t (consumers sample_results)) topic_order).
Proof.
apply (summary_tables_follow_topic_order sample_results sample_report).
vm_compute. reflexivity.
Defined.

Lemma map_result_numeric_fin qs :
  map_result numeric (map (fun q => Some (VFloat (Fin q))) qs) = Ok (map Fin qs).
Proof. induction qs as [|q qs IH]; simpl; [reflexivity | now rewrite IH]. Qed.

Lemma filter_not_nan_fin qs :
  filter (fun x => negb (Num.is_nan x)) (map Fin qs) = map Fin qs.
Proof. induction qs as [|q qs IH]; simpl; [reflexivity | now rewrite IH]. Qed.

Lemma total_fin qs : forall a, exists a',
  fold_left Num.add (map Fin qs) (Fin a) = Fin a' /\ (a' == a + fold_right Qplus 0 qs)%Q.
Proof.
induction qs as [|q qs IH]; intros a; simpl.
- exists a. split; [reflexivity | ring].
- destruct (IH (Qred (a + q))) as (a' & Ha & Hq). exists a'. split; [assumption|].
  rewrite Hq, Qred_correct. ring.
Qed.

(** The mean of finite numbers is their arithmetic mean. *)
Lemma mean_fin qs : qs <> [] ->
  exists q, Num.mean (map Fin qs) = Fin q /\ (q == average qs)%Q.
Proof.
intros Hne. unfold Num.mean. rewrite filter_not_nan_fin.
destruct (map Fin qs) as [|y ys] eqn:Hm; [destruct qs; [congruence | discriminate]|].
cbv iota. rewrite <- Hm. unfold Num.total.
destruct (total_fin qs 0) as (a' & Ha & Hq).
rewrite Ha. unfold Num.div_count. eexists. split; [reflexivity|].
rewrite Qred_correct, Hq, length_map. unfold average.
now rewrite Qplus_0_l.
Qed.

Lemma of_topic_has_topic t outcomes : of_topic t outcomes <> [] -> has_topic t outcomes = true.
Proof.
unfold of_topic, has_topic. intros H.
destruct (filter (cell_is "topic" t) outcomes) as [|r rs] eqn:Hf; [congruence|].
assert (Hin : In r (filter (cell_is "topic" t) outcomes)) by (rewrite Hf; now left).
apply filter_In in Hin as [Hin Hr]. apply existsb_exists. now exists r.
Qed.

Lemma filter_nonempty {A : Type} (p : A -> bool) xs : filter p xs <> [] -> xs <> [].
Proof. destruct xs; simpl; congruence. Qed.




Lemma float_or_absent_numeric k e : float_or_absent k e -> numeric_ok k e.
Proof.
intros [H|[x H]]; unfold numeric_ok; rewrite H; simpl; eauto.
Qed.

Lemma mem_keys k e : Dict.mem k e = existsb (String.eqb k) (Dict.keys e).
Proof.
unfold Dict.mem. induction e as [|[k0 v0] e IH]; simpl; [reflexivity|].
destruct (String.eqb k k0); [reflexivity | exact IH].
Qed.

Lemma existsb_add_column k acc k0 :
  existsb (String.eqb k) (add_column acc k0) = existsb (String.eqb k) acc || String.eqb k k0.
Proof.
unfold add_column. destruct (existsb (String.eqb k0) acc) eqn:H.
- destruct (String.eqb_spec k k0) as [->|_]; [now rewrite H | now rewrite orb_false_r].
- rewrite existsb_app. simpl. now rewrite orb_false_r.
Qed.

Lemma existsb_add_columns k ks : forall acc,
  existsb (String.eqb k) (fold_left add_column ks acc)
  = existsb (String.eqb k) acc || existsb (String.eqb k) ks.
Proof.
induction ks as [|k0 ks IH]; intros acc; simpl; [now rewrite orb_false_r|].
now rewrite IH, existsb_add_column, orb_assoc.
Qed.

(** The frame of one record has the keys of the record for columns. *)
Lemma has_column_single e k : has_column (DataFrame [e]) k = Dict.mem k e.
Proof.
unfold has_column, DataFrame. cbn [columns fold_left].
now rewrite existsb_add_columns, mem_keys.
Qed.

Lemma mem_get k e v : Dict.get k e = Some v -> Dict.mem k e = true.
Proof. unfold Dict.mem. now intros ->. Qed.

Lemma mem_get_inv k e : Dict.mem k e = true -> exists v, Dict.get k e = Some v.
Proof. unfold Dict.mem. destruct (Dict.get k e) as [v|]; [eauto | discriminate]. Qed.

Lemma map_result_total {A B : Type} (g : A -> result B) xs :
  (forall x, In x xs -> exists y, g x = Ok y) -> exists ys, map_result g xs = Ok ys.
Proof.
induction xs as [|x xs IH]; intros H; simpl; [eauto|].
destruct (H x (or_introl eq_refl)) as [y Hy]. rewrite Hy. simpl.
destruct IH as [ys Hys]; [intros x' Hx'; apply H; now right|].
rewrite Hys. simpl. eauto.
Qed.

Lemma group_mean_total f k t :
  Forall (numeric_ok k) (rows f) -> exists m, group_mean f k t = Ok m.
Proof.
intros H. unfold group_mean.
destruct (map_result_total numeric (map (Dict.get k) (filter (cell_is "topic" t) (rows f))))
  as [xs Hxs].
- intros cell Hc. apply in_map_iff in Hc as (r & <- & Hr).
  apply filter_In in Hr as [Hr _]. rewrite Forall_forall in H. now apply H.
- rewrite Hxs. simpl. eauto.
Qed.

Lemma topic_stats_total f b :
  has_column f "topic" = true -> has_column f "throughput_mb_sec" = true ->
  has_column f "records_per_sec" = true ->
  Forall (numeric_ok "throughput_mb_sec") (rows f) ->
  Forall (numeric_ok "records_per_sec") (rows f) ->
  (b = true -> Forall (numeric_ok "avg_latency_ms") (rows f)) ->
  exists stats, topic_stats f b = Ok stats.
Proof.
intros H1 H2 H3 Ht Hr Hl. unfold topic_stats, column. rewrite H1, H2, H3. simpl bind.
apply map_result_total. intros t _.
destruct (group_mean_total f "throughput_mb_sec" t Ht) as [tp ->].
destruct (group_mean_total f "records_per_sec" t Hr) as [rps ->]. simpl bind.
destruct b.
- destruct (group_mean_total f "avg_latency_ms" t (Hl eq_refl)) as [l ->]. simpl. eauto.
- simpl. eauto.
Qed.

Lemma summary_table_total f b :
  has_column f "topic" = true -> has_column f "throughput_mb_sec" = true ->
  has_column f "records_per_sec" = true ->
  Forall (numeric_ok "throughput_mb_sec") (rows f) ->
  Forall (numeric_ok "records_per_sec") (rows f) ->
  (b = true -> Forall (numeric_ok "avg_latency_ms") (rows f)) ->
  exists table, summary_table f b = Ok table.
Proof.
intros H1 H2 H3 Ht Hr Hl. unfold summary_table.
destruct (topic_stats_total f b H1 H2 H3 Ht Hr Hl) as [stats ->]. simpl bind. eauto.
Qed.

(** Columns of a frame with one row. *)
Lemma column_single cols e k :
  has_column {| columns := cols; rows := [e] |} k = true ->
  column {| columns := cols; rows := [e] |} k = Ok [Dict.get k e].
Proof. intros H. unfold column. now rewrite H. Qed.

Lemma numeric_column_single cols e k x :
  has_column {| columns := cols; rows := [e] |} k = true ->
  numeric (Dict.get k e) = Ok x ->
  numeric_column {| columns := cols; rows := [e] |} k = Ok [x].
Proof.
intros H Hx. unfold numeric_column. rewrite (column_single _ _ _ H). simpl. now rewrite Hx.
Qed.

Lemma read_column_single cols e k :
  has_column {| columns := cols; rows := [e] |} k = true ->
  read_columns {| columns := cols; rows := [e] |} false [k] = Ok tt.
Proof. intros H. simpl. now rewrite (column_single _ _ _ H). Qed.

Lemma read_numeric_single cols e k :
  has_column {| columns := cols; rows := [e] |} k = true -> numeric_ok k e ->
  read_columns {| columns := cols; rows := [e] |} true [k] = Ok tt.
Proof.
intros H [x Hx]. simpl. now rewrite (numeric_column_single _ _ _ x H Hx).
Qed.

Section Single_outcome.

Variable cols : list string.
Variable e : dict.
Variable v : pyfloat.
Variable name : pyval.

Local Abbreviation one := {| columns := cols; rows := [e] |}.
Local Abbreviation none := {| columns := cols; rows := [] |}.

Hypothesis Hcols : forall k, existsb (String.eqb k) cols = Dict.mem k e.
Hypothesis Hcomplete : complete_outcome e.
Hypothesis Hthroughput : Dict.get "throughput_mb_sec" e = Some (VFloat v).
Hypothesis Hnumber : v <> NaN.
Hypothesis Hname : Dict.get "test_name" e = Some name.

Lemma single_has_column k : has_column one k = Dict.mem k e.
Proof. apply Hcols. Qed.

Lemma single_cols_nonempty : cols <> [].
Proof.
intros E. pose proof (Hcols "test_name") as H. rewrite E, (mem_get _ _ _ Hname) in H.
discriminate.
Qed.

Lemma single_one_not_empty : frame_empty one = false.
Proof.
unfold frame_empty; simpl. pose proof single_cols_nonempty.
destruct cols; [congruence | reflexivity].
Qed.

Lemma single_none_empty : frame_empty none = true.
Proof. unfold frame_empty; simpl. now destruct cols. Qed.

Lemma single_rate_column : has_column one "records_per_sec" = true.
Proof.
rewrite single_has_column. destruct Hcomplete as (_ & _ & [x Hx] & _).
exact (mem_get _ _ _ Hx).
Qed.

Lemma single_throughput_column : has_column one "throughput_mb_sec" = true.
Proof. rewrite single_has_column. exact (mem_get _ _ _ Hthroughput). Qed.

Lemma single_topic_column : has_column one "topic" = true.
Proof. rewrite single_has_column. now destruct Hcomplete as (_ & H & _). Qed.

Lemma single_name_column : has_column one "test_name" = true.
Proof. rewrite single_has_column. exact (mem_get _ _ _ Hname). Qed.

Lemma single_throughput_ok : numeric_ok "throughput_mb_sec" e.
Proof. exists v. now rewrite Hthroughput. Qed.

Lemma single_rate_ok : numeric_ok "records_per_sec" e.
Proof.
destruct Hcomplete as (_ & _ & [x Hx] & _). exists x. now rewrite Hx.
Qed.

Lemma single_latency_ok :
  has_column one "avg_latency_ms" = true ->
  numeric_ok "avg_latency_ms" e /\ numeric_ok "max_latency_ms" e /\
  has_column one "max_latency_ms" = true.
Proof.
rewrite !single_has_column. intros H.
destruct Hcomplete as (_ & _ & _ & _ & _ & [Habs|[[x Hx] [y Hy]]]).
- apply mem_get_inv in H as [w Hw]. congruence.
- repeat split; [exists x; now rewrite Hx | exists y; now rewrite Hy | exact (mem_get _ _ _ Hy)].
Qed.

(** The column reads of the charts succeed on the frame of the outcome. *)
Lemma single_charts (results : list dict) (fdf : frame) (is_producer : bool) :
  _create_charts
    {| rg_results := results; df := fdf;
       producer_df := if is_producer then one else none;
       consumer_df := if is_producer then none else one |} = Ok tt.
Proof.
unfold _create_charts. cbn [producer_df consumer_df].
assert (Huse : (if negb (frame_empty (if is_producer then one else none))
                then (if is_producer then one else none)
                else (if is_producer then none else one)) = one).
{ destruct is_producer; [now rewrite single_one_not_empty | now rewrite single_none_empty]. }
assert (Hboth : negb (frame_empty (if is_producer then one else none))
                && negb (frame_empty (if is_producer then none else one)) = false).
{ destruct is_producer; rewrite single_one_not_empty, single_none_empty; reflexivity. }
rewrite Hboth, Huse.
rewrite (read_column_single _ _ _ single_name_column). cbn [bind].
rewrite (read_numeric_single _ _ _ single_throughput_column single_throughput_ok). cbn [bind].
rewrite (read_column_single _ _ _ single_topic_column). cbn [bind].
rewrite (read_numeric_single _ _ _ single_rate_column single_rate_ok). cbn [bind].
destruct (negb (frame_empty (if is_producer then one else none))); [|reflexivity].
destruct (has_column one "avg_latency_ms") eqn:Hlat; [|reflexivity].
destruct (single_latency_ok Hlat) as ([x Hx] & [y Hy] & Hmax).
cbn [andb read_columns].
rewrite (numeric_column_single _ _ _ x Hlat Hx). cbn [bind].
now rewrite (numeric_column_single _ _ _ y Hmax Hy).
Qed.

(** The callouts over the frame of the outcome. *)
Lemma single_overall count_col : float_or_absent count_col e ->
  exists total, overall one count_col = Ok (total, Num.mean [v], v, Some name).
Proof.
intros Hcount. unfold overall.
assert (Htotal : exists total,
          (if has_column one count_col
           then xs <- numeric_column one count_col ;; Ok (Num.sum xs)
           else Ok (Fin 0)) = Ok total).
{ destruct (has_column one count_col) eqn:Hc; [|eauto].
  destruct (float_or_absent_numeric _ _ Hcount) as [x Hx].
  rewrite (numeric_column_single _ _ _ x Hc Hx). simpl. eauto. }
destruct Htotal as [total ->]. cbn [bind].
rewrite (numeric_column_single _ _ _ v single_throughput_column)
  by (now rewrite Hthroughput).
cbn [bind].
assert (Hnan : Num.is_nan v = false) by (destruct v; [reflexivity | reflexivity | congruence]).
unfold Num.idxmax, Num.max. simpl. rewrite Hnan.
rewrite (column_single _ _ _ single_name_column). simpl. rewrite Hname. eauto.
Qed.

Lemma single_table b : (b = true -> has_column one "avg_latency_ms" = true) ->
  exists table, summary_table one b = Ok table.
Proof.
intros Hb. apply summary_table_total.
- exact single_topic_column.
- exact single_throughput_column.
- exact single_rate_column.
- repeat constructor. exact single_throughput_ok.
- repeat constructor. exact single_rate_ok.
- intros ->. repeat constructor. now destruct (single_latency_ok (Hb eq_refl)).
Qed.

(** The report over the one successful outcome. *)
Lemma single_report (results : list dict) (fdf : frame) (is_producer : bool) :
  frame_empty fdf = false ->
  exists rep,
    generate_html_report
      {| rg_results := results; df := fdf;
         producer_df := if is_producer then one else none;
         consumer_df := if is_producer then none else one |} = Ok (Some rep) /\
    max_throughput rep = v /\ best_test rep = Some name.
Proof.
intros Hdf. unfold generate_html_report. cbn [df]. rewrite Hdf.
rewrite single_charts. cbn [bind].
unfold _generate_summary_html. cbn [producer_df consumer_df].
destruct Hcomplete as (_ & _ & _ & Hsent & Hconsumed & _).
destruct is_producer.
- rewrite single_one_not_empty, single_none_empty. cbn [negb andb].
  destruct (single_overall "records_sent" Hsent) as [total ->]. cbn [bind].
  destruct (single_table (has_column one "avg_latency_ms")) as [table ->]; [auto|].
  cbn [bind]. eexists. split; [reflexivity|]. split; reflexivity.
- rewrite single_one_not_empty, single_none_empty. cbn [negb andb].
  destruct (single_overall "messages_consumed" Hconsumed) as [total ->]. cbn [bind].
  destruct (single_table false) as [table ->]; [discriminate|].
  cbn [bind]. eexists. split; [reflexivity|]. split; reflexivity.
Qed.

End Single_outcome.




(* ================================================================== *)
(** ** More on running tests *)

Lemma name_or_nonempty test_name fallback :
  fallback <> "" -> name_or test_name fallback <> "".
Proof.
intros H. unfold name_or. destruct test_name as [[|c n]|]; simpl; auto. discriminate.
Qed.

Lemma sapp_nonempty_r (a b : string) : b <> "" -> a ++ b <> "".
Proof. destruct a; simpl; [auto | discriminate]. Qed.

Lemma producer_outcome_labelled env self cfg :
  labelled (name_or (p_test_name cfg) (p_topic cfg ++ "-producer")) "producer"
    (snd (run_producer_test env self cfg)).
Proof.
unfold labelled, run_producer_test.
split; [|split; [apply name_or_nonempty, sapp_nonempty_r; discriminate|]].
- destruct (outcome (env _)) as [rc out err| |msg]; [|reflexivity|reflexivity].
  destruct (rc =? 0)%Z; [|reflexivity].
  destruct (_parse_producer_output out); [|reflexivity].
  unfold Dict.update. cbn [fold_left fst snd].
  rewrite !dict_get_set_other by discriminate. apply dict_get_set_same.
- destruct (outcome (env _)) as [rc out err| |msg].
  + destruct (rc =? 0)%Z.
    * destruct (_parse_producer_output out).
      -- unfold Dict.update. cbn [fold_left fst snd]. split.
         ++ rewrite !dict_get_set_other by discriminate. apply dict_get_set_same.
         ++ exists "success". split; [simpl; auto|].
            rewrite !dict_get_set_other by discriminate. apply dict_get_set_same.
      -- split; [reflexivity|]. exists "error". split; [simpl; auto | reflexivity].
    * split; [reflexivity|]. exists "failed". split; [simpl; auto | reflexivity].
  + split; [reflexivity|]. exists "timeout". split; [simpl; auto | reflexivity].
  + split; [reflexivity|]. exists "error". split; [simpl; auto | reflexivity].
Qed.

Lemma consumer_outcome_labelled env self cfg :
  labelled (name_or (c_test_name cfg) (c_topic cfg ++ "-consumer")) "consumer"
    (snd (run_consumer_test env self cfg)).
Proof.
unfold labelled, run_consumer_test.
split; [|split; [apply name_or_nonempty, sapp_nonempty_r; discriminate|]].
- destruct (outcome (env _)) as [rc out err| |msg]; [|reflexivity|reflexivity].
  destruct (rc =? 0)%Z; [|reflexivity].
  destruct (_parse_consumer_output out); [|reflexivity].
  unfold Dict.update. cbn [fold_left fst snd].
  rewrite !dict_get_set_other by discriminate. apply dict_get_set_same.
- destruct (outcome (env _)) as [rc out err| |msg].
  + destruct (rc =? 0)%Z.
    * destruct (_parse_consumer_output out).
      -- unfold Dict.update. cbn [fold_left fst snd]. split.
         ++ rewrite !dict_get_set_other by discriminate. apply dict_get_set_same.
         ++ exists "success". split; [simpl; auto|].
            rewrite !dict_get_set_other by discriminate. apply dict_get_set_same.
      -- split; [reflexivity|]. exists "error". split; [simpl; auto | reflexivity].
    * split; [reflexivity|]. exists "failed". split; [simpl; auto | reflexivity].
  + split; [reflexivity|]. exists "timeout". split; [simpl; auto | reflexivity].
  + split; [reflexivity|]. exists "error". split; [simpl; auto | reflexivity].
Qed.

Lemma returned_by_each {C : Type}
  (run : environment -> KafkaBenchmark -> C -> KafkaBenchmark * dict) (w : world)
  (P : C -> dict -> Prop) :
  (forall env self c, P c (snd (run env self c))) ->
  forall configs st, Forall2 P configs (returned_by run w configs st).
Proof.
intros H. induction configs as [|c cs IH]; intros [self n]; simpl; constructor; auto.
Qed.

(** X1: the suite calls the runner once for each configuration, and the
    result list after the suite is the list before it followed by the
    outcomes with status [success] or [failed], in the order of the calls;
    what was in the list stays in it. *)
Theorem suite_appends_completed_outcomes (w : world) (self : KafkaBenchmark)
  (producer_configs : list producer_config)
  (consumer_configs : option (list consumer_config)) :
  List.length (suite_outcomes w self producer_configs consumer_configs)
  = List.length producer_configs + List.length (default consumer_configs []) /\
  results (run_test_suite w self producer_configs consumer_configs)
  = (results self
     ++ filter recorded (suite_outcomes w self producer_configs consumer_configs))%list.
Proof. apply suite_accumulates_recorded. Qed.

(** X2: the outcomes of a suite come in the order of the configurations,
    the producers' block before the consumers': the outcome of a
    configuration has its test name (the one given, or the topic followed by
    [-producer] or [-consumer] when none or an empty one is given), which is
    never empty, its test type and one of the four statuses. *)
Theorem suite_outcomes_follow_configs (w : world) (self : KafkaBenchmark)
  (producer_configs : list producer_config)
  (consumer_configs : option (list consumer_config)) :
  exists ps cs,
    suite_outcomes w self producer_configs consumer_configs = (ps ++ cs)%list /\
    Forall2 (fun cfg r =>
               labelled (name_or (p_test_name cfg) (p_topic cfg ++ "-producer"))
                 "producer" r)
      producer_configs ps /\
    Forall2 (fun cfg r =>
               labelled (name_or (c_test_name cfg) (c_topic cfg ++ "-consumer"))
                 "consumer" r)
      (default consumer_configs []) cs.
Proof.
unfold suite_outcomes. eexists. eexists. split; [reflexivity|]. split.
- apply returned_by_each. intros env s c. apply producer_outcome_labelled.
- apply returned_by_each. intros env s c. apply consumer_outcome_labelled.
Qed.

(** X3: a consumer run whose process exits with code 0 is always appended
    with status [success], whatever it printed: the consumer parser returns
    on every text, and the recorded outcome holds each consumer metric
    exactly when the parser extracted it. *)
Theorem consumer_exit_zero_is_success
  (env : environment) (self : KafkaBenchmark) (cfg : consumer_config)
  (stdout stderr : string) :
  (forall cmd, outcome (env cmd) = Completed 0 stdout stderr) ->
  exists metrics r,
    _parse_consumer_output stdout = Ok metrics /\
    run_consumer_test env self cfg = (append_result self r, r) /\
    Dict.get "status" r = Some (VStr "success") /\
    forall k, In k consumer_keys -> Dict.get k r = Dict.get k metrics.
Proof.
intros Henv. destruct (consumer_scan_total (rev (output_lines stdout)) []) as [metrics Hm].
exists metrics. eexists. split; [exact Hm|].
unfold run_consumer_test. rewrite Henv. simpl Z.eqb. cbv iota.
unfold output_lines in Hm. unfold _parse_consumer_output. rewrite Hm.
split; [reflexivity|]. split.
- unfold Dict.update. cbn [fold_left fst snd].
  rewrite !dict_get_set_other by discriminate. apply dict_get_set_same.
- intros k Hk. apply dict_get_update_other. cbn [Dict.keys map fst].
  simpl in Hk. intros Hin. simpl in Hin.
  repeat (destruct Hk as [<-|Hk]; [intuition discriminate|]). contradiction.
Qed.

Lemma consumer_exit_zero_is_success_witness :
  exists metrics r,
    _parse_consumer_output "Picked up JAVA_TOOL_OPTIONS" = Ok metrics /\
    run_consumer_test (exits_zero_with "Picked up JAVA_TOOL_OPTIONS") fresh
      (consumer_on "p1-rf1") = (append_result fresh r, r) /\
    Dict.get "status" r = Some (VStr "success") /\
    forall k, In k consumer_keys -> Dict.get k r = Dict.get k metrics.
Proof.
apply (consumer_exit_zero_is_success _ fresh (consumer_on "p1-rf1") _ "").
intros cmd. reflexivity.
Defined.

Lemma split_not_nil sep s : Py.split sep s <> [].
Proof.
destruct s as [|c s]; simpl; [discriminate|].
destruct (Ascii.eqb c sep); [discriminate|]. destruct (Py.split sep s); discriminate.
Qed.

Lemma split_first sep s h t : Py.split sep s = h :: t ->
  (forall c, In c (list_ascii_of_string h) -> c <> sep) /\
  (s = h \/ exists rest, s = h ++ String sep rest).
Proof.
revert h t. induction s as [|c s IH]; intros h t H; simpl in H.
- inversion H; subst. split; [intros c []|now left].
- destruct (Ascii.eqb_spec c sep) as [->|Hne].
  + inversion H; subst. split; [intros c []|]. right. now exists s.
  + destruct (Py.split sep s) as [|h' t'] eqn:Hs; [now apply split_not_nil in Hs|].
    inversion H; subst.
    destruct (IH _ _ eq_refl) as [Hno Hs'].
    split; [intros d [Hd|Hd]; [now subst | auto]|].
    destruct Hs' as [->|[rest ->]]; [now left | right; now exists rest].
Qed.

(** X4: the consumer tool is started with [--bootstrap-server] followed by
    the text of [bootstrap_servers] before its first comma: that argument
    holds no comma, and [bootstrap_servers] is that text alone or that text
    followed by a comma and more. *)
Theorem consumer_is_given_first_server (self : KafkaBenchmark) (cfg : consumer_config) :
  exists cmd server,
    (forall env env', env cmd = env' cmd ->
       run_consumer_test env self cfg = run_consumer_test env' self cfg) /\
    nth_error cmd 1 = Some "--bootstrap-server" /\
    nth_error cmd 2 = Some server /\
    (forall c, In c (list_ascii_of_string server) -> c <> ","%char) /\
    (bootstrap_servers self = server \/
     exists rest, bootstrap_servers self = server ++ "," ++ rest).
Proof.
eexists. exists (first_server (bootstrap_servers self)). split; [|split; [|split]].
- intros env env' H. unfold run_consumer_test. cbv zeta. rewrite H. reflexivity.
- reflexivity.
- reflexivity.
- unfold first_server.
  destruct (Py.split "," (bootstrap_servers self)) as [|h t] eqn:Hs.
  + now apply split_not_nil in Hs.
  + apply (split_first _ _ _ _ Hs).
Qed.

(* ================================================================== *)
(** ** More on the consumer parser *)

Lemma lstrip_all_space w : all_in Py.isspace w -> Py.lstrip w = "".
Proof.
induction w as [|c w IH]; intros H; simpl; [reflexivity|].
apply all_in_cons in H as [Hc Hw]. rewrite Hc. auto.
Qed.

Lemma lstrip_spaces w s : all_in Py.isspace w -> Py.lstrip (w ++ s) = Py.lstrip s.
Proof.
induction w as [|c w IH]; intros H; simpl; [reflexivity|].
apply all_in_cons in H as [Hc Hw]. rewrite Hc. auto.
Qed.

Lemma lstrip_app s w :
  Py.lstrip (s ++ w) =
  match Py.lstrip s with
  | EmptyString => Py.lstrip w
  | _ => Py.lstrip s ++ w
  end.
Proof.
induction s as [|c s IH]; simpl; [reflexivity|].
destruct (Py.isspace c); [exact IH | reflexivity].
Qed.

Lemma rstrip_all_space w : all_in Py.isspace w -> Py.rstrip w = "".
Proof.
induction w as [|c w IH]; intros H; simpl; [reflexivity|].
apply all_in_cons in H as [Hc Hw]. now rewrite (IH Hw), Hc.
Qed.

Lemma rstrip_spaces s w : all_in Py.isspace w -> Py.rstrip (s ++ w) = Py.rstrip s.
Proof.
intros H. induction s as [|c s IH]; simpl; [now apply rstrip_all_space|].
now rewrite IH.
Qed.

(** White space around a text does not change what [strip] gives. *)
Lemma strip_spaces lead s trail :
  all_in Py.isspace lead -> all_in Py.isspace trail ->
  Py.strip (lead ++ s ++ trail) = Py.strip s.
Proof.
intros Hl Ht. unfold Py.strip. rewrite (lstrip_spaces _ _ Hl), lstrip_app.
destruct (Py.lstrip s) as [|c r] eqn:Hs.
- now rewrite (lstrip_all_space _ Ht).
- now rewrite rstrip_spaces.
Qed.

(** X5: white space before and after the consumer output (blank lines, a
    final newline) does not change what the consumer parser returns. *)
Theorem parse_consumer_ignores_outer_space (lead output trail : string) :
  all_in Py.isspace lead -> all_in Py.isspace trail ->
  _parse_consumer_output (lead ++ output ++ trail) = _parse_consumer_output output.
Proof.
intros Hl Ht. unfold _parse_consumer_output. now rewrite strip_spaces.
Qed.

Lemma parse_consumer_ignores_outer_space_witness :
  _parse_consumer_output
    ((String newline " ") ++ (header_line ++ String newline "" ++ data_line)
       ++ (String newline (String newline "")))
  = _parse_consumer_output (header_line ++ String newline "" ++ data_line).
Proof.
apply parse_consumer_ignores_outer_space.
- intros c [<-|[<-|[]]]; reflexivity.
- intros c [<-|[<-|[]]]; reflexivity.
Defined.

(** X7: when every line of the consumer output is blank or starts with
    [start.time] (so for the empty output and for a lone header), the
    consumer parser returns the empty metric set. *)
Theorem parse_consumer_without_data_row (output : string) :
  Forall (fun line => blank line \/ header line) (output_lines output) ->
  _parse_consumer_output output = Ok [].
Proof.
intros H. unfold _parse_consumer_output. fold (output_lines output).
rewrite <- (app_nil_r (rev (output_lines output))).
rewrite consumer_scan_skip; [reflexivity|].
apply Forall_rev. eapply Forall_impl; [|exact H]. intros l. apply not_candidate_iff.
Qed.

Lemma parse_consumer_without_data_row_witness :
  _parse_consumer_output (header_line ++ String newline "" ++ "   " ++ String newline "" ++ header_line)
  = Ok [].
Proof.
apply parse_consumer_without_data_row.
replace (output_lines _) with [header_line; "   "; header_line]
  by (vm_compute; reflexivity).
apply Forall_cons; [right; vm_compute; reflexivity|].
apply Forall_cons; [left; vm_compute; reflexivity|].
apply Forall_cons; [right; vm_compute; reflexivity|].
apply Forall_nil.
Defined.

Lemma dict_set_fresh k v d : ~ In k (Dict.keys d) -> Dict.set k v d = (d ++ [(k, v)])%list.
Proof.
induction d as [|[k0 v0] d IH]; intros H; simpl; [reflexivity|].
simpl in H. destruct (String.eqb_spec k k0) as [->|_]; [tauto|].
rewrite IH by tauto. reflexivity.
Qed.

(** The assignments add the keys of the statements that ran, in order. *)
Lemma assign_floats_keys steps parts : forall d,
  NoDup (Dict.keys d ++ map fst steps) -> only_floats d ->
  exists n,
    Dict.keys (fst (assign_floats steps parts d)) = (Dict.keys d ++ firstn n (map fst steps))%list /\
    only_floats (fst (assign_floats steps parts d)).
Proof.
induction steps as [|[k i] steps IH]; intros d Hnd Hfl; simpl.
- exists 0. now rewrite app_nil_r.
- destruct (p <- Py.index parts i ;; PyFloat.float p) as [f|e].
  + assert (Hk : ~ In k (Dict.keys d)).
    { intros Hin. simpl in Hnd. apply NoDup_remove_2 in Hnd. apply Hnd.
      apply in_or_app. now left. }
    destruct (IH (Dict.set k (VFloat f) d)) as (n & Hn & Hf).
    * rewrite (dict_set_fresh _ _ _ Hk). unfold Dict.keys. rewrite map_app. simpl.
      rewrite <- app_assoc. exact Hnd.
    * rewrite (dict_set_fresh _ _ _ Hk). apply Forall_app. split; [assumption|].
      constructor; [simpl; eauto | constructor].
    * exists (S n). split; [|assumption]. rewrite Hn, (dict_set_fresh _ _ _ Hk).
      unfold Dict.keys. rewrite map_app. simpl. now rewrite <- app_assoc.
  + exists 0. simpl. now rewrite app_nil_r.
Qed.

Lemma consumer_row_keys row d : consumer_row row [] = Ok d ->
  exists n, Dict.keys d = firstn n consumer_keys /\ only_floats d.
Proof.
unfold consumer_row. destruct (6 <=? _).
- intros H. apply try_block_result in H. subst d.
  destruct (10 <=? _);
    match goal with |- context [assign_floats ?s ?p []] =>
      destruct (assign_floats_keys s p []) as (n & Hn & Hf);
        [simpl; repeat constructor; simpl; intuition discriminate | constructor | ]
    end.
  + exists n. split; [|exact Hf]. rewrite Hn. reflexivity.
  + exists (Nat.min n 4). split; [|exact Hf]. rewrite Hn.
    do 5 (destruct n as [|n]; [reflexivity|]). reflexivity.
- intros H. inversion H. exists 0. split; [reflexivity | constructor].
Qed.

Lemma consumer_scan_result lines d : consumer_scan lines [] = Ok d ->
  d = [] \/ exists row, consumer_row row [] = Ok d.
Proof.
induction lines as [|l ls IH]; simpl; intros H.
- inversion H. now left.
- destruct (is_candidate l); [right; now exists l | auto].
Qed.

Lemma only_floats_get d k v : only_floats d -> Dict.get k d = Some v -> exists x, v = VFloat x.
Proof.
induction 1 as [|[k0 v0] d [x Hx] _ IH]; simpl; [discriminate|].
destruct (String.eqb k k0); [|exact IH].
intros H. inversion H; subst. simpl in Hx. eauto.
Qed.

(** X6: on every text the consumer parser returns a metric set whose keys
    are the first [n] of data_consumed_mb, throughput_mb_sec,
    messages_consumed, records_per_sec, rebalance_time_ms, fetch_time_ms, in
    that order, for some [n]: a later metric is never there without the
    earlier ones; and every value is a float. *)
Theorem parse_consumer_keys_form_a_prefix (output : string) :
  exists d n,
    _parse_consumer_output output = Ok d /\
    Dict.keys d = firstn n consumer_keys /\
    forall k v, Dict.get k d = Some v -> exists x, v = VFloat x.
Proof.
destruct (consumer_scan_total (rev (output_lines output)) []) as [d Hd].
exists d. destruct (consumer_scan_result _ _ Hd) as [->|[row Hrow]].
- exists 0. split; [exact Hd|]. split; [reflexivity | discriminate].
- destruct (consumer_row_keys _ _ Hrow) as (n & Hn & Hf).
  exists n. split; [exact Hd|]. split; [exact Hn|].
  intros k v. now apply only_floats_get.
Qed.

(* ================================================================== *)
(** ** More on the producer parser *)

(** Each captured group is a non-empty run of its class. *)
Lemma matches_groups r m gs : Re.Matches r m gs ->
  Forall2 (fun cls g => g <> "" /\ all_in cls g) (capture_classes r) gs.
Proof.
induction 1 as [|lit r m gs Hm IH|cls r w m gs Hne Hw Hm IH|cls r w m gs Hne Hw Hm IH];
  simpl; auto.
Qed.

Lemma digits_to_Z_nonneg s : forall acc, (0 <= acc)%Z -> (0 <= PyFloat.digits_to_Z acc s)%Z.
Proof.
induction s as [|c s IH]; intros acc H; simpl; [assumption|].
apply IH. unfold PyFloat.digit_val. lia.
Qed.

Lemma scale10_nonneg m e : (0 <= m)%Z -> (0 <= PyFloat.scale10 m e)%Q.
Proof.
intros H. unfold PyFloat.scale10. rewrite Qred_correct.
destruct (0 <=? e)%Z eqn:He; unfold Qle; simpl.
- apply Z.leb_le in He. pose proof (Z.pow_nonneg 10 e ltac:(lia)). nia.
- lia.
Qed.

(** A literal without sign is a number that is not negative. *)
Lemma parse_number_nonneg body f : PyFloat.parse_number false body = Some f ->
  exists q, f = Fin q /\ (0 <= q)%Q.
Proof.
unfold PyFloat.parse_number.
destruct (PyFloat.span_digits body) as [ip r1].
destruct (match r1 with
          | String "." r => PyFloat.span_digits r
          | _ => (EmptyString, r1)
          end) as [fp r2].
assert (G : forall e : Z,
          exists q, Fin (PyFloat.scale10 (PyFloat.digits_to_Z 0 (ip ++ fp))
                           (e - Z.of_nat (String.length fp))) = Fin q /\ (0 <= q)%Q).
{ intros e. eexists. split; [reflexivity|]. apply scale10_nonneg, digits_to_Z_nonneg. lia. }
destruct ip, fp; try discriminate;
  (destruct (PyFloat.parse_exponent r2) as [e|]; [|discriminate]);
  intros H; inversion H; apply G.
Qed.

Lemma remove_underscores_none s :
  (forall c, In c (list_ascii_of_string s) -> c <> "_"%char) ->
  PyFloat.remove_underscores s = s.
Proof.
induction s as [|c s IH]; intros H; simpl; [reflexivity|].
destruct (Ascii.eqb_spec c "_") as [E|_]; [exfalso; apply (H c); simpl; auto|].
rewrite IH; [reflexivity|]. intros d Hd. apply H. now right.
Qed.

Lemma rstrip_no_space s :
  (forall c, In c (list_ascii_of_string s) -> Py.isspace c = false) -> Py.rstrip s = s.
Proof.
induction s as [|c s IH]; intros H; simpl; [reflexivity|].
rewrite IH by (intros d Hd; apply H; now right).
destruct s; [|reflexivity]. now rewrite (H c (or_introl eq_refl)).
Qed.

Lemma lstrip_no_space s :
  (forall c, In c (list_ascii_of_string s) -> Py.isspace c = false) -> Py.lstrip s = s.
Proof.
destruct s as [|c s]; intros H; simpl; [reflexivity|].
now rewrite (H c (or_introl eq_refl)).
Qed.

Lemma digit_or_dot_plain c : digit_or_dot c = true ->
  c <> "_"%char /\ Py.isspace c = false /\ c <> "-"%char /\ c <> "+"%char /\
  PyFloat.lower c <> "i"%char /\ PyFloat.lower c <> "n"%char.
Proof.
destruct c as [[] [] [] [] [] [] [] []]; vm_compute; intros H;
  try discriminate H; repeat split; discriminate.
Qed.

(** A run of digits and dots that [float] accepts is a finite number that
    is not negative. *)
Lemma float_of_digits_and_dots g v :
  all_in digit_or_dot g -> PyFloat.float g = Ok v -> exists q, v = Fin q /\ (0 <= q)%Q.
Proof.
intros Hg. unfold PyFloat.float.
destruct (PyFloat.underscores_ok "000" g); [|discriminate].
rewrite remove_underscores_none by (intros c Hc; now apply digit_or_dot_plain, Hg).
unfold Py.strip.
rewrite lstrip_no_space by (intros c Hc; now apply digit_or_dot_plain, Hg).
rewrite rstrip_no_space by (intros c Hc; now apply digit_or_dot_plain, Hg).
destruct g as [|c g]; [simpl; discriminate|].
apply all_in_cons in Hg as [Hc _].
destruct (digit_or_dot_plain c Hc) as (_ & _ & Hminus & Hplus & Hi & Hn).
assert (Hsign : PyFloat.take_sign (String c g) = (false, String c g)).
{ clear - Hminus Hplus. destruct c as [[] [] [] [] [] [] [] []]; try reflexivity; congruence. }
rewrite Hsign.
assert (Hinf : forall t, String.eqb (PyFloat.lowercase (String c g)) (String "i" t) = false).
{ intros t. simpl. destruct (Ascii.eqb_spec (PyFloat.lower c) "i"); [contradiction | reflexivity]. }
assert (Hnan : forall t, String.eqb (PyFloat.lowercase (String c g)) (String "n" t) = false).
{ intros t. simpl. destruct (Ascii.eqb_spec (PyFloat.lower c) "n"); [contradiction | reflexivity]. }
rewrite !Hinf, Hnan. cbn [orb].
destruct (PyFloat.parse_number false (String c g)) as [f|] eqn:Hp; [|discriminate].
intros H. inversion H; subst. now apply parse_number_nonneg in Hp.
Qed.

Lemma isdigit_digit_or_dot c : Py.isdigit c = true -> digit_or_dot c = true.
Proof. unfold digit_or_dot. now intros ->. Qed.



(* ================================================================== *)
(** ** More on the report *)

Lemma has_column_DataFrame records k :
  has_column (DataFrame records) k = existsb (Dict.mem k) records.
Proof.
unfold has_column, DataFrame. cbn [columns].
assert (G : forall acc,
  existsb (String.eqb k)
    (fold_left (fun cols r => fold_left add_column (Dict.keys r) cols) records acc)
  = existsb (String.eqb k) acc || existsb (Dict.mem k) records).
{ induction records as [|r records IH]; intros acc; simpl; [now rewrite orb_false_r|].
  now rewrite IH, existsb_add_columns, mem_keys, orb_assoc. }
now rewrite G.
Qed.

Lemma covers_DataFrame records : covers (DataFrame records).
Proof.
intros r k Hr Hk. rewrite has_column_DataFrame. apply existsb_exists. now exists r.
Qed.

Lemma covers_select f c v : covers f -> covers (select f c v).
Proof.
intros H r k Hr Hk. unfold select in Hr. cbn [rows] in Hr.
apply filter_In in Hr as [Hr _]. exact (H r k Hr Hk).
Qed.

Lemma success_frame_not_empty results :
  successes results <> [] -> frame_empty (DataFrame (successes results)) = false.
Proof.
intros Hne. destruct (successes results) as [|r0 rs] eqn:Hs; [congruence|].
assert (Hin : In r0 (successes results)) by (rewrite Hs; now left).
apply filter_In in Hin as [_ Hst]. apply cell_is_iff in Hst. apply mem_get in Hst.
pose proof (covers_DataFrame (r0 :: rs) r0 "status" (or_introl eq_refl) Hst) as Hcol.
unfold has_column in Hcol. unfold frame_empty. cbn [rows DataFrame].
destruct (columns (DataFrame (r0 :: rs))); [discriminate Hcol | reflexivity].
Qed.

Lemma frame_empty_select_iff f c v : frame_empty f = false ->
  (frame_empty (select f c v) = true <-> filter (cell_is c v) (rows f) = []).
Proof.
unfold frame_empty, select. cbn [columns rows].
destruct (columns f); [discriminate|]. intros _.
destruct (filter (cell_is c v) (rows f)); split; congruence.
Qed.

(** A report that is returned is the summary over the frame of the
    successes, and there is a success. *)
Lemma build_report_summary results rep : build_report results = Ok (Some rep) ->
  successes results <> [] /\ _generate_summary_html (generator results) = Ok rep.
Proof.
unfold build_report, ReportGenerator_init. fold (successes results). intros H.
destruct (successes results) as [|r0 rs] eqn:Hs; [simpl in H; discriminate H|].
split; [discriminate|].
pose proof (success_frame_not_empty results) as Hne. rewrite Hs in Hne.
specialize (Hne ltac:(discriminate)).
rewrite Hne in H. cbn [negb] in H. apply bind_ok in H as (self & Hinit & H).
apply bind_ok in Hinit as (cells & _ & Hinit). apply Ok_inj in Hinit. subst self.
unfold generate_html_report in H. cbn [df] in H. rewrite Hne in H.
apply bind_ok in H as (u & _ & H). apply bind_ok in H as (summary & Hsum & H).
apply Ok_inj in H. injection H as ->.
unfold generator. rewrite Hs. unfold _generate_summary_html in *.
cbn [producer_df consumer_df] in *. exact Hsum.
Qed.

Lemma generator_producer_rows results :
  rows (producer_df (generator results)) = producers results.
Proof. reflexivity. Qed.

Lemma generator_consumer_rows results :
  rows (consumer_df (generator results)) = consumers results.
Proof. reflexivity. Qed.

Lemma generator_has_producer results : successes results <> [] ->
  (frame_empty (producer_df (generator results)) = true <-> producers results = []).
Proof.
intros H. unfold generator, producers. cbn [producer_df].
rewrite frame_empty_select_iff by now apply success_frame_not_empty. reflexivity.
Qed.

Lemma generator_has_consumer results : successes results <> [] ->
  (frame_empty (consumer_df (generator results)) = true <-> consumers results = []).
Proof.
intros H. unfold generator, consumers. cbn [consumer_df].
rewrite frame_empty_select_iff by now apply success_frame_not_empty. reflexivity.
Qed.

(** X9: nothing is returned exactly when no outcome is a success; with a
    success the report is built (or an exception is raised), never
    skipped. *)
Theorem no_report_iff_no_success (results : list dict) :
  build_report results = Ok None <-> successes results = [].
Proof.
split.
- intros H. destruct (successes results) as [|r0 rs] eqn:Hs; [reflexivity|]. exfalso.
  pose proof (success_frame_not_empty results) as Hne. rewrite Hs in Hne.
  specialize (Hne ltac:(discriminate)).
  unfold build_report, ReportGenerator_init in H. fold (successes results) in H.
  rewrite Hs, Hne in H. cbn [negb] in H. apply bind_ok in H as (self & Hinit & H).
  apply bind_ok in Hinit as (cells & _ & Hinit). apply Ok_inj in Hinit. subst self.
  unfold generate_html_report in H. cbn [df] in H. rewrite Hne in H.
  apply bind_ok in H as (u & _ & H). apply bind_ok in H as (summary & _ & H).
  discriminate H.
- intros Hs. unfold build_report, ReportGenerator_init. fold (successes results).
  rewrite Hs. reflexivity.
Qed.

Lemma table_if_ok (b : bool) (m : result (list topic_row)) o :
  (if b then t <- m ;; Ok (Some t) else Ok None) = Ok o -> (o <> None <-> b = true).
Proof.
destruct b; intros H.
- apply bind_ok in H as (t & _ & H). apply Ok_inj in H. subst o. split; congruence.
- apply Ok_inj in H. subst o. split; congruence.
Qed.

(** The callouts cannot be computed over a frame without rows. *)
Lemma overall_no_rows f c : rows f = [] -> forall r, overall f c <> Ok r.
Proof.
intros Hrows r H. unfold overall in H. apply bind_ok in H as (total & _ & H).
apply bind_ok in H as (tp & Htp & H).
unfold numeric_column in Htp. apply bind_ok in Htp as (cells & Hcells & Htp).
unfold column in Hcells. destruct (has_column _ _); [|discriminate Hcells].
apply Ok_inj in Hcells. rewrite Hrows in Hcells. subst cells.
apply Ok_inj in Htp. subst tp. discriminate H.
Qed.

(** The sections of a report follow the outcomes there are. *)
Lemma build_report_sections results rep :
  build_report results = Ok (Some rep) ->
  (producer_table rep <> None <-> producers results <> []) /\
  (consumer_table rep <> None <-> consumers results <> []) /\
  (producers results <> [] \/ consumers results <> []) /\
  insights rep <> [].
Proof.
intros H. apply build_report_summary in H as [Hs H].
pose proof (generator_has_producer results Hs) as Hp.
pose proof (generator_has_consumer results Hs) as Hc.
unfold _generate_summary_html in H.
apply bind_ok in H as (stats & Hst & H). destruct stats as [[[total avg] mx] best].
apply bind_ok in H as (pt & Hpt & H). apply bind_ok in H as (ct & Hct & H).
apply Ok_inj in H. subst rep. cbn [producer_table consumer_table insights].
apply table_if_ok in Hpt, Hct.
destruct (frame_empty (producer_df (generator results)));
  destruct (frame_empty (consumer_df (generator results))); cbn [negb andb] in *.
- exfalso. refine (overall_no_rows (consumer_df (generator results)) _ _ _ Hst).
  rewrite generator_consumer_rows. now apply Hc.
- assert (Hcons : consumers results <> []) by (intros E; apply Hc in E; discriminate E).
  split; [|split; [|split]]; [ | tauto | now right | discriminate].
  rewrite Hpt. split; [discriminate | intros E; exfalso; apply E; now apply Hp].
- assert (Hprod : producers results <> []) by (intros E; apply Hp in E; discriminate E).
  split; [|split; [|split]]; [tauto | | now left | discriminate].
  rewrite Hct. split; [discriminate | intros E; exfalso; apply E; now apply Hc].
- assert (Hprod : producers results <> []) by (intros E; apply Hp in E; discriminate E).
  assert (Hcons : consumers results <> []) by (intros E; apply Hc in E; discriminate E).
  split; [|split; [|split]]; [tauto | tauto | now left | discriminate].
Qed.

(** X10: in a report that is returned, the producer table is there exactly
    when some success is a producer run, the consumer table exactly when
    some success is a consumer run; one of the two is there, and so is an
    insight. *)
Theorem report_sections_follow_outcomes (results : list dict) (rep : report) :
  build_report results = Ok (Some rep) ->
  (producer_table rep <> None <-> producers results <> []) /\
  (consumer_table rep <> None <-> consumers results <> []) /\
  (producers results <> [] \/ consumers results <> []) /\
  insights rep <> [].
Proof. apply build_report_sections. Qed.

Lemma report_sections_follow_outcomes_witness :
  (producer_table mixed_report <> None <-> producers mixed_results <> []) /\
  (consumer_table mixed_report <> None <-> consumers mixed_results <> []) /\
  (producers mixed_results <> [] \/ consumers mixed_results <> []) /\
  insights mixed_report <> [].
Proof.
apply (report_sections_follow_outcomes mixed_results mixed_report).
vm_compute. reflexivity.
Defined.

Lemma successes_idempotent results : successes (successes results) = successes results.
Proof.
unfold successes. induction results as [|r results IH]; simpl; [reflexivity|].
destruct (cell_is "status" "success" r) eqn:Hr; simpl; [|exact IH].
now rewrite Hr, IH.
Qed.

(** X11: the report is a function of the successful outcomes alone: the
    failed, timed out and error outcomes of the list have no effect on
    it. *)
Theorem report_reads_successes_only (results : list dict) :
  build_report results = build_report (successes results).
Proof.
unfold build_report, ReportGenerator_init. fold (successes results).
fold (successes (successes results)). rewrite successes_idempotent.
destruct (successes results) as [|r0 rs]; [reflexivity|].
destruct (negb (frame_empty (DataFrame (r0 :: rs)))).
- destruct (column (DataFrame (r0 :: rs)) "test_type"); reflexivity.
- reflexivity.
Qed.

(* ------------------------------------------------------------------ *)
(** The greatest number of a column *)

Lemma num_le_refl x : Num.is_nan x = false -> Num.le x x = true.
Proof.
destruct x as [q|[]|]; simpl; try reflexivity; try discriminate.
intros _. apply Qle_bool_iff. apply Qle_refl.
Qed.

Lemma num_le_total a b : Num.is_nan a = false -> Num.is_nan b = false ->
  Num.le a b = false -> Num.le b a = true.
Proof.
destruct a as [p|[]|], b as [q|[]|]; simpl; try reflexivity; try discriminate.
intros _ _ H. apply Qle_bool_iff. apply Qlt_le_weak. apply Qnot_le_lt.
intros Hle. apply Qle_bool_iff in Hle. congruence.
Qed.

Lemma num_le_trans a b c : Num.is_nan b = false ->
  Num.le a b = true -> Num.le b c = true -> Num.le a c = true.
Proof.
destruct a as [p|[]|], b as [q|[]|], c as [r|[]|]; simpl;
  try reflexivity; try discriminate.
intros _ H1 H2. apply Qle_bool_iff in H1, H2. apply Qle_bool_iff.
eapply Qle_trans; eassumption.
Qed.

Lemma nth_error_snoc {A : Type} (pre : list A) x j y :
  nth_error (pre ++ [x]) j = Some y ->
  (j < List.length pre /\ nth_error pre j = Some y) \/ (j = List.length pre /\ y = x).
Proof.
intros H. destruct (Nat.lt_ge_cases j (List.length pre)) as [Hlt|Hge].
- left. split; [assumption|]. now rewrite nth_error_app1 in H.
- right. rewrite nth_error_app2 in H by assumption.
  destruct (j - List.length pre) as [|n] eqn:E; simpl in H.
  + split; [lia | congruence].
  + destruct n; discriminate H.
Qed.

Lemma first_greatest_step pre x best : first_greatest pre best ->
  first_greatest (pre ++ [x])
    (if Num.is_nan x then best
     else match best with
          | None => Some (List.length pre, x)
          | Some (_, b) => if Num.le x b then best else Some (List.length pre, x)
          end).
Proof.
intros Hbest. destruct (Num.is_nan x) eqn:Hx.
- destruct best as [[i b]|]; simpl in *.
  + destruct Hbest as (Hi & Hb & Hall).
    assert (Hlt : i < List.length pre) by (apply nth_error_Some; congruence).
    split; [now rewrite nth_error_app1|]. split; [assumption|].
    intros j y Hj Hy. apply nth_error_snoc in Hj as [[_ Hj]|[_ ->]]; [eauto | congruence].
  + intros y Hy. apply in_app_or in Hy as [Hy|[<-|[]]]; auto.
- destruct best as [[i b]|]; simpl in *.
  + destruct Hbest as (Hi & Hb & Hall).
    assert (Hlt : i < List.length pre) by (apply nth_error_Some; congruence).
    destruct (Num.le x b) eqn:Hle; simpl.
    * split; [now rewrite nth_error_app1|]. split; [assumption|].
      intros j y Hj Hy. apply nth_error_snoc in Hj as [[_ Hj]|[-> ->]]; [eauto|].
      split; [assumption | lia].
    * split; [now rewrite nth_error_app2, Nat.sub_diag by lia|]. split; [assumption|].
      intros j y Hj Hy. apply nth_error_snoc in Hj as [[Hjlt Hj]|[-> ->]].
      -- destruct (Hall j y Hj Hy) as [Hyb _]. split.
         ++ eapply num_le_trans; [exact Hb | exact Hyb | now apply num_le_total].
         ++ intros _. destruct (Num.le x y) eqn:Hxy; [|reflexivity].
            rewrite (num_le_trans x y b Hy Hxy Hyb) in Hle. discriminate Hle.
      -- split; [now apply num_le_refl | lia].
  + split; [now rewrite nth_error_app2, Nat.sub_diag by lia|]. split; [assumption|].
    intros j y Hj Hy. apply nth_error_snoc in Hj as [[_ Hj]|[-> ->]].
    * apply nth_error_In in Hj. apply Hbest in Hj. congruence.
    * split; [now apply num_le_refl | lia].
Qed.

Lemma argmax_from_first_greatest xs : forall pre best, first_greatest pre best ->
  first_greatest (pre ++ xs) (Num.argmax_from (List.length pre) best xs).
Proof.
induction xs as [|x xs IH]; intros pre best Hbest; simpl.
- now rewrite app_nil_r.
- apply (first_greatest_step pre x) in Hbest.
  apply IH in Hbest. rewrite length_app, <- app_assoc in Hbest. simpl in Hbest.
  now rewrite Nat.add_1_r in Hbest.
Qed.

(** [idxmax] and [max] give the first greatest number of the column. *)
Lemma idxmax_first_greatest xs i :
  Num.idxmax xs = Some i -> first_greatest xs (Some (i, Num.max xs)).
Proof.
unfold Num.idxmax, Num.max.
pose proof (argmax_from_first_greatest xs [] None) as H. simpl in H.
destruct (Num.argmax_from 0 None xs) as [[j b]|]; [|discriminate].
intros E. injection E as ->. apply H. intros x [].
Qed.

Lemma Forall2_nth_left {A B : Type} (P : A -> B -> Prop) xs ys :
  Forall2 P xs ys -> forall j x, nth_error xs j = Some x ->
  exists y, nth_error ys j = Some y /\ P x y.
Proof.
induction 1 as [|x0 y0 xs ys Hp _ IH]; intros j x Hj; [destruct j; discriminate Hj|].
destruct j as [|j]; simpl in *; [injection Hj as <-; eauto | eauto].
Qed.

Lemma Forall2_nth_right {A B : Type} (P : A -> B -> Prop) xs ys :
  Forall2 P xs ys -> forall j y, nth_error ys j = Some y ->
  exists x, nth_error xs j = Some x /\ P x y.
Proof.
induction 1 as [|x0 y0 xs ys Hp _ IH]; intros j y Hj; [destruct j; discriminate Hj|].
destruct j as [|j]; simpl in *; [injection Hj as <-; eauto | eauto].
Qed.

(** The numbers read from a list of outcomes, position by position. *)
Lemma readings_nth k outcomes xs : readings k outcomes = Ok xs ->
  (forall j e, nth_error outcomes j = Some e ->
     exists x, nth_error xs j = Some x /\ numeric (Dict.get k e) = Ok x) /\
  (forall j x, nth_error xs j = Some x ->
     exists e, nth_error outcomes j = Some e /\ numeric (Dict.get k e) = Ok x).
Proof.
unfold readings. intros H. apply map_result_ok in H. split.
- intros j e Hj.
  assert (Hc : nth_error (map (Dict.get k) outcomes) j = Some (Dict.get k e))
    by (rewrite nth_error_map, Hj; reflexivity).
  exact (Forall2_nth_left _ _ _ H j _ Hc).
- intros j x Hj. destruct (Forall2_nth_right _ _ _ H j x Hj) as (cell & Hc & Hx).
  rewrite nth_error_map in Hc. destruct (nth_error outcomes j) as [e|]; [|discriminate Hc].
  injection Hc as <-. eauto.
Qed.

(** A column no row has a cell for sums to zero. *)
Lemma readings_absent k outcomes :
  (forall r, In r outcomes -> Dict.mem k r = false) ->
  exists xs, readings k outcomes = Ok xs /\ Num.sum xs = Fin 0.
Proof.
unfold readings. induction outcomes as [|r outcomes IH]; intros H; simpl.
- exists []. split; reflexivity.
- destruct IH as (xs & Hxs & Hsum); [intros r' Hr'; apply H; now right|].
  specialize (H r (or_introl eq_refl)). unfold Dict.mem in H.
  destruct (Dict.get k r); [discriminate H|]. simpl. rewrite Hxs. simpl.
  exists (NaN :: xs). split; [reflexivity | exact Hsum].
Qed.

(** What the four callouts are, over a frame whose columns cover its rows. *)
Lemma overall_inv f c total avg mx best : covers f ->
  overall f c = Ok (total, avg, mx, best) ->
  exists counts tps i e,
    readings c (rows f) = Ok counts /\ total = Num.sum counts /\
    readings "throughput_mb_sec" (rows f) = Ok tps /\
    avg = Num.mean tps /\ mx = Num.max tps /\
    Num.idxmax tps = Some i /\ nth_error (rows f) i = Some e /\
    best = Dict.get "test_name" e.
Proof.
intros Hcov H. unfold overall in H.
apply bind_ok in H as (total' & Htotal & H).
apply bind_ok in H as (tps & Htps & H).
destruct (Num.idxmax tps) as [i|] eqn:Hi; [|discriminate H].
apply bind_ok in H as (names & Hnames & H). apply bind_ok in H as (name & Hname & H).
apply Ok_inj in H. injection H as Ht Ha Hm Hb. subst total avg mx best.
assert (Hcounts : exists counts, readings c (rows f) = Ok counts /\ total' = Num.sum counts).
{ destruct (has_column f c) eqn:Hc.
  - apply bind_ok in Htotal as (xs & Hxs & Htotal). apply Ok_inj in Htotal.
    unfold numeric_column, column in Hxs. rewrite Hc in Hxs. cbn [bind] in Hxs. eauto.
  - apply Ok_inj in Htotal. subst total'.
    destruct (readings_absent c (rows f)) as (xs & Hxs & Hsum); [|eauto].
    intros r Hr. destruct (Dict.mem c r) eqn:Hm; [|reflexivity].
    rewrite (Hcov r c Hr Hm) in Hc. discriminate Hc. }
destruct Hcounts as (counts & Hcounts & ->).
unfold numeric_column, column in Htps.
destruct (has_column f "throughput_mb_sec"); [|discriminate Htps]. cbn [bind] in Htps.
unfold column in Hnames. destruct (has_column f "test_name"); [|discriminate Hnames].
apply Ok_inj in Hnames. subst names.
unfold Py.index in Hname. rewrite nth_error_map in Hname.
destruct (nth_error (rows f) i) as [e|] eqn:He; [|discriminate Hname].
apply Ok_inj in Hname. subst name.
exists counts, tps, i, e. repeat split; auto.
Qed.

(** The callouts of a report that is returned are computed over the
    successful producers when there is one, else over the consumers. *)
Lemma build_report_callouts results rep : build_report results = Ok (Some rep) ->
  exists f, covers f /\ rows f = callout_group results /\
    overall f (callout_count results)
    = Ok (total_records rep, avg_throughput rep, max_throughput rep, best_test rep).
Proof.
intros H. apply build_report_summary in H as [Hs H].
pose proof (generator_has_producer results Hs) as Hp.
unfold _generate_summary_html in H.
apply bind_ok in H as (stats & Hst & H). destruct stats as [[[total avg] mx] best].
apply bind_ok in H as (pt & _ & H). apply bind_ok in H as (ct & _ & H).
apply Ok_inj in H. subst rep.
cbn [total_records avg_throughput max_throughput best_test].
unfold callout_group, callout_count.
destruct (frame_empty (producer_df (generator results))); cbn [negb] in Hst.
- rewrite (proj1 Hp eq_refl).
  exists (consumer_df (generator results)). split; [|split; [reflexivity | exact Hst]].
  apply covers_select, covers_DataFrame.
- assert (Hne : producers results <> []) by (intros E; apply Hp in E; discriminate E).
  destruct (producers results) as [|p ps] eqn:Eps; [congruence|].
  exists (producer_df (generator results)). split; [|split; [exact Eps | exact Hst]].
  apply covers_select, covers_DataFrame.
Qed.

(** X12: the peak throughput of a report is the greatest throughput among
    the successful producers when there is one, else among the successful
    consumers, and the best configuration is the test name of the first
    outcome that reaches it: every other number of the group is at most the
    peak, and every earlier one is below it. *)
Theorem peak_is_first_greatest_throughput (results : list dict) (rep : report) :
  build_report results = Ok (Some rep) ->
  exists i e,
    nth_error (callout_group results) i = Some e /\
    numeric (Dict.get "throughput_mb_sec" e) = Ok (max_throughput rep) /\
    Num.is_nan (max_throughput rep) = false /\
    best_test rep = Dict.get "test_name" e /\
    forall j e' x,
      nth_error (callout_group results) j = Some e' ->
      numeric (Dict.get "throughput_mb_sec" e') = Ok x -> Num.is_nan x = false ->
      Num.le x (max_throughput rep) = true /\
      (j < i -> Num.le (max_throughput rep) x = false).
Proof.
intros H. apply build_report_callouts in H as (f & Hcov & Hrows & H).
apply overall_inv in H as (counts & tps & i & e & _ & _ & Htps & _ & Hmx & Hi & He & Hbest);
  [|assumption].
rewrite Hrows in *. apply idxmax_first_greatest in Hi. rewrite <- Hmx in Hi.
destruct Hi as (Hnth & Hnan & Hall).
destruct (readings_nth _ _ _ Htps) as [Hleft Hright].
exists i, e. split; [assumption|].
destruct (Hleft i e He) as (x & Hx & Hnum).
split; [congruence|]. split; [assumption|]. split; [assumption|].
intros j e' y Hj Hy Hynan.
destruct (Hleft j e' Hj) as (y' & Hy' & Hnum'). apply (Hall j y); [congruence | assumption].
Qed.

Lemma peak_is_first_greatest_throughput_witness :
  exists i e,
    nth_error (callout_group sample_results) i = Some e /\
    numeric (Dict.get "throughput_mb_sec" e) = Ok (max_throughput sample_report) /\
    Num.is_nan (max_throughput sample_report) = false /\
    best_test sample_report = Dict.get "test_name" e /\
    forall j e' x,
      nth_error (callout_group sample_results) j = Some e' ->
      numeric (Dict.get "throughput_mb_sec" e') = Ok x -> Num.is_nan x = false ->
      Num.le x (max_throughput sample_report) = true /\
      (j < i -> Num.le (max_throughput sample_report) x = false).
Proof.
apply (peak_is_first_greatest_throughput sample_results sample_report).
vm_compute. reflexivity.
Defined.

(* ------------------------------------------------------------------ *)
(** The mean and the sum of a column *)

(** The numbers of a column that are not NaN are the values of the
    outcomes that carry one. *)
Lemma readings_carrying k outcomes qs : forall xs,
  readings k outcomes = Ok xs -> holds k (carrying k outcomes) qs ->
  filter (fun x => negb (Num.is_nan x)) xs = map Fin qs.
Proof.
unfold readings, holds, carrying. revert qs.
induction outcomes as [|r outcomes IH]; intros qs xs H Hq; simpl in *.
- apply Ok_inj in H. subst xs. destruct qs; [reflexivity | discriminate Hq].
- apply bind_ok in H as (x & Hx & H). apply bind_ok in H as (xs' & Hxs & H).
  apply Ok_inj in H. subst xs. unfold Dict.mem in Hq.
  destruct (Dict.get k r) as [v|] eqn:Hv.
  + destruct qs as [|q qs]; [discriminate Hq|]. simpl in Hq.
    rewrite Hv in Hq. injection Hq as Hq1 Hq. subst v.
    simpl in Hx. apply Ok_inj in Hx. subst x. simpl. f_equal. now apply IH.
  + simpl in Hx. apply Ok_inj in Hx. subst x. simpl. now apply IH.
Qed.

Lemma mean_carrying k outcomes qs xs :
  readings k outcomes = Ok xs -> holds k (carrying k outcomes) qs ->
  Num.mean xs = Num.mean (map Fin qs).
Proof.
intros H Hq. unfold Num.mean.
now rewrite filter_not_nan_fin, (readings_carrying _ _ _ _ H Hq).
Qed.

Lemma sum_carrying k outcomes qs xs :
  readings k outcomes = Ok xs -> holds k (carrying k outcomes) qs ->
  exists q, Num.sum xs = Fin q /\ (q == fold_right Qplus 0 qs)%Q.
Proof.
intros H Hq. unfold Num.sum, Num.total.
rewrite (readings_carrying _ _ _ _ H Hq).
destruct (total_fin qs 0) as (a & Ha & Hsum). exists a. split; [assumption|].
now rewrite Hsum, Qplus_0_l.
Qed.





(* ------------------------------------------------------------------ *)
(** The rows of the summary tables *)

(** Everything a row of the grouped statistics holds. *)
Lemma topic_stats_rows_all f b stats : topic_stats f b = Ok stats ->
  Forall2
    (fun t r =>
       row_topic r = t /\
       exists tp rps,
         group_mean f "throughput_mb_sec" t = Ok tp /\
         group_mean f "records_per_sec" t = Ok rps /\
         row_throughput_mb_sec r = Num.round2 tp /\
         row_records_per_sec r = Num.round2 rps /\
         if b then exists l, group_mean f "avg_latency_ms" t = Ok l /\
                             row_avg_latency_ms r = Some (Num.round2 l)
         else row_avg_latency_ms r = None)
    (group_labels (map (Dict.get "topic") (rows f))) stats.
Proof.
unfold topic_stats, column. intros H.
destruct (has_column f "topic"); simpl bind in H; [|discriminate H].
destruct (has_column f "throughput_mb_sec"); simpl bind in H; [|discriminate H].
destruct (has_column f "records_per_sec"); simpl bind in H; [|discriminate H].
apply map_result_ok in H.
eapply Forall2_impl; [|exact H].
intros t r Hr. cbv beta in Hr.
apply bind_ok in Hr as (tp & Htp & Hr). apply bind_ok in Hr as (rps & Hrps & Hr).
apply bind_ok in Hr as (lat & Hlat & Hr). apply Ok_inj in Hr. subst r.
cbn [row_topic row_throughput_mb_sec row_records_per_sec row_avg_latency_ms].
split; [reflexivity|]. exists tp, rps. repeat split; try assumption.
destruct b.
- apply bind_ok in Hlat as (l & Hl & Hlat). apply Ok_inj in Hlat. subst lat. eauto.
- apply Ok_inj in Hlat. now subst lat.
Qed.

Lemma summary_table_row_all f b table row : summary_table f b = Ok table ->
  In row table ->
  exists tp rps,
    group_mean f "throughput_mb_sec" (row_topic row) = Ok tp /\
    group_mean f "records_per_sec" (row_topic row) = Ok rps /\
    row_throughput_mb_sec row = Num.round2 tp /\
    row_records_per_sec row = Num.round2 rps /\
    if b then exists l, group_mean f "avg_latency_ms" (row_topic row) = Ok l /\
                        row_avg_latency_ms row = Some (Num.round2 l)
    else row_avg_latency_ms row = None.
Proof.
unfold summary_table. intros H Hin. bind_inv H. apply Ok_inj in H. subst table.
unfold reindex in Hin. apply in_map_iff in Hin as (t & <- & Ht).
apply filter_In in Ht as [_ Ht]. unfold in_index in Ht.
destruct (find (fun r => String.eqb (row_topic r) t) a) as [r|] eqn:Hf.
- apply find_some in Hf as [Hr _].
  apply topic_stats_rows_all in E.
  destruct (Forall2_in_right _ _ _ _ E Hr) as (t' & _ & <- & Hrow). exact Hrow.
- exfalso. apply existsb_exists in Ht as (r & Hr & Hrt).
  apply (find_none _ _ Hf) in Hr. congruence.
Qed.

(** The mean of a group is the mean of the values its outcomes carry. *)
Lemma group_mean_shows f k t m :
  group_mean f k t = Ok m -> shows_mean k (Num.round2 m) (of_topic t (rows f)).
Proof.
unfold group_mean. intros H. apply bind_ok in H as (xs & Hxs & H).
apply Ok_inj in H. subst m. intros qs Hq.
fold (of_topic t (rows f)) in Hxs. fold (readings k (of_topic t (rows f))) in Hxs.
rewrite (mean_carrying _ _ _ _ Hxs Hq).
destruct qs as [|q0 qs]; [reflexivity|].
destruct (mean_fin (q0 :: qs)) as (q & -> & Hq'); [discriminate|].
exists q. split; [assumption | reflexivity].
Qed.

(** The tables of a report that is returned, with the latency column of the
    producer table asked for when the frame has the column. *)
Lemma build_report_tables_inv results rep : build_report results = Ok (Some rep) ->
  (forall table, producer_table rep = Some table ->
     summary_table (producer_df (generator results))
       (existsb (Dict.mem "avg_latency_ms") (successes results)) = Ok table) /\
  (forall table, consumer_table rep = Some table ->
     summary_table (consumer_df (generator results)) false = Ok table).
Proof.
intros H. apply build_report_summary in H as [_ H].
unfold _generate_summary_html in H.
apply bind_ok in H as (stats & _ & H). destruct stats as [[[total avg] mx] best].
apply bind_ok in H as (pt & Hpt & H). apply bind_ok in H as (ct & Hct & H).
apply Ok_inj in H. subst rep. cbn [producer_table consumer_table].
split; intros table ->.
- destruct (negb (frame_empty (producer_df (generator results)))); [|discriminate Hpt].
  apply bind_ok in Hpt as (t & Ht & Hpt). apply Ok_inj in Hpt. injection Hpt as <-.
  unfold generator in Ht. cbn [producer_df] in Ht.
  change (has_column (select (DataFrame (successes results)) "test_type" "producer")
            "avg_latency_ms")
    with (has_column (DataFrame (successes results)) "avg_latency_ms") in Ht.
  rewrite has_column_DataFrame in Ht. exact Ht.
- destruct (negb (frame_empty (consumer_df (generator results)))); [|discriminate Hct].
  apply bind_ok in Hct as (t & Ht & Hct). apply Ok_inj in Hct. injection Hct as <-.
  exact Ht.
Qed.



Lemma existsb_false_filter {A : Type} (p : A -> bool) xs :
  existsb p xs = false <-> filter p xs = [].
Proof.
induction xs as [|x xs IH]; simpl; [tauto|].
destruct (p x); simpl; [split; discriminate | exact IH].
Qed.



(* ================================================================== *)
(** ** The whole run *)

Lemma producer_outcome_topic env self cfg :
  recorded (snd (run_producer_test env self cfg)) = true ->
  topic_is (p_topic cfg) (snd (run_producer_test env self cfg)) /\
  cell_is "test_type" "producer" (snd (run_producer_test env self cfg)) = true.
Proof.
unfold run_producer_test, topic_is.
destruct (outcome (env _)) as [rc out err| |msg]; cbn [snd];
  [|intros H; discriminate H|intros H; discriminate H].
destruct (rc =? 0)%Z; [|intros _; split; reflexivity].
destruct (_parse_producer_output out); cbn [snd]; [|intros H; discriminate H].
intros _. unfold Dict.update. cbn [fold_left fst snd]. split.
- rewrite !dict_get_set_other by discriminate. apply dict_get_set_same.
- apply cell_is_iff. rewrite !dict_get_set_other by discriminate. apply dict_get_set_same.
Qed.

Lemma consumer_outcome_topic env self cfg :
  recorded (snd (run_consumer_test env self cfg)) = true ->
  topic_is (c_topic cfg) (snd (run_consumer_test env self cfg)) /\
  cell_is "test_type" "consumer" (snd (run_consumer_test env self cfg)) = true.
Proof.
unfold run_consumer_test, topic_is.
destruct (outcome (env _)) as [rc out err| |msg]; cbn [snd];
  [|intros H; discriminate H|intros H; discriminate H].
destruct (rc =? 0)%Z; [|intros _; split; reflexivity].
destruct (_parse_consumer_output out); cbn [snd]; [|intros H; discriminate H].
intros _. unfold Dict.update. cbn [fold_left fst snd]. split.
- rewrite !dict_get_set_other by discriminate. apply dict_get_set_same.
- apply cell_is_iff. rewrite !dict_get_set_other by discriminate. apply dict_get_set_same.
Qed.

(** The results of a suite run on a new object: the recorded outcomes of
    the producer configurations, then those of the consumer configurations;
    each has the topic and the test type of its configuration. *)
Lemma suite_results_by_config w self pcs ccs : results self = [] ->
  exists ps cs,
    results (run_test_suite w self pcs ccs)
    = (filter recorded ps ++ filter recorded cs)%list /\
    Forall2 (fun cfg r => recorded r = true ->
               topic_is (p_topic cfg) r /\ cell_is "test_type" "producer" r = true) pcs ps /\
    Forall2 (fun cfg r => recorded r = true ->
               topic_is (c_topic cfg) r /\ cell_is "test_type" "consumer" r = true)
      (default ccs []) cs.
Proof.
intros Hnew. destruct (suite_accumulates_recorded w self pcs ccs) as [_ H].
rewrite Hnew in H. cbn [app] in H. unfold suite_outcomes in H. rewrite filter_app in H.
eexists. eexists. split; [exact H|]. split.
- apply returned_by_each. intros env s c. apply producer_outcome_topic.
- apply returned_by_each. intros env s c. apply consumer_outcome_topic.
Qed.

Lemma Forall2_in_filter {C : Type} (P : C -> dict -> Prop) (p : dict -> bool) cfgs rs e :
  Forall2 (fun cfg r => p r = true -> P cfg r) cfgs rs ->
  In e (filter p rs) -> exists cfg, In cfg cfgs /\ P cfg e.
Proof.
intros H Hin. apply filter_In in Hin as [Hin He].
destruct (Forall2_in_right _ _ _ _ H Hin) as (cfg & Hcfg & Hp). eauto.
Qed.

Lemma cell_is_functional c v v' r : cell_is c v r = true -> cell_is c v' r = true -> v = v'.
Proof. intros H H'. apply cell_is_iff in H, H'. congruence. Qed.

(** Every successful producer outcome of a suite has the topic of one of
    the producer configurations, and likewise for the consumers. *)
Lemma suite_success_topics w self pcs ccs : results self = [] ->
  (forall e, In e (producers (results (run_test_suite w self pcs ccs))) ->
     exists cfg, In cfg pcs /\ topic_is (p_topic cfg) e) /\
  (forall e, In e (consumers (results (run_test_suite w self pcs ccs))) ->
     exists cfg, In cfg (default ccs []) /\ topic_is (c_topic cfg) e).
Proof.
intros Hnew. destruct (suite_results_by_config w self pcs ccs Hnew) as (ps & cs & -> & Hp & Hc).
split; intros e He; unfold producers, consumers, successes in He;
  apply filter_In in He as [He Htype]; apply filter_In in He as [He _];
  apply in_app_or in He as [He|He].
- destruct (Forall2_in_filter _ _ _ _ _ Hp He) as (cfg & Hcfg & Ht & _). eauto.
- destruct (Forall2_in_filter _ _ _ _ _ Hc He) as (cfg & _ & _ & Hty).
  pose proof (cell_is_functional _ _ _ _ Htype Hty) as E. discriminate E.
- destruct (Forall2_in_filter _ _ _ _ _ Hp He) as (cfg & _ & _ & Hty).
  pose proof (cell_is_functional _ _ _ _ Htype Hty) as E. discriminate E.
- destruct (Forall2_in_filter _ _ _ _ _ Hc He) as (cfg & Hcfg & Ht & _). eauto.
Qed.

Lemma main_topics_listed args :
  (forall cfg, In cfg (main_producer_configs args) -> In (p_topic cfg) topic_order) /\
  (forall cfg, In cfg (default (main_consumer_configs args) []) ->
     In (c_topic cfg) topic_order).
Proof.
split; intros cfg H.
- unfold main_producer_configs in H. simpl in H.
  repeat (destruct H as [<-|H]; [simpl; tauto|]). destruct H.
- unfold main_consumer_configs in H. destruct (args_skip_consumer args); simpl in H; [destruct H|].
  repeat (destruct H as [<-|H]; [simpl; tauto|]). destruct H.
Qed.

Lemma topic_has_row f b table t e : summary_table f b = Ok table ->
  In t topic_order -> In e (rows f) -> topic_is t e -> In t (map row_topic table).
Proof.
intros Ht Hlisted He Htopic. rewrite (summary_table_topics _ _ _ Ht).
apply filter_In. split; [assumption|]. unfold has_topic. apply existsb_exists.
exists e. split; [assumption | now apply cell_is_iff].
Qed.

(** X17: in the report of [main] no successful run is left out of the
    tables: the topics [main] tests are the listed ones, so every successful
    producer run has the row of its topic in the producer table and every
    successful consumer run has its row in the consumer table; with
    [--skip-consumer] there is no consumer table. *)
Theorem main_report_has_a_row_for_every_success
  (w : world) (args : Namespace) (rep : report) :
  snd (main w args) = Ok (Some rep) ->
  (forall e, In e (producers (fst (main w args))) ->
     exists table t, producer_table rep = Some table /\ topic_is t e /\
                     In t (map row_topic table)) /\
  (forall e, In e (consumers (fst (main w args))) ->
     exists table t, consumer_table rep = Some table /\ topic_is t e /\
                     In t (map row_topic table)) /\
  (args_skip_consumer args = true -> consumer_table rep = None).
Proof.
unfold main. cbn [fst snd]. intros H.
set (benchmark := {| bootstrap_servers := args_bootstrap_servers args;
                     kafka_bin_path := args_kafka_bin args; results := [] |}) in *.
destruct (suite_success_topics w benchmark (main_producer_configs args)
            (main_consumer_configs args) eq_refl) as [Hp Hc].
destruct (main_topics_listed args) as [Lp Lc].
destruct (build_report_tables _ _ H) as (cols & Tp & Tc & Sp & Sc).
destruct (build_report_sections _ _ H) as (_ & Hcons & _).
split; [|split].
- intros e He. destruct (Hp e He) as (cfg & Hcfg & Ht).
  destruct (producer_table rep) as [table|] eqn:E;
    [|exfalso; apply Sp; [intros E'; rewrite E' in He; destruct He | reflexivity]].
  destruct (Tp table eq_refl) as [b Hb].
  exists table, (p_topic cfg). split; [reflexivity|]. split; [assumption|].
  exact (topic_has_row _ _ _ _ _ Hb (Lp cfg Hcfg) He Ht).
- intros e He. destruct (Hc e He) as (cfg & Hcfg & Ht).
  destruct (consumer_table rep) as [table|] eqn:E;
    [|exfalso; apply Sc; [intros E'; rewrite E' in He; destruct He | reflexivity]].
  destruct (Tc table eq_refl) as [b Hb].
  exists table, (c_topic cfg). split; [reflexivity|]. split; [assumption|].
  exact (topic_has_row _ _ _ _ _ Hb (Lc cfg Hcfg) He Ht).
- intros Hskip. destruct (consumer_table rep) as [table|] eqn:E; [|reflexivity]. exfalso.
  assert (Hne : consumers (results (run_test_suite w benchmark (main_producer_configs args)
                                      (main_consumer_configs args))) <> [])
    by (apply Hcons; discriminate).
  destruct (consumers _) as [|e es] eqn:Ees; [congruence|].
  destruct (Hc e (or_introl eq_refl)) as (cfg & Hcfg & _).
  unfold main_consumer_configs in Hcfg. rewrite Hskip in Hcfg. destruct Hcfg.
Qed.

Lemma main_report_has_a_row_for_every_success_witness :
  (forall e, In e (producers (fst (main healthy_world default_args))) ->
     exists table t, producer_table healthy_report = Some table /\ topic_is t e /\
                     In t (map row_topic table)) /\
  (forall e, In e (consumers (fst (main healthy_world default_args))) ->
     exists table t, consumer_table healthy_report = Some table /\ topic_is t e /\
                     In t (map row_topic table)) /\
  (args_skip_consumer default_args = true -> consumer_table healthy_report = None).
Proof.
apply (main_report_has_a_row_for_every_success healthy_world default_args healthy_report).
vm_compute. reflexivity.
Defined.

(* ------------------------------------------------------------------ *)
(** One run for each topic *)

Lemma round_half_even_comp q q' : (q == q')%Q -> Num.round_half_even q = Num.round_half_even q'.
Proof.
intros H. unfold Num.round_half_even.
assert (Hf : Qfloor q = Qfloor q') by now rewrite H.
rewrite Hf.
assert (Hc : ((q - inject_Z (Qfloor q')) ?= 1 # 2)%Q = ((q' - inject_Z (Qfloor q')) ?= 1 # 2)%Q)
  by now rewrite H.
now rewrite Hc.
Qed.

(** The rounded mean of one number is the number rounded. *)
Lemma round2_mean_single q : Num.round2 (Num.mean [Fin q]) = Num.round2 (Fin q).
Proof.
destruct (mean_fin [q]) as (q' & Hm & Hq'); [discriminate|].
simpl map in Hm. rewrite Hm. unfold Num.round2. do 2 f_equal.
f_equal. apply round_half_even_comp. rewrite Hq'. unfold average. simpl.
rewrite Qplus_0_r. unfold Qdiv. change (/ inject_Z 1)%Q with 1%Q. now rewrite Qmult_1_r.
Qed.

Lemma filter_none {A : Type} (p : A -> bool) xs :
  (forall x, In x xs -> p x = false) -> filter p xs = [].
Proof.
induction xs as [|x xs IH]; intros H; simpl; [reflexivity|].
rewrite (H x (or_introl eq_refl)). apply IH. intros y Hy. apply H. now right.
Qed.

Section One_run_for_each_topic.

Context {C : Type}.
Variable key : C -> string.
Variable kind : string.
Variable cfgs : list C.
Variable rs : list dict.

Hypothesis Hruns :
  Forall2 (fun cfg r => recorded r = true ->
             topic_is (key cfg) r /\ cell_is "test_type" kind r = true) cfgs rs.

(** The successful outcomes of the other test type: none. *)
Lemma other_kind_empty other : kind <> other ->
  filter (cell_is "test_type" other) (successes (filter recorded rs)) = [].
Proof.
intros Hne. apply filter_none. intros e He.
unfold successes in He. apply filter_In in He as [He _].
destruct (Forall2_in_filter _ _ _ _ _ Hruns He) as (cfg & _ & _ & Hk).
destruct (cell_is "test_type" other e) eqn:Ho; [|reflexivity].
exfalso. apply Hne. exact (cell_is_functional _ _ _ _ Hk Ho).
Qed.

(** The successful outcomes with the topic [t]: the topic of a configuration. *)
Lemma group_topic_configured t e :
  In e (filter (cell_is "topic" t)
          (filter (cell_is "test_type" kind) (successes (filter recorded rs)))) ->
  In t (map key cfgs).
Proof.
intros He. apply filter_In in He as [He Ht]. apply filter_In in He as [He _].
unfold successes in He. apply filter_In in He as [He _].
destruct (Forall2_in_filter _ _ _ _ _ Hruns He) as (cfg & Hcfg & Hk & _).
apply cell_is_iff in Ht. unfold topic_is in Hk. rewrite Hk in Ht. injection Ht as <-.
now apply in_map.
Qed.

End One_run_for_each_topic.

(** When no two configurations share a topic, at most one successful
    outcome has a given topic. *)
Lemma group_at_most_one {C : Type} (key : C -> string) (kind : string) cfgs rs t :
  Forall2 (fun cfg r => recorded r = true ->
             topic_is (key cfg) r /\ cell_is "test_type" kind r = true) cfgs rs ->
  NoDup (map key cfgs) ->
  List.length (filter (cell_is "topic" t)
                 (filter (cell_is "test_type" kind) (successes (filter recorded rs)))) <= 1.
Proof.
induction 1 as [|cfg r cfgs rs Hr Hrest IH]; intros Hnd; [simpl; lia|].
simpl map in Hnd. apply NoDup_cons_iff in Hnd as [Hfresh Hnd].
specialize (IH Hnd). unfold successes in *. cbn [filter].
destruct (recorded r) eqn:Hrec; [|exact IH]. cbn [filter].
destruct (Hr eq_refl) as [Hk _]. clear Hr.
destruct (cell_is "status" "success" r); [|exact IH]. cbn [filter].
destruct (cell_is "test_type" kind r); [|exact IH]. cbn [filter].
destruct (cell_is "topic" t r) eqn:Ht; [|exact IH].
apply cell_is_iff in Ht. unfold topic_is in Hk.
rewrite Hk in Ht. injection Ht as <-.
destruct (filter (cell_is "topic" (key cfg)) _) as [|e es] eqn:E; [simpl; lia|].
exfalso. apply Hfresh.
apply (group_topic_configured key kind cfgs rs Hrest (key cfg) e).
unfold successes. rewrite E. now left.
Qed.

Lemma successes_app xs ys : successes (xs ++ ys) = (successes xs ++ successes ys)%list.
Proof. apply filter_app. Qed.

Lemma main_topics_distinct args :
  NoDup (map p_topic (main_producer_configs args)) /\
  NoDup (map c_topic (default (main_consumer_configs args) [])).
Proof.
unfold main_consumer_configs. split; [|destruct (args_skip_consumer args)];
  simpl; repeat constructor; simpl; intuition discriminate.
Qed.

(** A row of a table over a group of one outcome shows the numbers of that
    outcome, rounded. *)
Lemma row_of_single_group f b table row e : summary_table f b = Ok table ->
  In row table -> of_topic (row_topic row) (rows f) = [e] ->
  (forall q, Dict.get "throughput_mb_sec" e = Some (VFloat (Fin q)) ->
     row_throughput_mb_sec row = Num.round2 (Fin q)) /\
  (forall q, Dict.get "records_per_sec" e = Some (VFloat (Fin q)) ->
     row_records_per_sec row = Num.round2 (Fin q)).
Proof.
intros Ht Hrow He.
destruct (summary_table_row_all _ _ _ _ Ht Hrow) as (tp & rps & Htp & Hrps & -> & -> & _).
unfold group_mean in Htp, Hrps. fold (of_topic (row_topic row) (rows f)) in Htp, Hrps.
rewrite He in Htp, Hrps. simpl map in Htp, Hrps. cbn [map_result] in Htp, Hrps.
split; intros q Hq.
- rewrite Hq in Htp. simpl in Htp. apply Ok_inj in Htp. subst tp. apply round2_mean_single.
- rewrite Hq in Hrps. simpl in Hrps. apply Ok_inj in Hrps. subst rps. apply round2_mean_single.
Qed.

Lemma length_one_in {A : Type} (xs : list A) x :
  List.length xs <= 1 -> In x xs -> xs = [x].
Proof.
destruct xs as [|y [|z xs]]; simpl; intros Hlen Hin; [destruct Hin| |lia].
destruct Hin as [->|[]]. reflexivity.
Qed.

Lemma row_topic_has_outcome f b table row : summary_table f b = Ok table ->
  In row table -> exists e, In e (of_topic (row_topic row) (rows f)).
Proof.
intros Ht Hrow. pose proof (summary_table_topics _ _ _ Ht) as Htopics.
assert (Hin : In (row_topic row) (map row_topic table)) by now apply in_map.
rewrite Htopics in Hin. apply filter_In in Hin as [_ Hin].
unfold has_topic in Hin. apply existsb_exists in Hin as (e & He & Hte).
exists e. unfold of_topic. apply filter_In. auto.
Qed.



(* ------------------------------------------------------------------ *)
(** When the report is built *)

Lemma numeric_column_total f c :
  has_column f c = true -> Forall (numeric_ok c) (rows f) ->
  exists xs, numeric_column f c = Ok xs /\ readings c (rows f) = Ok xs.
Proof.
intros Hc Hn. unfold numeric_column, column, readings. rewrite Hc. cbn [bind].
destruct (map_result_total numeric (map (Dict.get c) (rows f))) as [xs Hxs].
- intros cell Hcell. apply in_map_iff in Hcell as (r & <- & Hr).
  rewrite Forall_forall in Hn. exact (Hn r Hr).
- exists xs. split; assumption.
Qed.

Lemma read_column_total f c : has_column f c = true -> read_columns f false [c] = Ok tt.
Proof. intros Hc. simpl. unfold column. now rewrite Hc. Qed.

Lemma read_numeric_total f c :
  has_column f c = true -> Forall (numeric_ok c) (rows f) -> read_columns f true [c] = Ok tt.
Proof.
intros Hc Hn. destruct (numeric_column_total f c Hc Hn) as (xs & Hxs & _).
simpl. now rewrite Hxs.
Qed.

Lemma idxmax_total xs x : In x xs -> Num.is_nan x = false ->
  exists i, Num.idxmax xs = Some i /\ i < List.length xs.
Proof.
intros Hin Hx. unfold Num.idxmax.
pose proof (argmax_from_first_greatest xs [] None) as H. simpl in H.
destruct (Num.argmax_from 0 None xs) as [[i b]|].
- destruct H as (Hnth & _); [intros y []|]. exists i. split; [reflexivity|].
  apply nth_error_Some. congruence.
- specialize (H (fun y (Hy : False) => match Hy with end) x Hin). congruence.
Qed.

Section Reportable_rows.

Variable f : frame.

Hypothesis Hrows : Forall reportable (rows f).
Hypothesis Hcolumns : forall e k, In e (rows f) -> Dict.mem k e = true -> has_column f k = true.

Lemma reportable_numeric k :
  In k ["throughput_mb_sec"; "records_per_sec"; "records_sent"; "messages_consumed";
        "avg_latency_ms"; "max_latency_ms"] ->
  Forall (numeric_ok k) (rows f).
Proof.
intros Hk. eapply Forall_impl; [|exact Hrows]. intros e He.
destruct He as (_ & _ & _ & (v & Hv & _) & Hr & Hs & Hm & Ha & Hx & _).
simpl in Hk.
destruct Hk as [<-|[<-|[<-|[<-|[<-|[<-|[]]]]]]];
  try (now apply float_or_absent_numeric).
- exists v. now rewrite Hv.
- destruct Hr as [x Hx']. exists x. now rewrite Hx'.
Qed.

Hypothesis Hsome : rows f <> [].

Lemma reportable_columns k :
  In k ["test_name"; "topic"; "throughput_mb_sec"; "records_per_sec"] ->
  has_column f k = true.
Proof.
intros Hk. destruct (rows f) as [|e es] eqn:E; [congruence|].
apply Forall_inv in Hrows.
destruct Hrows as (_ & (t & Ht) & Hname & (v & Hv & _) & (x & Hx) & _).
apply (Hcolumns e); [now left|].
simpl in Hk. destruct Hk as [<-|[<-|[<-|[<-|[]]]]].
- exact Hname.
- exact (mem_get _ _ _ Ht).
- exact (mem_get _ _ _ Hv).
- exact (mem_get _ _ _ Hx).
Qed.

(** The four callouts are computed. *)
Lemma reportable_overall count_col :
  In count_col ["records_sent"; "messages_consumed"] ->
  exists r, overall f count_col = Ok r.
Proof.
intros Hcount. unfold overall.
assert (Htotal : exists total,
          (if has_column f count_col
           then xs <- numeric_column f count_col ;; Ok (Num.sum xs)
           else Ok (Fin 0)) = Ok total).
{ destruct (has_column f count_col) eqn:Hc; [|eauto].
  destruct (numeric_column_total f count_col Hc) as (xs & -> & _); [|simpl; eauto].
  apply reportable_numeric. simpl in *. tauto. }
destruct Htotal as [total ->]. cbn [bind].
destruct (numeric_column_total f "throughput_mb_sec") as (tps & -> & Htps).
{ apply reportable_columns. simpl. tauto. }
{ apply reportable_numeric. simpl. tauto. }
cbn [bind].
assert (Hmax : exists i, Num.idxmax tps = Some i /\ i < List.length tps).
{ destruct (rows f) as [|e es] eqn:E; [congruence|].
  pose proof (Forall_inv Hrows) as (_ & _ & _ & (v & Hv & Hnan) & _).
  destruct (readings_nth _ _ _ Htps) as [Hleft _].
  destruct (Hleft 0 e eq_refl) as (x & Hx & Hnum).
  rewrite Hv in Hnum. simpl in Hnum. apply Ok_inj in Hnum. subst x.
  apply (idxmax_total tps v); [exact (nth_error_In _ _ Hx)|].
  destruct v; [reflexivity | reflexivity | congruence]. }
destruct Hmax as (i & -> & Hi).
unfold column. rewrite reportable_columns by (simpl; tauto). cbn [bind].
assert (Hlen : List.length tps = List.length (rows f)).
{ unfold readings in Htps. apply map_result_ok in Htps.
  apply Forall2_length in Htps. now rewrite length_map in Htps. }
rewrite (index_nth _ _ None) by (rewrite length_map; lia). cbn [bind]. eauto.
Qed.

(** A summary table is computed, with the latency column when asked for. *)
Lemma reportable_table b : exists table, summary_table f b = Ok table.
Proof.
apply summary_table_total.
- apply reportable_columns. simpl. tauto.
- apply reportable_columns. simpl. tauto.
- apply reportable_columns. simpl. tauto.
- apply reportable_numeric. simpl. tauto.
- apply reportable_numeric. simpl. tauto.
- intros _. apply reportable_numeric. simpl. tauto.
Qed.

(** The columns the charts of one test type read. *)
Lemma reportable_reads :
  read_columns f false ["test_name"] = Ok tt /\
  read_columns f true ["throughput_mb_sec"] = Ok tt /\
  read_columns f false ["topic"] = Ok tt /\
  read_columns f true ["records_per_sec"] = Ok tt /\
  (has_column f "avg_latency_ms" = true ->
   read_columns f true ["avg_latency_ms"] = Ok tt).
Proof.
repeat split.
- apply read_column_total, reportable_columns. simpl. tauto.
- apply read_numeric_total; [apply reportable_columns | apply reportable_numeric];
    simpl; tauto.
- apply read_column_total, reportable_columns. simpl. tauto.
- apply read_numeric_total; [apply reportable_columns | apply reportable_numeric];
    simpl; tauto.
- intros Hl. apply read_numeric_total; [exact Hl | apply reportable_numeric]. simpl. tauto.
Qed.

End Reportable_rows.

Lemma frame_not_empty_rows f : frame_empty f = false -> rows f <> [].
Proof.
unfold frame_empty. destruct (columns f); [discriminate|].
destruct (rows f); [discriminate | discriminate].
Qed.

Lemma read_latency_total f :
  Forall reportable (rows f) ->
  has_column f "avg_latency_ms" = true -> has_column f "max_latency_ms" = true ->
  read_columns f true ["avg_latency_ms"; "max_latency_ms"] = Ok tt.
Proof.
intros Hrows Ha Hm.
destruct (numeric_column_total f "avg_latency_ms" Ha) as (xs & Hxs & _);
  [apply reportable_numeric; [assumption | simpl; tauto]|].
destruct (numeric_column_total f "max_latency_ms" Hm) as (ys & Hys & _);
  [apply reportable_numeric; [assumption | simpl; tauto]|].
cbn [read_columns]. rewrite Hxs. cbn [bind]. rewrite Hys. reflexivity.
Qed.

Section Reportable_generator.

Variable self : ReportGenerator.

Hypothesis Pcov : covers (producer_df self).
Hypothesis Ccov : covers (consumer_df self).
Hypothesis Prows : Forall reportable (rows (producer_df self)).
Hypothesis Crows : Forall reportable (rows (consumer_df self)).
Hypothesis Hone :
  frame_empty (producer_df self) = true -> frame_empty (consumer_df self) = false.
Hypothesis Hlatency :
  has_column (producer_df self) "avg_latency_ms" = true ->
  has_column (producer_df self) "max_latency_ms" = true.

(** Every column the charts read is there and holds numbers where numbers
    are read. *)
Lemma reportable_charts : _create_charts self = Ok tt.
Proof.
unfold _create_charts.
destruct (frame_empty (producer_df self)) eqn:Ep;
  destruct (frame_empty (consumer_df self)) eqn:Ec; cbn [negb andb].
- specialize (Hone eq_refl). discriminate Hone.
- destruct (reportable_reads _ Crows Ccov (frame_not_empty_rows _ Ec))
    as (R1 & R2 & R3 & R4 & _).
  rewrite R1. cbn [bind]. rewrite R2. cbn [bind]. rewrite R3. cbn [bind].
  rewrite R4. reflexivity.
- destruct (reportable_reads _ Prows Pcov (frame_not_empty_rows _ Ep))
    as (R1 & R2 & R3 & R4 & _).
  rewrite R1. cbn [bind]. rewrite R2. cbn [bind]. rewrite R3. cbn [bind].
  rewrite R4. cbn [bind].
  destruct (has_column (producer_df self) "avg_latency_ms") eqn:Hl; [|reflexivity].
  apply read_latency_total; auto.
- destruct (reportable_reads _ Prows Pcov (frame_not_empty_rows _ Ep))
    as (P1 & P2 & P3 & P4 & P5).
  destruct (reportable_reads _ Crows Ccov (frame_not_empty_rows _ Ec))
    as (C1 & C2 & C3 & C4 & _).
  rewrite P1. cbn [bind]. rewrite P2. cbn [bind]. rewrite P3. cbn [bind].
  assert (Hl : (if has_column (producer_df self) "avg_latency_ms"
                then read_columns (producer_df self) true ["avg_latency_ms"]
                else Ok tt) = Ok tt).
  { destruct (has_column (producer_df self) "avg_latency_ms"); [now apply P5 | reflexivity]. }
  rewrite Hl. cbn [bind]. rewrite C1. cbn [bind]. rewrite C2. cbn [bind].
  rewrite C3. cbn [bind]. rewrite C4. cbn [bind]. exact P4.
Qed.

(** The summary is computed. *)
Lemma reportable_summary : exists rep, _generate_summary_html self = Ok rep.
Proof.
unfold _generate_summary_html.
assert (Hstats : exists stats,
          (if negb (frame_empty (producer_df self))
           then overall (producer_df self) "records_sent"
           else overall (consumer_df self) "messages_consumed") = Ok stats).
{ destruct (frame_empty (producer_df self)) eqn:Ep; cbn [negb].
  - apply (reportable_overall _ Crows Ccov (frame_not_empty_rows _ (Hone eq_refl))).
    simpl. tauto.
  - apply (reportable_overall _ Prows Pcov (frame_not_empty_rows _ Ep)). simpl. tauto. }
destruct Hstats as ([[[total avg] mx] best] & ->). cbn [bind].
assert (Hp : exists pt,
          (if negb (frame_empty (producer_df self))
           then t <- summary_table (producer_df self)
                       (has_column (producer_df self) "avg_latency_ms") ;; Ok (Some t)
           else Ok None) = Ok pt).
{ destruct (frame_empty (producer_df self)) eqn:Ep; cbn [negb]; [eauto|].
  destruct (reportable_table _ Prows Pcov (frame_not_empty_rows _ Ep)
              (has_column (producer_df self) "avg_latency_ms")) as [t ->].
  cbn [bind]. eauto. }
destruct Hp as [pt ->]. cbn [bind].
assert (Hc : exists ct,
          (if negb (frame_empty (consumer_df self))
           then t <- summary_table (consumer_df self) false ;; Ok (Some t)
           else Ok None) = Ok ct).
{ destruct (frame_empty (consumer_df self)) eqn:Ec; cbn [negb]; [eauto|].
  destruct (reportable_table _ Crows Ccov (frame_not_empty_rows _ Ec) false) as [t ->].
  cbn [bind]. eauto. }
destruct Hc as [ct ->]. cbn [bind]. eauto.
Qed.

End Reportable_generator.

Lemma build_report_unfold results : successes results <> [] ->
  has_column (DataFrame (successes results)) "test_type" = true ->
  build_report results
  = (_ <- _create_charts (generator results) ;;
     summary <- _generate_summary_html (generator results) ;;
     Ok (Some summary)).
Proof.
intros Hs Ht. pose proof (success_frame_not_empty results Hs) as Hne.
unfold build_report, ReportGenerator_init, generator. fold (successes results).
destruct (successes results) as [|r0 rs] eqn:E; [congruence|].
rewrite Hne. cbn [negb]. unfold column. rewrite Ht. cbn [bind].
unfold generate_html_report. cbn [df]. rewrite Hne. reflexivity.
Qed.

(** Reportable successes are enough for the report to be built. *)
Lemma reportable_report results :
  successes results <> [] -> Forall reportable (successes results) ->
  exists rep, build_report results = Ok (Some rep).
Proof.
intros Hs Hall.
assert (Hsub : forall v, Forall reportable
                 (rows (select (DataFrame (successes results)) "test_type" v))).
{ intros v. rewrite rows_select. cbn [rows DataFrame]. rewrite Forall_forall in *.
  intros e He. apply filter_In in He as [He _]. auto. }
assert (Htype : has_column (DataFrame (successes results)) "test_type" = true).
{ destruct (successes results) as [|e es] eqn:E; [congruence|].
  pose proof (Forall_inv Hall) as ([Hk|Hk] & _); apply cell_is_iff in Hk;
    apply (covers_DataFrame (e :: es) e); try (now left); exact (mem_get _ _ _ Hk). }
assert (Hone : frame_empty (producer_df (generator results)) = true ->
               frame_empty (consumer_df (generator results)) = false).
{ intros Hp. apply (generator_has_producer results Hs) in Hp.
  destruct (frame_empty (consumer_df (generator results))) eqn:Hc; [|reflexivity].
  apply (generator_has_consumer results Hs) in Hc. exfalso.
  destruct (successes results) as [|e es] eqn:E; [congruence|].
  pose proof (Forall_inv Hall) as ([Hk|Hk] & _).
  - unfold producers in Hp. rewrite E in Hp. cbn [filter] in Hp. rewrite Hk in Hp.
    discriminate Hp.
  - unfold consumers in Hc. rewrite E in Hc. cbn [filter] in Hc. rewrite Hk in Hc.
    discriminate Hc. }
assert (Hlat : has_column (producer_df (generator results)) "avg_latency_ms" = true ->
               has_column (producer_df (generator results)) "max_latency_ms" = true).
{ change (has_column (DataFrame (successes results)) "avg_latency_ms" = true ->
          has_column (DataFrame (successes results)) "max_latency_ms" = true).
  rewrite !has_column_DataFrame. intros H. apply existsb_exists in H as (e & He & Hm).
  apply existsb_exists. exists e. split; [assumption|].
  rewrite Forall_forall in Hall.
  destruct (Hall e He) as (_ & _ & _ & _ & _ & _ & _ & _ & _ & Himp). now apply Himp. }
rewrite (build_report_unfold results Hs Htype).
rewrite (reportable_charts (generator results)); try assumption;
  try (apply covers_select, covers_DataFrame); try apply Hsub.
cbn [bind].
destruct (reportable_summary (generator results)) as [rep ->]; try assumption;
  try (apply covers_select, covers_DataFrame); try apply Hsub.
cbn [bind]. eauto.
Qed.

(** X19: when there is a successful outcome and every successful outcome
    has its test type (producer or consumer), topic and test name, a
    throughput that is a number, a rate, and floats wherever it has a count
    or a latency (with the maximum latency whenever it has the average one),
    the report is built: no column read fails, whatever the number of
    outcomes and whatever the failed ones hold. *)
Theorem reportable_successes_give_a_report (results : list dict) :
  successes results <> [] -> Forall reportable (successes results) ->
  exists rep, build_report results = Ok (Some rep).
Proof. apply reportable_report. Qed.

Lemma reportable_successes_give_a_report_witness :
  exists rep, build_report mixed_results = Ok (Some rep).
Proof.
apply (reportable_successes_give_a_report mixed_results).
- vm_compute. discriminate.
- replace (successes mixed_results) with [mixed_success] by (vm_compute; reflexivity).
  constructor; [|constructor].
  unfold reportable, float_or_absent, float_at, topic_is.
  split; [right; vm_compute; reflexivity|].
  split; [eexists; vm_compute; reflexivity|].
  split; [vm_compute; reflexivity|].
  split; [eexists; split; [vm_compute; reflexivity | discriminate]|].
  split; [eexists; vm_compute; reflexivity|].
  split; [left; vm_compute; reflexivity|].
  split; [right; eexists; vm_compute; reflexivity|].
  split; [left; vm_compute; reflexivity|].
  split; [left; vm_compute; reflexivity|].
  vm_compute. discriminate.
Defined.

(* ------------------------------------------------------------------ *)
(** From the runs to the report *)

Lemma parse_producer_floats output d : _parse_producer_output output = Ok d -> only_floats d.
Proof.
unfold _parse_producer_output.
destruct (Re.search pattern output) as [m|]; [|intros H; inversion H; constructor].
repeat match goal with
| |- context [bind ?x _] => destruct x; simpl; [|intros H; discriminate H]
end.
intros H; inversion H. repeat constructor; simpl; eauto.
Qed.

Lemma parse_consumer_shape output d : _parse_consumer_output output = Ok d ->
  (exists n, Dict.keys d = firstn n consumer_keys) /\ only_floats d.
Proof.
unfold _parse_consumer_output. intros H.
destruct (consumer_scan_result _ _ H) as [->|[row Hrow]].
- split; [now exists 0 | constructor].
- destruct (consumer_row_keys _ _ Hrow) as (n & Hn & Hf). eauto.
Qed.

Lemma firstn_subset {A : Type} (x : A) n : forall xs, In x (firstn n xs) -> In x xs.
Proof.
induction n as [|n IH]; intros [|y xs]; simpl; try tauto.
intros [H|H]; [now left | right; now apply IH].
Qed.

Lemma get_absent k d : ~ In k (Dict.keys d) -> Dict.get k d = None.
Proof.
induction d as [|[k0 v0] d IH]; simpl; [reflexivity|]. intros H.
destruct (String.eqb_spec k k0) as [->|_]; [tauto | apply IH; tauto].
Qed.

Lemma get_present k d : In k (Dict.keys d) -> Dict.mem k d = true.
Proof.
unfold Dict.mem. induction d as [|[k0 v0] d IH]; simpl; [tauto|]. intros H.
destruct (String.eqb_spec k k0) as [->|Hne]; [reflexivity|].
apply IH. destruct H as [H|H]; [congruence | assumption].
Qed.

Lemma only_floats_cell d k : only_floats d -> float_or_absent k d.
Proof.
intros H. unfold float_or_absent, float_at.
destruct (Dict.get k d) as [v|] eqn:Hv; [right | now left].
destruct (only_floats_get _ _ _ H Hv) as [x ->]. eauto.
Qed.

(** The outcome of a successful run: the parsed metrics with the fields of
    the run written over them.  It is reportable as soon as it is
    measured. *)
Lemma success_outcome_reportable metrics u :
  only_floats metrics ->
  (forall k, In k report_metrics -> ~ In k (Dict.keys u)) ->
  (Dict.mem "avg_latency_ms" metrics = true -> Dict.mem "max_latency_ms" metrics = true) ->
  (cell_is "test_type" "producer" (Dict.update metrics u) = true \/
   cell_is "test_type" "consumer" (Dict.update metrics u) = true) ->
  (exists t, topic_is t (Dict.update metrics u)) ->
  Dict.mem "test_name" (Dict.update metrics u) = true ->
  measured (Dict.update metrics u) -> reportable (Dict.update metrics u).
Proof.
intros Hf Hu Hlat Htype Htopic Hname [Htp Hrate].
assert (Hget : forall k, In k report_metrics ->
          Dict.get k (Dict.update metrics u) = Dict.get k metrics)
  by (intros k Hk; apply dict_get_update_other; now apply Hu).
assert (Hcell : forall k, In k report_metrics -> float_or_absent k (Dict.update metrics u)).
{ intros k Hk. pose proof (only_floats_cell metrics k Hf) as H.
  unfold float_or_absent, float_at in *. now rewrite (Hget k Hk). }
unfold reportable.
split; [exact Htype|]. split; [exact Htopic|]. split; [exact Hname|]. split; [exact Htp|].
split.
{ destruct (Hcell "records_per_sec") as [H|H]; [simpl; tauto| |exact H].
  unfold Dict.mem in Hrate. rewrite H in Hrate. discriminate Hrate. }
split; [apply Hcell; simpl; tauto|]. split; [apply Hcell; simpl; tauto|].
split; [apply Hcell; simpl; tauto|]. split; [apply Hcell; simpl; tauto|].
unfold Dict.mem. rewrite !Hget by (simpl; tauto). exact Hlat.
Qed.

Lemma producer_success_reportable env self cfg :
  cell_is "status" "success" (snd (run_producer_test env self cfg)) = true ->
  measured (snd (run_producer_test env self cfg)) ->
  reportable (snd (run_producer_test env self cfg)).
Proof.
unfold run_producer_test.
destruct (outcome (env _)) as [rc out err| |msg]; cbn [snd];
  [|intros H; discriminate H|intros H; discriminate H].
destruct (rc =? 0)%Z; [|intros H; discriminate H].
destruct (_parse_producer_output out) as [metrics|e] eqn:Hparse; cbn [snd];
  [|intros H; discriminate H].
intros _. apply success_outcome_reportable.
- exact (parse_producer_floats _ _ Hparse).
- intros k Hk. simpl in Hk. cbn [Dict.keys map fst]. simpl.
  repeat (destruct Hk as [<-|Hk]; [intuition discriminate|]). destruct Hk.
- intros H. destruct (parse_producer_all_or_nothing _ _ Hparse) as [->|Hkeys].
  + discriminate H.
  + apply get_present. rewrite Hkeys. simpl. tauto.
- left. apply cell_is_iff. unfold Dict.update. cbn [fold_left fst snd].
  rewrite !dict_get_set_other by discriminate. apply dict_get_set_same.
- eexists. unfold topic_is, Dict.update. cbn [fold_left fst snd].
  rewrite !dict_get_set_other by discriminate. apply dict_get_set_same.
- unfold Dict.mem, Dict.update. cbn [fold_left fst snd].
  rewrite !dict_get_set_other by discriminate. now rewrite dict_get_set_same.
Qed.

Lemma consumer_success_reportable env self cfg :
  cell_is "status" "success" (snd (run_consumer_test env self cfg)) = true ->
  measured (snd (run_consumer_test env self cfg)) ->
  reportable (snd (run_consumer_test env self cfg)).
Proof.
unfold run_consumer_test.
destruct (outcome (env _)) as [rc out err| |msg]; cbn [snd];
  [|intros H; discriminate H|intros H; discriminate H].
destruct (rc =? 0)%Z; [|intros H; discriminate H].
destruct (_parse_consumer_output out) as [metrics|e] eqn:Hparse; cbn [snd];
  [|intros H; discriminate H].
destruct (parse_consumer_shape _ _ Hparse) as [[n Hkeys] Hfloats].
intros _. apply success_outcome_reportable.
- exact Hfloats.
- intros k Hk. simpl in Hk. cbn [Dict.keys map fst]. simpl.
  repeat (destruct Hk as [<-|Hk]; [intuition discriminate|]). destruct Hk.
- intros H. exfalso. unfold Dict.mem in H. rewrite get_absent in H; [discriminate H|].
  rewrite Hkeys. intros Hin. apply firstn_subset in Hin. simpl in Hin. intuition discriminate.
- right. apply cell_is_iff. unfold Dict.update. cbn [fold_left fst snd].
  rewrite !dict_get_set_other by discriminate. apply dict_get_set_same.
- eexists. unfold topic_is, Dict.update. cbn [fold_left fst snd].
  rewrite !dict_get_set_other by discriminate. apply dict_get_set_same.
- unfold Dict.mem, Dict.update. cbn [fold_left fst snd].
  rewrite !dict_get_set_other by discriminate. now rewrite dict_get_set_same.
Qed.

(** X20: for the results of a suite run on a new object, a report is built
    as soon as there is a successful outcome and every successful outcome
    has a throughput that is a number and a rate; everything else the report
    reads is put there by the runners and the parsers. *)
Theorem measured_suite_gives_a_report (w : world) (self : KafkaBenchmark)
  (producer_configs : list producer_config)
  (consumer_configs : option (list consumer_config)) :
  results self = [] ->
  successes (results (run_test_suite w self producer_configs consumer_configs)) <> [] ->
  Forall measured
    (successes (results (run_test_suite w self producer_configs consumer_configs))) ->
  exists rep,
    build_report (results (run_test_suite w self producer_configs consumer_configs))
    = Ok (Some rep).
Proof.
intros Hnew Hsome Hall. apply reportable_report; [exact Hsome|].
destruct (suite_accumulates_recorded w self producer_configs consumer_configs) as [_ Hres].
rewrite Hnew in Hres. cbn [app] in Hres. rewrite Hres in *. clear Hres.
unfold suite_outcomes in *.
pose proof (returned_by_each run_producer_test w
              (fun _ r => cell_is "status" "success" r = true -> measured r -> reportable r)
              (fun env s c => producer_success_reportable env s c)
              producer_configs (self, 0)) as Hp.
pose proof (returned_by_each run_consumer_test w
              (fun _ r => cell_is "status" "success" r = true -> measured r -> reportable r)
              (fun env s c => consumer_success_reportable env s c)
              (default consumer_configs [])
              (run_each run_producer_test w producer_configs (self, 0))) as Hc.
rewrite Forall_forall in *. intros e He. pose proof (Hall e He) as Hm.
unfold successes in He. apply filter_In in He as [He Hs].
apply filter_In in He as [He _]. apply in_app_or in He as [He|He].
- destruct (Forall2_in_right _ _ _ _ Hp He) as (cfg & _ & H). now apply H.
- destruct (Forall2_in_right _ _ _ _ Hc He) as (cfg & _ & H). now apply H.
Qed.

Lemma measured_suite_gives_a_report_witness :
  exists rep,
    build_report
      (results (run_test_suite healthy_world
                  {| bootstrap_servers := "localhost:29092"; kafka_bin_path := "";
                     results := [] |}
                  (main_producer_configs default_args)
                  (main_consumer_configs default_args)))
    = Ok (Some rep).
Proof.
apply measured_suite_gives_a_report.
- reflexivity.
- vm_compute. discriminate.
- replace (successes _) with (successes healthy_results) by (vm_compute; reflexivity).
  replace (successes healthy_results) with healthy_results by (vm_compute; reflexivity).
  unfold healthy_results.
  repeat (apply Forall_cons;
          [split; [eexists; split; [reflexivity | discriminate] | reflexivity]|]).
  apply Forall_nil.
Defined.
